(** * Web_scrapping: a shallow embedding of the three Selenium scrapers

    [myntra2_fast.py] (listing pages, one CSV append per page),
    [myntra_new.py] and [nyakaa_new.py] (product pages, one save at the end).

    The browser is an oracle: a [world] answers [driver.get], a [page] and an
    [element] answer DOM queries, and every call may raise.  Python values are
    modelled as they are used: [str] as [string], [None] as [None], exceptions
    as an error result, the file system as a finite map from file names to the
    rows written so far.  [time.sleep] has no observable effect and is left
    out. *)

From Stdlib Require Import Ascii String DecimalString DecimalNat.
From stdpp Require Import base strings list gmap.

Set Warnings "-register-all".

(** ** Python strings *)

Module Py.

(** [bool(s)] for a [str]: the empty string is falsy. *)
Definition truthy (s : string) : bool :=
  match s with
  | EmptyString => false
  | String _ _ => true
  end.

(** [bool(v)] for a value that is a [str] or [None]. *)
Definition truthy_opt (v : option string) : bool :=
  match v with
  | None => false
  | Some s => truthy s
  end.

(** [s.startswith(p)]. *)
Definition startswith (p s : string) : bool := String.prefix p s.

(** [sub in s]. *)
Definition contains (sub s : string) : bool :=
  match String.index 0 sub s with
  | Some _ => true
  | None => false
  end.

(** [s.find(sub, start)], with Python's -1 for no occurrence. *)
Definition find (sub s : string) (start : nat) : Z :=
  match String.index start sub s with
  | Some n => Z.of_nat n
  | None => (-1)%Z
  end.

(** [s[a:b]] for integers [a], [b] that are not negative. *)
Definition slice (s : string) (a b : nat) : string := String.substring a (b - a) s.

(** [s.split(sep)[0]] for a one-character separator: the part of [s] before
    the first [sep], all of [s] when there is none. *)
Fixpoint split_head (sep : ascii) (s : string) : string :=
  match s with
  | EmptyString => EmptyString
  | String c s' => if Ascii.eqb c sep then EmptyString else String c (split_head sep s')
  end.

(** [c.isspace()] on the ASCII range. *)
Definition isspace (c : ascii) : bool :=
  let n := nat_of_ascii c in
  ((9 <=? n) && (n <=? 13)) || ((28 <=? n) && (n <=? 32)).

Fixpoint lstrip_with (p : ascii → bool) (s : string) : string :=
  match s with
  | EmptyString => EmptyString
  | String c s' => if p c then lstrip_with p s' else s
  end.

Fixpoint rstrip_with (p : ascii → bool) (s : string) : string :=
  match s with
  | EmptyString => EmptyString
  | String c s' =>
      match rstrip_with p s' with
      | EmptyString => if p c then EmptyString else String c EmptyString
      | r => String c r
      end
  end.

(** [s.strip()]. *)
Definition strip (s : string) : string := rstrip_with isspace (lstrip_with isspace s).

Fixpoint mem_char (c : ascii) (chars : string) : bool :=
  match chars with
  | EmptyString => false
  | String d chars' => Ascii.eqb c d || mem_char c chars'
  end.

(** [s.strip(chars)]. *)
Definition strip_chars (chars s : string) : string :=
  rstrip_with (λ c, mem_char c chars) (lstrip_with (λ c, mem_char c chars) s).

(** [s.lower()] on the ASCII range. *)
Definition lower_char (c : ascii) : ascii :=
  let n := nat_of_ascii c in
  if (65 <=? n) && (n <=? 90) then ascii_of_nat (n + 32) else c.

Fixpoint lower (s : string) : string :=
  match s with
  | EmptyString => EmptyString
  | String c s' => String (lower_char c) (lower s')
  end.

(** [sep.join(l)]. *)
Fixpoint join (sep : string) (l : list string) : string :=
  match l with
  | [] => ""
  | [s] => s
  | s :: rest => s +:+ sep +:+ join sep rest
  end.

(** [str(n)] for an [int] that is not negative. *)
Definition str_nat (n : nat) : string := NilEmpty.string_of_uint (Nat.to_uint n).

(** [str(v)] inside an f-string for a value that is a [str] or [None]. *)
Definition str_opt (v : option string) : string := default "None" v.

(** The newline character of a string literal. *)
Definition nl : string := String (ascii_of_nat 10) EmptyString.

(** The one-character string holding a double quote. *)
Definition dquote : string := String (ascii_of_nat 34) EmptyString.

End Py.

(** ** Exceptions and fallible calls *)

(** The exception classes the scrapers can meet.  [WebDriverException] stands
    for any other subclass of [Exception] raised by the driver, [TypeError]
    for the one Python raises on [x in None].  [KeyboardInterrupt] derives
    from [BaseException] only. *)
Inductive exn :=
  | NoSuchElementException
  | TimeoutException
  | WebDriverException
  | TypeError
  | KeyboardInterrupt.

(** [isinstance(e, Exception)]: what [except Exception] catches. *)
Definition is_Exception (e : exn) : bool :=
  match e with
  | KeyboardInterrupt => false
  | _ => true
  end.

(** [str(e)]: the model keeps the name of the class and no message. *)
Definition str_exn (e : exn) : string :=
  match e with
  | NoSuchElementException => "NoSuchElementException"
  | TimeoutException => "TimeoutException"
  | WebDriverException => "WebDriverException"
  | TypeError => "TypeError"
  | KeyboardInterrupt => "KeyboardInterrupt"
  end.

Global Instance exn_eq_dec : EqDecision exn.
Proof. solve_decision. Defined.

(** The outcome of a call that reads the browser and changes nothing. *)
Inductive result (A : Type) :=
  | Ok (a : A)
  | Raise (e : exn).
Global Arguments Ok {A} a.
Global Arguments Raise {A} e.

Definition rbind {A B} (r : result A) (k : A → result B) : result B :=
  match r with
  | Ok a => k a
  | Raise e => Raise e
  end.

(** [try: r except: d] with a bare [except], which catches everything. *)
Definition try_bare {A} (r : result A) (d : A) : A :=
  match r with
  | Ok a => a
  | Raise _ => d
  end.

(** [try: r except cls: d]: the handler runs for the one class only. *)
Definition try_only {A} (cls : exn) (r : result A) (d : A) : result A :=
  match r with
  | Ok a => Ok a
  | Raise e => if decide (e = cls) then Ok d else Raise e
  end.

(** ** The DOM *)

Inductive By := CLASS_NAME | CSS_SELECTOR | XPATH | TAG_NAME.

Global Instance By_eq_dec : EqDecision By.
Proof. solve_decision. Defined.

(** A web element: its rendered text, its attributes, and the answer of
    [find_elements] below it. *)
Inductive element := Element {
  text : string;
  attributes : list (string * string);
  children : By → string → result (list element)
}.

(** The document the driver shows: the answer of [driver.find_elements], and
    what [driver.current_url] is once a term has been typed into the search
    box and RETURN pressed. *)
Record page := Page {
  dom : By → string → result (list element);
  submit_search : string → result string
}.

(** [driver.get(url)]: the document shown afterwards, or the error raised. *)
Record world := World {
  get : string → result page
}.

(** [e.get_attribute(name)]: [None] when the attribute is not set. *)
Fixpoint assoc (name : string) (l : list (string * string)) : option string :=
  match l with
  | [] => None
  | (k, v) :: rest => if String.eqb k name then Some v else assoc name rest
  end.

Definition get_attribute (e : element) (name : string) : option string :=
  assoc name (attributes e).

(** [find_element]: the first match, [NoSuchElementException] when there is
    none. *)
Definition first_match (r : result (list element)) : result element :=
  match r with
  | Ok (e :: _) => Ok e
  | Ok [] => Raise NoSuchElementException
  | Raise x => Raise x
  end.

(** Both the driver and an element answer queries. *)
Class SearchContext (T : Type) := find_elements : T → By → string → result (list element).
Global Instance page_context : SearchContext page := dom.
Global Instance element_context : SearchContext element := children.

Definition find_element `{SearchContext T} (ctx : T) (b : By) (sel : string) : result element :=
  first_match (find_elements ctx b sel).

(** [WebDriverWait(driver, t).until(EC.presence_of_all_elements_located(loc))]
    on a document that no longer changes: the matches when there is one,
    [TimeoutException] when there is none.  The wait ignores
    [NoSuchElementException] and lets any other error through. *)
Definition wait_all (pg : page) (b : By) (sel : string) : result (list element) :=
  match find_elements pg b sel with
  | Ok [] => Raise TimeoutException
  | Ok l => Ok l
  | Raise NoSuchElementException => Raise TimeoutException
  | Raise x => Raise x
  end.

(** ** Files, console and the scraper object *)

(** What [json.dump] writes. *)
Inductive json :=
  | JNull
  | JStr (s : string)
  | JList (items : list json)
  | JObject (members : list (string * json)).

(** A file is the sequence of what was written to it: the header row of a
    [csv.DictWriter], its data rows (one cell per field name), or a JSON
    document. *)
Inductive chunk :=
  | HeaderRow (fieldnames : list string)
  | DataRow (cells : list string)
  | JsonDoc (doc : json).

(** Everything a session can change.  [R] is the scraper's record type.
    [visited] lists the URLs given to [driver.get], oldest first; [quits]
    counts the calls of [driver.quit]; [driver] tells whether [self.driver]
    is set; [buffer] is the session's list of records ([all_products],
    [self.scraped_data]). *)
Record state (R : Type) := State {
  fs : gmap string (list chunk);
  stdout : list string;
  visited : list string;
  quits : nat;
  driver : bool;
  buffer : list R
}.
Global Arguments State {R} _ _ _ _ _ _.
Global Arguments fs {R} _.
Global Arguments stdout {R} _.
Global Arguments visited {R} _.
Global Arguments quits {R} _.
Global Arguments driver {R} _.
Global Arguments buffer {R} _.

(** The state before a scraper is created, with the files [files]. *)
Definition initial {R} (files : gmap string (list chunk)) : state R :=
  State files [] [] 0 false [].

(** How a call that changes the state ends: it returns, it raises, or the
    loop it runs has not finished within the steps it was given. *)
Inductive outcome (A : Type) :=
  | Returns (a : A)
  | Raises (e : exn)
  | Unfinished.
Global Arguments Returns {A} a.
Global Arguments Raises {A} e.
Global Arguments Unfinished {A}.

Definition M (R A : Type) : Type := state R → outcome A * state R.

Section Monad.
Context {R : Type}.

Definition ret {A} (a : A) : M R A := λ st, (Returns a, st).

Definition bind {A B} (m : M R A) (k : A → M R B) : M R B :=
  λ st, match m st with
        | (Returns a, st') => k a st'
        | (Raises e, st') => (Raises e, st')
        | (Unfinished, st') => (Unfinished, st')
        end.

Definition raise {A} (e : exn) : M R A := λ st, (Raises e, st).

Definition lift {A} (r : result A) : M R A :=
  match r with
  | Ok a => ret a
  | Raise e => raise e
  end.

(** [print(line)]. *)
Definition print (line : string) : M R unit :=
  λ st, (Returns tt, State (fs st) (stdout st ++ [line]) (visited st) (quits st) (driver st) (buffer st)).

(** [self.driver.get(url)]. *)
Definition driver_get (w : world) (url : string) : M R page :=
  λ st, let st' := State (fs st) (stdout st) (visited st ++ [url]) (quits st) (driver st) (buffer st) in
        match get w url with
        | Ok pg => (Returns pg, st')
        | Raise e => (Raises e, st')
        end.

(** [self.driver.quit()]. *)
Definition driver_quit : M R unit :=
  λ st, (Returns tt, State (fs st) (stdout st) (visited st) (S (quits st)) (driver st) (buffer st)).

(** [buffer.extend(records)]. *)
Definition extend (records : list R) : M R unit :=
  λ st, (Returns tt, State (fs st) (stdout st) (visited st) (quits st) (driver st) (buffer st ++ records)).

(** [open(name, 'w')] followed by the writes [chunks]: the old content is
    dropped. *)
Definition write_file (name : string) (chunks : list chunk) : M R unit :=
  λ st, (Returns tt, State (<[name := chunks]> (fs st)) (stdout st) (visited st) (quits st) (driver st) (buffer st)).

(** [open(name, 'a')] followed by the writes [chunks]: a missing file is
    created. *)
Definition append_file (name : string) (chunks : list chunk) : M R unit :=
  λ st, (Returns tt, State (<[name := default [] (fs st !! name) ++ chunks]> (fs st)) (stdout st) (visited st) (quits st) (driver st) (buffer st)).

(** [os.path.exists(name)]. *)
Definition path_exists (name : string) : M R bool :=
  λ st, (Returns (bool_decide (is_Some (fs st !! name))), st).

(** [buffer = []] and reading [buffer]. *)
Definition reset_buffer : M R unit :=
  λ st, (Returns tt, State (fs st) (stdout st) (visited st) (quits st) (driver st) []).

Definition read_buffer : M R (list R) := λ st, (Returns (buffer st), st).

(** [self.driver = webdriver.Chrome(...)] and reading [self.driver]. *)
Definition set_driver : M R unit :=
  λ st, (Returns tt, State (fs st) (stdout st) (visited st) (quits st) true (buffer st)).

Definition read_driver : M R bool := λ st, (Returns (driver st), st).

(** A run that is still inside its loop when the steps run out. *)
Definition unfinished {A} : M R A := λ st, (Unfinished, st).

(** [try: m except cls as e: h e]: the handler runs for the exceptions
    [catches] accepts, any other goes on. *)
Definition try_catch {A} (catches : exn → bool) (m : M R A) (h : exn → M R A) : M R A :=
  λ st, match m st with
        | (Raises e, st') => if catches e then h e st' else (Raises e, st')
        | other => other
        end.

(** [try: m finally: f].  [f] runs whether [m] returned or raised, and the
    outcome of [m] stands unless [f] itself raises.  A run that has not
    finished has not reached [f]. *)
Definition finally {A} (m : M R A) (f : M R unit) : M R A :=
  λ st, match m st with
        | (Unfinished, st') => (Unfinished, st')
        | (r, st') =>
            match f st' with
            | (Returns _, st'') => (r, st'')
            | (Raises e, st'') => (Raises e, st'')
            | (Unfinished, st'') => (Unfinished, st'')
            end
        end.

End Monad.

Notation "'let!' x ':=' m 'in' k" := (bind m (λ x, k))
  (at level 10, x binder, m at level 100, k at level 200).
Notation "m ';;' k" := (bind m (λ _, k))
  (at level 100, k at level 200, right associativity).

(** The classes named in [except] clauses. *)
Definition Exception : exn → bool := is_Exception.
Definition only (cls : exn) : exn → bool := λ e, bool_decide (e = cls).

(** * myntra2_fast.py: listing pages, saved page by page *)

Module Fast.

(** The [ProductInfo] dataclass.  A field set from [get_attribute] may hold
    [None]. *)
Record ProductInfo := {
  search_term : string;
  brand_name : option string;
  current_price : option string;
  product_rating : option string;
  product_title : option string;
  original_price : option string;
  sale_price : option string;
  discount_percent : option string;
  category_path : option string;
  product_link : option string;
  image_link : option string;
  review_count : option string;
  size_options : option string
}.

(** [ProductInfo(search_term=search_term)]: every other field at its default. *)
Definition new_product (search_term : string) : ProductInfo :=
  {| search_term := search_term;
     brand_name := Some "N/A"; current_price := Some "N/A"; product_rating := Some "N/A";
     product_title := Some "N/A"; original_price := Some "N/A"; sale_price := Some "N/A";
     discount_percent := Some "N/A"; category_path := Some "N/A"; product_link := Some "N/A";
     image_link := Some "N/A"; review_count := Some "N/A"; size_options := Some "N/A" |}.

(** [product.__dict__.get(name)]. *)
Definition getattr (p : ProductInfo) (name : string) : option (option string) :=
  if String.eqb name "search_term" then Some (Some (search_term p))
  else if String.eqb name "brand_name" then Some (brand_name p)
  else if String.eqb name "current_price" then Some (current_price p)
  else if String.eqb name "product_rating" then Some (product_rating p)
  else if String.eqb name "product_title" then Some (product_title p)
  else if String.eqb name "original_price" then Some (original_price p)
  else if String.eqb name "sale_price" then Some (sale_price p)
  else if String.eqb name "discount_percent" then Some (discount_percent p)
  else if String.eqb name "category_path" then Some (category_path p)
  else if String.eqb name "product_link" then Some (product_link p)
  else if String.eqb name "image_link" then Some (image_link p)
  else if String.eqb name "review_count" then Some (review_count p)
  else if String.eqb name "size_options" then Some (size_options p)
  else None.

(** [setattr(product, name, v)].  Every name the scraper passes is a field of
    the dataclass; for any other name the record is left as it is. *)
Definition setattr (p : ProductInfo) (name : string) (v : option string) : ProductInfo :=
  let 'Build_ProductInfo st bn cp pr pt op sp dp cat pl il rc so := p in
  if String.eqb name "brand_name" then Build_ProductInfo st v cp pr pt op sp dp cat pl il rc so
  else if String.eqb name "current_price" then Build_ProductInfo st bn v pr pt op sp dp cat pl il rc so
  else if String.eqb name "product_rating" then Build_ProductInfo st bn cp v pt op sp dp cat pl il rc so
  else if String.eqb name "product_title" then Build_ProductInfo st bn cp pr v op sp dp cat pl il rc so
  else if String.eqb name "original_price" then Build_ProductInfo st bn cp pr pt v sp dp cat pl il rc so
  else if String.eqb name "sale_price" then Build_ProductInfo st bn cp pr pt op v dp cat pl il rc so
  else if String.eqb name "discount_percent" then Build_ProductInfo st bn cp pr pt op sp v cat pl il rc so
  else if String.eqb name "category_path" then Build_ProductInfo st bn cp pr pt op sp dp v pl il rc so
  else if String.eqb name "product_link" then Build_ProductInfo st bn cp pr pt op sp dp cat v il rc so
  else if String.eqb name "image_link" then Build_ProductInfo st bn cp pr pt op sp dp cat pl v rc so
  else if String.eqb name "review_count" then Build_ProductInfo st bn cp pr pt op sp dp cat pl il v so
  else if String.eqb name "size_options" then Build_ProductInfo st bn cp pr pt op sp dp cat pl il rc v
  else p.

(** The [extraction_map] of [extract_product_details], in insertion order:
    field, class name, read mode. *)
Definition extraction_map : list (string * (string * string)) :=
  [ ("brand_name", ("product-brand", "text"));
    ("current_price", ("product-discountedPrice", "text"));
    ("product_rating", ("product-ratingsContainer", "text"));
    ("product_title", ("product-product", "text"));
    ("original_price", ("product-strike", "text"));
    ("sale_price", ("product-discountedPrice", "text"));
    ("discount_percent", ("product-discountPercentage", "text")) ].

(** [element.text if attr_type == "text" else element.get_attribute(attr_type)]. *)
Definition read (e : element) (attr_type : string) : option string :=
  if String.eqb attr_type "text" then Some (text e) else get_attribute e attr_type.

(** [try: x = find(...); product = set x except NoSuchElementException: pass]. *)
Definition on_found (found : result element) (set : element → ProductInfo) (product : ProductInfo)
    : result ProductInfo :=
  try_only NoSuchElementException (rbind found (λ e, Ok (set e))) product.

(** The loop over the extraction map. *)
Fixpoint extract_fields (product_element : element) (fields : list (string * (string * string)))
    (product : ProductInfo) : result ProductInfo :=
  match fields with
  | [] => Ok product
  | (field, (class_name, attr_type)) :: rest =>
      rbind
        (on_found (find_element product_element CLASS_NAME class_name)
                  (λ e, setattr product field (read e attr_type)) product)
        (extract_fields product_element rest)
  end.

Definition link_selector : string := "a[data-refreshpage='true']".
Definition breadcrumb_selector : string :=
  "span.breadcrumbs-crumb[style='font-size: 14px; margin: 0px;']".

(** [extract_product_details(product_element, search_term)]; [pg] is the
    document [self.driver] shows. *)
Definition extract_product_details (pg : page) (product_element : element) (search_term : string)
    : result ProductInfo :=
  let product := new_product search_term in
  rbind (extract_fields product_element extraction_map product) (λ product,
  rbind (on_found (find_element product_element CSS_SELECTOR link_selector)
           (λ e, setattr product "product_link" (get_attribute e "href")) product) (λ product,
  rbind (on_found (find_element product_element CSS_SELECTOR "img.img-responsive")
           (λ e, setattr product "image_link" (get_attribute e "src")) product) (λ product,
  rbind (on_found (find_element product_element CSS_SELECTOR ".product-ratingsCount")
           (λ e, setattr product "review_count" (Some (Py.strip_chars "()" (text e)))) product) (λ product,
  on_found (find_element pg CSS_SELECTOR breadcrumb_selector)
           (λ e, setattr product "category_path" (Some (text e))) product)))).


Abbreviation session := (M ProductInfo).

(** [search_and_get_url(search_query)]. *)
Definition search_and_get_url (w : world) (search_query : string) : session (option string) :=
  try_catch Exception
    (print ("Searching for: " +:+ search_query);;
     let! pg := driver_get w "https://www.myntra.com" in
     let! search_input := lift (find_element pg CLASS_NAME "desktop-searchBar") in
     let! current_url := lift (submit_search pg search_query) in
     ret (Some current_url))
    (λ error,
     print ("Search failed for '" +:+ search_query +:+ "': " +:+ str_exn error);;
     ret None).

(** The loop over the product elements of a page. *)
Fixpoint extract_all (pg : page) (product_elements : list element) (search_term : string)
    (products : list ProductInfo) : session (list ProductInfo) :=
  match product_elements with
  | [] => ret products
  | element :: rest =>
      let! products :=
        try_catch Exception
          (let! product_info := lift (extract_product_details pg element search_term) in
           ret (products ++ [product_info]))
          (λ error, print ("Error extracting product: " +:+ str_exn error);; ret products) in
      extract_all pg rest search_term products
  end.

(** [scrape_products_from_page(search_term, page_url)]. *)
Definition scrape_products_from_page (w : world) (search_term page_url : string)
    : session (list ProductInfo) :=
  try_catch (only TimeoutException)
    (let! pg := driver_get w page_url in
     let! product_elements := lift (wait_all pg CLASS_NAME "product-base") in
     match product_elements with
     | [] => ret []
     | _ => extract_all pg product_elements search_term []
     end)
    (λ _, print ("Timeout: Page failed to load - " +:+ page_url);; ret []).

Definition fieldnames : list string :=
  [ "search_term"; "brand_name"; "current_price"; "product_rating";
    "product_title"; "original_price"; "sale_price"; "discount_percent";
    "category_path"; "product_link"; "image_link"; "review_count"; "size_options" ].

(** The cell [csv.DictWriter] writes for a field: the empty string for
    [None] and for a key the row lacks. *)
Definition cell (v : option (option string)) : string :=
  match v with
  | Some (Some s) => s
  | _ => ""
  end.

(** [writer.writerow(product.__dict__)]. *)
Definition writerow (product : ProductInfo) : chunk :=
  DataRow (map (λ name, cell (getattr product name)) fieldnames).

(** [save_to_csv(products, filename, append_mode)]. *)
Definition save_to_csv (products : list ProductInfo) (filename : string) (append_mode : bool)
    : session unit :=
  let! present := path_exists (filename +:+ ".csv") in
  if append_mode && present
  then append_file (filename +:+ ".csv") (map writerow products)
  else write_file (filename +:+ ".csv") (HeaderRow fieldnames :: map writerow products).

(** [self.close_browser()]. *)
Definition close_browser : session unit :=
  let! present := read_driver in
  if present then driver_quit else ret tt.

(** [d[k] = v] on a dict, which keeps insertion order. *)
Fixpoint dict_set {V} (d : list (string * V)) (k : string) (v : V) : list (string * V) :=
  match d with
  | [] => [(k, v)]
  | (k', v') :: rest =>
      if String.eqb k' k then (k', v) :: rest else (k', v') :: dict_set rest k v
  end.

Definition dump_urls (search_urls : list (string * option string)) : json :=
  JObject (map (λ kv, (kv.1, from_option JStr JNull kv.2)) search_urls).

(** The loop that fills [search_urls]. *)
Fixpoint generate_urls (w : world) (search_terms : list string)
    (search_urls : list (string * option string)) : session (list (string * option string)) :=
  match search_terms with
  | [] => ret search_urls
  | term :: rest =>
      let! url := search_and_get_url w term in
      print ("URL for '" +:+ term +:+ "': " +:+ Py.str_opt url);;
      generate_urls w rest (dict_set search_urls term url)
  end.

(** [pages_to_scrape]: an [int], or [float('inf')]. *)
Inductive bound := Finite (n : Z) | Infinite.

Definition pages_bound (max_pages : Z) : bound :=
  if (0 <? max_pages)%Z then Finite max_pages else Infinite.

(** [current_page <= pages_to_scrape]. *)
Definition within (current_page : nat) (pages_to_scrape : bound) : bool :=
  match pages_to_scrape with
  | Finite n => (Z.of_nat current_page <=? n)%Z
  | Infinite => true
  end.

Definition page_url (base_url : string) (current_page : nat) : string :=
  base_url +:+ "&p=" +:+ Py.str_nat current_page.

(** The [while current_page <= pages_to_scrape] loop of one search term.
    [fuel] bounds the iterations: the loop has no bound of its own when
    [pages_to_scrape] is infinite. *)
Fixpoint scrape_pages (fuel : nat) (w : world) (search_term base_url output_file : string)
    (pages_to_scrape : bound) (current_page : nat) : session unit :=
  if within current_page pages_to_scrape then
    match fuel with
    | 0 => unfinished
    | S fuel =>
        print ("Processing page " +:+ Py.str_nat current_page +:+ ": " +:+ page_url base_url current_page);;
        let! page_products := scrape_products_from_page w search_term (page_url base_url current_page) in
        match page_products with
        | [] => print ("No products found on page " +:+ Py.str_nat current_page)
        | _ =>
            extend page_products;;
            save_to_csv page_products output_file true;;
            print ("Saved " +:+ Py.str_nat (length page_products) +:+ " products from page "
                   +:+ Py.str_nat current_page);;
            scrape_pages fuel w search_term base_url output_file pages_to_scrape (S current_page)
        end
    end
  else ret tt.

(** The loop over [search_urls.items()]. *)
Fixpoint scrape_terms (fuel : nat) (w : world) (items : list (string * option string))
    (max_pages : Z) (output_file : string) : session unit :=
  match items with
  | [] => ret tt
  | (search_term, base_url) :: rest =>
      (if Py.truthy_opt base_url then
         print (Py.nl +:+ "Scraping products for: " +:+ search_term);;
         scrape_pages fuel w search_term (default "" base_url) output_file (pages_bound max_pages) 1;;
         print ("Completed scraping for '" +:+ search_term +:+ "'")
       else
         print ("Skipping '" +:+ search_term +:+ "' - no URL available"));;
      scrape_terms fuel w rest max_pages output_file
  end.

(** [run_scraping_session(search_terms, max_pages, output_file)]. *)
Definition run_scraping_session (fuel : nat) (w : world) (search_terms : list string)
    (max_pages : Z) (output_file : string) : session (list ProductInfo) :=
  reset_buffer;;
  print "Generating search URLs...";;
  let! search_urls := generate_urls w search_terms [] in
  write_file "search_urls.json" [JsonDoc (dump_urls search_urls)];;
  finally
    (try_catch Exception
       (scrape_terms fuel w search_urls max_pages output_file)
       (λ error, print ("Scraping error: " +:+ str_exn error)))
    close_browser;;
  let! all_products := read_buffer in
  print (Py.nl +:+ "Scraping completed! Total products: " +:+ Py.str_nat (length all_products));;
  ret all_products.

Definition search_items : list string :=
  [ "white shirt"; "black dress"; "denim jeans"; "summer kurti"; "co-ord set";
    "oversized t-shirt"; "sneakers"; "blue linen pants"; "pink blazer for women";
    "yellow maxi dress" ].

(** [main()], once the three inputs are read and in a browser that starts:
    [initialize_browser] sets [self.driver], and the [try] statement
    follows.  The headless flag only changes the browser's options.  An
    exception raised before the [try], by [input], [int] or
    [webdriver.Chrome], leaves [main] with no driver to release. *)
Definition main (fuel : nat) (w : world) (max_pages : Z) (output_filename : string)
    : session unit :=
  set_driver;;
  finally
    (try_catch (λ e, only KeyboardInterrupt e || Exception e)
       (run_scraping_session fuel w search_items max_pages output_filename;; ret tt)
       (λ e, if only KeyboardInterrupt e
             then print (Py.nl +:+ "Scraping interrupted by user")
             else print ("Unexpected error: " +:+ str_exn e)))
    close_browser.

End Fast.

(** * The image strategy chain of the two product-page scrapers *)

(** A strategy reads the document and returns a [str] or [None], or raises. *)
Definition strategy : Type := page → result (option string).

(** The loop of [extract_product_image] over [image_strategies].  Beside the
    value it returns the positions of the strategies it called, in call
    order, counted from [i]. *)
Fixpoint try_strategies (i : nat) (image_strategies : list strategy) (pg : page)
    : string * list nat :=
  match image_strategies with
  | [] => ("Image not available", [])
  | strategy :: rest =>
      match strategy pg with
      | Ok (Some result) =>
          if Py.truthy result && Py.startswith "http" result
          then (Py.split_head "?" result, [i])
          else let '(v, calls) := try_strategies (S i) rest pg in (v, i :: calls)
      | _ => let '(v, calls) := try_strategies (S i) rest pg in (v, i :: calls)
      end
  end.

(** [_extract_img_src] of myntra_new.py: always a CSS selector. *)
Definition css_img_src (selector : string) : strategy :=
  λ pg, rbind (find_element pg CSS_SELECTOR selector) (λ img_element,
        Ok (get_attribute img_element "src")).

(** [any(keyword in src.lower() for keyword in keywords)]. *)
Definition any_keyword (keywords : list string) (src : string) : bool :=
  existsb (λ keyword, Py.contains keyword (Py.lower src)) keywords.

(** The loop of [_find_product_image_fallback]. *)
Fixpoint first_product_image (keywords : list string) (all_images : list element) : option string :=
  match all_images with
  | [] => None
  | img :: rest =>
      match get_attribute img "src" with
      | Some src =>
          if Py.truthy src && any_keyword keywords src then Some src
          else first_product_image keywords rest
      | None => first_product_image keywords rest
      end
  end.

Definition image_fallback (keywords : list string) : strategy :=
  λ pg, rbind (find_elements pg TAG_NAME "img") (λ all_images,
        Ok (first_product_image keywords all_images)).

(** * Size buttons, shared by the two product-page scrapers *)

(** ["disabled" in e.get_attribute("class") or
    e.get_attribute("aria-disabled") == "true"]; [in] raises [TypeError] on
    [None]. *)
Definition is_disabled (e : element) : result bool :=
  match get_attribute e "class" with
  | None => Raise TypeError
  | Some cls =>
      Ok (Py.contains "disabled" cls || bool_decide (get_attribute e "aria-disabled" = Some "true"))
  end.

(** ["Out of Stock" if is_disabled else "In Stock"]. *)
Definition stock_status (disabled : bool) : string :=
  if disabled then "Out of Stock" else "In Stock".

(** The loop of [_extract_size_options] over the size elements. *)
Fixpoint size_loop (size_elements : list element) (size_info : list string) : result (list string) :=
  match size_elements with
  | [] => Ok size_info
  | size :: rest =>
      let size_text := Py.strip (text size) in
      if Py.truthy size_text then
        rbind (is_disabled size) (λ disabled,
        size_loop rest (size_info ++ [size_text +:+ " (" +:+ stock_status disabled +:+ ")"]))
      else size_loop rest size_info
  end.

(** The body of [_extract_size_options] for the elements a query gave. *)
Definition size_options_of (found : result (list element)) : list string :=
  try_bare (rbind found (λ size_elements, size_loop size_elements [])) [].

(** [[e.text.strip() for e in elements if e.text.strip()]]. *)
Definition stripped_texts (elements : list element) : list string :=
  filter (λ s, Py.truthy s = true) (map (λ e, Py.strip (text e)) elements).

(** [sep.join(l) if l else placeholder]. *)
Definition join_or (sep placeholder : string) (l : list string) : string :=
  match l with
  | [] => placeholder
  | _ => Py.join sep l
  end.

(** * myntra_new.py: product pages, saved once at the end *)

Module Myntra.

(** The [product_info] dict. *)
Record ProductDetails := {
  search_keyword : string;
  product_url : string;
  brand : string;
  name : string;
  discounted_price : string;
  original_price : string;
  rating : string;
  image_url : string;
  reviews : list string;
  available_sizes : list string;
  breadcrumb : string
}.

Abbreviation session := (M ProductDetails).

Definition base_url : string := "https://www.myntra.com".

(** [search_products(search_term)]. *)
Definition search_products (w : world) (search_term : string) : session (option string) :=
  try_catch Exception
    (let! pg := driver_get w base_url in
     let! search_box := lift (find_element pg CLASS_NAME "desktop-searchBar") in
     let! current_url := lift (submit_search pg search_term) in
     ret (Some current_url))
    (λ e, print ("Search failed for '" +:+ search_term +:+ "': " +:+ str_exn e);; ret None).

(** [l[:n]] for any [int] [n]. *)
Definition slice_to {A} (n : Z) (l : list A) : list A :=
  if (0 <=? n)%Z then take (Z.to_nat n) l
  else take (length l - Z.to_nat (- n)) l.

(** The loop of [collect_product_urls]; a link without [href] is collected
    as [None]. *)
Fixpoint collect_links (product_elements : list element) (product_urls : list (option string))
    : list (option string) :=
  match product_elements with
  | [] => product_urls
  | element :: rest =>
      collect_links rest
        (try_bare
           (rbind (find_element element TAG_NAME "a") (λ a,
            Ok (product_urls ++ [get_attribute a "href"])))
           product_urls)
  end.

Definition listing_xpath : string := "//li[@class='product-base']".

(** [collect_product_urls(search_url, max_products)]. *)
Definition collect_product_urls (w : world) (search_url : string) (max_products : Z)
    : session (list (option string)) :=
  try_catch (only TimeoutException)
    (let! pg := driver_get w search_url in
     let! _ := lift (wait_all pg XPATH listing_xpath) in
     let! product_elements := lift (find_elements pg XPATH listing_xpath) in
     ret (collect_links (slice_to max_products product_elements) []))
    (λ _, print "Failed to load product listings";; ret []).

(** [_extract_background_image(selector)]. *)
Definition _extract_background_image (selector : string) : strategy :=
  λ pg, rbind (find_element pg CSS_SELECTOR selector) (λ element,
    let marker := "background-image: url(" +:+ Py.dquote in
    match get_attribute element "style" with
    | Some style_attr =>
        if Py.truthy style_attr && Py.contains "background-image: url(" style_attr then
          let start_pos := (Py.find marker style_attr 0 + Z.of_nat (String.length marker))%Z in
          let end_pos := Py.find (Py.dquote +:+ ")") style_attr (Z.to_nat start_pos) in
          if (0 <? start_pos)%Z && (start_pos <? end_pos)%Z
          then Ok (Some (Py.slice style_attr (Z.to_nat start_pos) (Z.to_nat end_pos)))
          else Ok None
        else Ok None
    | None => Ok None
    end).

Definition _extract_img_src : string → strategy := css_img_src.

Definition _find_product_image_fallback : strategy := image_fallback ["myntra"; "assets"].

Definition image_strategies : list strategy :=
  [ _extract_background_image ".image-grid-image";
    _extract_background_image ".image-grid-imageContainer";
    _extract_img_src "img.img-responsive";
    _extract_img_src ".pdp-main-container img";
    _find_product_image_fallback ].

(** [extract_product_image()]. *)
Definition extract_product_image (pg : page) : string :=
  (try_strategies 0 image_strategies pg).1.

(** [_safe_extract(by_type, selector)]. *)
Definition _safe_extract (pg : page) (by_type : By) (selector : string) : string :=
  try_bare (rbind (find_element pg by_type selector) (λ element, Ok (Py.strip (text element)))) "N/A".

(** [_extract_reviews()]. *)
Definition _extract_reviews (pg : page) : list string :=
  try_bare
    (rbind (find_elements pg XPATH "//div[@class='user-review-reviewTextWrapper']") (λ review_elements,
     Ok (stripped_texts review_elements)))
    [].

(** [_extract_size_options()]. *)
Definition _extract_size_options (pg : page) : list string :=
  size_options_of (find_elements pg CLASS_NAME "size-buttons-size-button").

(** [_extract_breadcrumb()]. *)
Definition _extract_breadcrumb (pg : page) : string :=
  try_bare
    (rbind (find_elements pg CSS_SELECTOR ".breadcrumbs-crumb") (λ breadcrumb_elements,
     Ok (Py.join " > " (stripped_texts breadcrumb_elements))))
    "N/A".

(** [product_info["original_price"] = v]. *)
Definition set_original_price (product_info : ProductDetails) (v : string) : ProductDetails :=
  {| search_keyword := search_keyword product_info;
     product_url := product_url product_info;
     brand := brand product_info;
     name := name product_info;
     discounted_price := discounted_price product_info;
     original_price := v;
     rating := rating product_info;
     image_url := image_url product_info;
     reviews := reviews product_info;
     available_sizes := available_sizes product_info;
     breadcrumb := breadcrumb product_info |}.

(** The dict literal of [extract_product_details] and the step that follows
    it, for the document [pg] the product page shows. *)
Definition product_info_of (pg : page) (url keyword : string) : ProductDetails :=
  let product_info :=
    {| search_keyword := keyword;
       product_url := url;
       brand := _safe_extract pg CLASS_NAME "pdp-title";
       name := _safe_extract pg CLASS_NAME "pdp-name";
       discounted_price := _safe_extract pg CLASS_NAME "pdp-price";
       original_price := _safe_extract pg CLASS_NAME "pdp-mrp";
       rating := _safe_extract pg CLASS_NAME "index-overallRating";
       image_url := extract_product_image pg;
       reviews := _extract_reviews pg;
       available_sizes := _extract_size_options pg;
       breadcrumb := _extract_breadcrumb pg |} in
  (* Handle missing original price *)
  if negb (Py.truthy (original_price product_info))
  then set_original_price product_info (discounted_price product_info)
  else product_info.

(** [extract_product_details(product_url, search_keyword)].  A URL that is
    [None] makes [driver.get] raise. *)
Definition extract_product_details (w : world) (product_url : option string) (search_keyword : string)
    : session (option ProductDetails) :=
  try_catch Exception
    (let! url := lift (from_option Ok (Raise WebDriverException) product_url) in
     let! pg := driver_get w url in
     ret (Some (product_info_of pg url search_keyword)))
    (λ e,
     print ("Error extracting details from " +:+ Py.str_opt product_url +:+ ": " +:+ str_exn e);;
     ret None).

Definition fieldnames : list string :=
  [ "search_keyword"; "brand"; "name"; "product_url"; "image_url"; "original_price";
    "discounted_price"; "rating"; "reviews"; "available_sizes"; "breadcrumb" ].

(** [writer.writerow(csv_row)], the cells in the order of [fieldnames]. *)
Definition writerow (product : ProductDetails) : chunk :=
  DataRow
    [ search_keyword product; brand product; name product; product_url product;
      image_url product; original_price product; discounted_price product; rating product;
      join_or " | " "No reviews" (reviews product);
      join_or "; " "No sizes" (available_sizes product);
      breadcrumb product ].

(** The JSON object of one record, its keys in the dict's insertion order. *)
Definition to_json (product : ProductDetails) : json :=
  JObject
    [ ("search_keyword", JStr (search_keyword product));
      ("product_url", JStr (product_url product));
      ("brand", JStr (brand product));
      ("name", JStr (name product));
      ("discounted_price", JStr (discounted_price product));
      ("original_price", JStr (original_price product));
      ("rating", JStr (rating product));
      ("image_url", JStr (image_url product));
      ("reviews", JList (map JStr (reviews product)));
      ("available_sizes", JList (map JStr (available_sizes product)));
      ("breadcrumb", JStr (breadcrumb product)) ].

(** [save_data(filename)]. *)
Definition save_data (filename : string) : session unit :=
  let! scraped_data := read_buffer in
  match scraped_data with
  | [] => print "No data to save"
  | _ =>
      let csv_filename := filename +:+ ".csv" in
      write_file csv_filename (HeaderRow fieldnames :: map writerow scraped_data);;
      let json_filename := filename +:+ ".json" in
      write_file json_filename [JsonDoc (JList (map to_json scraped_data))];;
      print ("Data saved to " +:+ csv_filename +:+ " and " +:+ json_filename)
  end.

(** The loop over [enumerate(product_urls, 1)]; [total] is
    [len(product_urls)]. *)
Fixpoint visit_products (w : world) (term : string) (total idx : nat)
    (product_urls : list (option string)) : session unit :=
  match product_urls with
  | [] => ret tt
  | url :: rest =>
      print ("Scraping product " +:+ Py.str_nat idx +:+ "/" +:+ Py.str_nat total);;
      let! product_details := extract_product_details w url term in
      match product_details with
      | Some details => extend [details]
      | None => ret tt
      end;;
      visit_products w term total (S idx) rest
  end.

(** The loop of [run_scraping_session] over the search terms. *)
Fixpoint process_terms (w : world) (search_terms : list string) (max_products_per_term : Z)
    : session unit :=
  match search_terms with
  | [] => ret tt
  | term :: rest =>
      print (Py.nl +:+ "Processing search term: '" +:+ term +:+ "'");;
      let! search_url := search_products w term in
      (if Py.truthy_opt search_url then
         let! product_urls := collect_product_urls w (default "" search_url) max_products_per_term in
         print ("Found " +:+ Py.str_nat (length product_urls) +:+ " products for '" +:+ term +:+ "'");;
         visit_products w term (length product_urls) 1 product_urls
       else ret tt);;
      process_terms w rest max_products_per_term
  end.

(** [run_scraping_session(search_terms, max_products_per_term)]. *)
Definition run_scraping_session (w : world) (search_terms : list string) (max_products_per_term : Z)
    : session unit :=
  print "Starting Myntra product scraping session...";;
  process_terms w search_terms max_products_per_term;;
  let! scraped_data := read_buffer in
  print (Py.nl +:+ "Scraping complete! Total products scraped: " +:+ Py.str_nat (length scraped_data)).

(** [close()]. *)
Definition close : session unit := driver_quit.

Definition search_terms : list string :=
  [ "white shirt"; "black dress"; "denim jeans"; "summer kurti"; "co-ord set";
    "oversized t-shirt"; "sneakers"; "blue linen pants"; "pink blazer for women";
    "yellow maxi dress" ].

(** [main()], once the inputs are read and the scraper is constructed: the
    constructor has opened the driver and starts with an empty
    [scraped_data], and the [try] statement follows. *)
Definition main (w : world) (max_products : Z) (output_file : string) : session unit :=
  set_driver;;
  reset_buffer;;
  finally
    (try_catch Exception
       (run_scraping_session w search_terms max_products;;
        save_data output_file)
       (λ e, print ("An error occurred: " +:+ str_exn e)))
    close.

(** [main()] from its first statement.  [start] is the outcome of the
    statements before the [try]: reading the inputs, where [int(...)] raises
    on text that is no number and [input] on an interrupt, and constructing
    the scraper, where [webdriver.Chrome] may fail.  They give the product
    limit and the name of the output, or raise; when they raise, [main] is
    left at once. *)
Definition main_from_start (start : result (Z * string)) (w : world) : session unit :=
  let! inputs := lift start in
  main w inputs.1 inputs.2.

End Myntra.

(** * nyakaa_new.py: the product-page scraper for Nykaa Fashion *)

Module Nykaa.

(** The [product_info] dict; this scraper reads no breadcrumb. *)
Record ProductDetails := {
  search_keyword : string;
  product_url : string;
  brand : string;
  name : string;
  discounted_price : string;
  original_price : string;
  rating : string;
  image_url : string;
  reviews : list string;
  available_sizes : list string
}.

Abbreviation session := (M ProductDetails).

(** [_extract_img_src(selector)]: XPath when the selector starts with two
    slashes, CSS otherwise. *)
Definition _extract_img_src (selector : string) : strategy :=
  λ pg, rbind (if Py.startswith "//" selector
               then find_element pg XPATH selector
               else find_element pg CSS_SELECTOR selector) (λ img_element,
        Ok (get_attribute img_element "src")).

Definition _find_product_image_fallback : strategy :=
  image_fallback ["nykaa"; "assets"; "product"].

Definition image_strategies : list strategy :=
  [ _extract_img_src "//img[@class=' css-kwk7lt']";
    _extract_img_src "//img[@class='css-kwk7lt']";
    _extract_img_src ".product-image img";
    _find_product_image_fallback ].

(** [extract_product_image()]. *)
Definition extract_product_image (pg : page) : string :=
  (try_strategies 0 image_strategies pg).1.

(** [_safe_extract_xpath(xpath)]. *)
Definition _safe_extract_xpath (pg : page) (xpath : string) : string :=
  try_bare (rbind (find_element pg XPATH xpath) (λ element, Ok (Py.strip (text element)))) "N/A".

(** [_extract_reviews()]. *)
Definition _extract_reviews (pg : page) : list string :=
  try_bare
    (rbind (find_elements pg XPATH "//p[@class='css-183zl1c']") (λ review_elements,
     Ok (stripped_texts review_elements)))
    [].

(** [_extract_size_options()]. *)
Definition _extract_size_options (pg : page) : list string :=
  size_options_of (find_elements pg XPATH "//span[@class='css-la6tof']").

(** [product_info["original_price"] = v]. *)
Definition set_original_price (product_info : ProductDetails) (v : string) : ProductDetails :=
  {| search_keyword := search_keyword product_info;
     product_url := product_url product_info;
     brand := brand product_info;
     name := name product_info;
     discounted_price := discounted_price product_info;
     original_price := v;
     rating := rating product_info;
     image_url := image_url product_info;
     reviews := reviews product_info;
     available_sizes := available_sizes product_info |}.

(** The dict literal of [extract_product_details] and the step that follows
    it, for the document [pg] the product page shows. *)
Definition product_info_of (pg : page) (url keyword : string) : ProductDetails :=
  let product_info :=
    {| search_keyword := keyword;
       product_url := url;
       brand := _safe_extract_xpath pg "//a[@class='css-6mpq2k']";
       name := _safe_extract_xpath pg "//span[@class='css-cmh3n9']";
       discounted_price := _safe_extract_xpath pg "//span[@class='css-5pw8k6']";
       original_price := _safe_extract_xpath pg "//span[@class=' css-1byl9fj']";
       rating := _safe_extract_xpath pg "//div[@class='css-xoezkq']";
       image_url := extract_product_image pg;
       reviews := _extract_reviews pg;
       available_sizes := _extract_size_options pg |} in
  (* Handle missing original price *)
  if negb (Py.truthy (original_price product_info)) || String.eqb (original_price product_info) "N/A"
  then set_original_price product_info (discounted_price product_info)
  else product_info.

(** [extract_product_details(product_url, search_keyword)]. *)
Definition extract_product_details (w : world) (product_url : option string) (search_keyword : string)
    : session (option ProductDetails) :=
  try_catch Exception
    (let! url := lift (from_option Ok (Raise WebDriverException) product_url) in
     let! pg := driver_get w url in
     ret (Some (product_info_of pg url search_keyword)))
    (λ e,
     print ("Error extracting details from " +:+ Py.str_opt product_url +:+ ": " +:+ str_exn e);;
     ret None).

Definition fieldnames : list string :=
  [ "search_keyword"; "brand"; "name"; "product_url"; "image_url"; "original_price";
    "discounted_price"; "rating"; "reviews"; "available_sizes" ].

(** [writer.writerow(csv_row)], the cells in the order of [fieldnames]. *)
Definition writerow (product : ProductDetails) : chunk :=
  DataRow
    [ search_keyword product; brand product; name product; product_url product;
      image_url product; original_price product; discounted_price product; rating product;
      join_or " | " "No reviews" (reviews product);
      join_or "; " "No sizes" (available_sizes product) ].

(** The JSON object of one record, its keys in the dict's insertion order. *)
Definition to_json (product : ProductDetails) : json :=
  JObject
    [ ("search_keyword", JStr (search_keyword product));
      ("product_url", JStr (product_url product));
      ("brand", JStr (brand product));
      ("name", JStr (name product));
      ("discounted_price", JStr (discounted_price product));
      ("original_price", JStr (original_price product));
      ("rating", JStr (rating product));
      ("image_url", JStr (image_url product));
      ("reviews", JList (map JStr (reviews product)));
      ("available_sizes", JList (map JStr (available_sizes product))) ].

(** [save_data(filename)]. *)
Definition save_data (filename : string) : session unit :=
  let! scraped_data := read_buffer in
  match scraped_data with
  | [] => print "No data to save"
  | _ =>
      let csv_filename := filename +:+ ".csv" in
      write_file csv_filename (HeaderRow fieldnames :: map writerow scraped_data);;
      let json_filename := filename +:+ ".json" in
      write_file json_filename [JsonDoc (JList (map to_json scraped_data))];;
      print ("Data saved to " +:+ csv_filename +:+ " and " +:+ json_filename)
  end.

End Nykaa.

(** * Sample documents *)

Module Sample.

(** A query that matches nothing, and an element without descendants. *)
Definition no_nodes : By → string → result (list element) := λ _ _, Ok [].

Definition leaf (t : string) (attrs : list (string * string)) : element :=
  Element t attrs no_nodes.

(** A document that answers one query [b], [sel] with [nodes] and nothing
    else, and has no search box. *)
Definition page_with (b : By) (sel : string) (nodes : list element) : page :=
  Page (λ b' sel', if bool_decide (b' = b) && String.eqb sel' sel then Ok nodes else Ok [])
       (λ _, Raise NoSuchElementException).

(** The browser shows [pg] whatever the URL. *)
Definition always (pg : page) : world := World (λ _, Ok pg).

(** Every navigation fails. *)
Definition offline : world := World (λ _, Raise WebDriverException).

(** The user presses Ctrl-C during the first navigation. *)
Definition interrupted : world := World (λ _, Raise KeyboardInterrupt).

(** A Myntra product page with a price node and no MRP node. *)
Definition price_only : page := page_with CLASS_NAME "pdp-price" [leaf "Rs. 499" []].

(** A Nykaa product page with a price node and no original-price node. *)
Definition nykaa_price_only : page :=
  page_with XPATH "//span[@class='css-5pw8k6']" [leaf "Rs. 799" []].

(** A product page whose only image is found by the last-resort scan. *)
Definition fallback_image : page :=
  page_with TAG_NAME "img"
    [leaf "" [("src", "https://assets.myntassets.com/img/123.jpg?w=200")]].

(** Two size buttons, the second disabled. *)
Definition two_sizes : page :=
  page_with CLASS_NAME "size-buttons-size-button"
    [ leaf "S" [("class", "size-buttons-size-button")];
      leaf "M" [("class", "size-buttons-size-button size-buttons-size-button-disabled")] ].

(** Two size buttons, the first without a label. *)
Definition blank_size : page :=
  page_with CLASS_NAME "size-buttons-size-button"
    [ leaf " " [("class", "size-buttons-size-button")];
      leaf "M" [("class", "size-buttons-size-button"); ("aria-disabled", "true")] ].

(** A listing page with one product element that has no inner node, and a
    listing page without products. *)
Definition listing : page := page_with CLASS_NAME "product-base" [leaf "" []].
Definition empty_listing : page := page_with CLASS_NAME "product-base" [].

(** A product element of a listing page with a brand node only. *)
Definition product_card : element :=
  Element "" []
    (λ b sel, if bool_decide (b = CLASS_NAME) && String.eqb sel "product-brand"
              then Ok [leaf "Roadster" []] else Ok []).

(** Every product page opens but the second. *)
Definition second_fails : world :=
  World (λ url, if String.eqb url "https://www.myntra.com/shirts/2"
                then Raise WebDriverException else Ok price_only).

Definition three_products : list (option string) :=
  [ Some "https://www.myntra.com/shirts/1";
    Some "https://www.myntra.com/shirts/2";
    Some "https://www.myntra.com/shirts/3" ].

(** The Myntra home page: a search box, and a results URL for any term. *)
Definition home : page :=
  Page (λ b sel, if bool_decide (b = CLASS_NAME) && String.eqb sel "desktop-searchBar"
                 then Ok [leaf "" []] else Ok [])
       (λ term, Ok ("https://www.myntra.com/" +:+ term)).

(** A results page listing one product. *)
Definition one_result : page :=
  page_with XPATH "//li[@class='product-base']"
    [ Element "" []
        (λ b sel, if bool_decide (b = TAG_NAME) && String.eqb sel "a"
                  then Ok [leaf "" [("href", "https://www.myntra.com/shirts/1")]] else Ok []) ].

(** The first search term finds one product, whose page opens; the results
    page of the second term makes the driver fail. *)
Definition crash_on_second_term : world :=
  World (λ url,
    if String.eqb url "https://www.myntra.com" then Ok home
    else if String.eqb url "https://www.myntra.com/white shirt" then Ok one_result
    else if String.eqb url "https://www.myntra.com/shirts/1" then Ok price_only
    else Raise WebDriverException).

(** A shop in which every search works and any results page numbered 1
    lists one product; every other page lists none. *)
Definition shop : world :=
  World (λ url,
    if String.eqb url "https://www.myntra.com" then Ok home
    else if String.eqb url "https://www.myntra.com/shirt&p=1" then Ok listing
    else Ok empty_listing).

(** A product page whose image is the background of a grid cell. *)
Definition grid_style : string :=
  "width: 100%; " +:+ ("background-image: url(" +:+ Py.dquote)
  +:+ "https://assets.myntassets.com/a.jpg" +:+ (Py.dquote +:+ ")") +:+ ";".

Definition grid_cell : element := leaf "" [("style", grid_style)].

Definition grid_image : page := page_with CSS_SELECTOR ".image-grid-image" [grid_cell].

(** A scraper that holds one record and has written nothing. *)
Definition one_record : state Myntra.ProductDetails :=
  State ∅ [] [] 0 true [Myntra.product_info_of price_only "https://www.myntra.com/shirts/1" "shirt"].

(** A product element whose anchor has no [href] and whose image has no
    [src]. *)
Definition bare_link_card : element :=
  Element "" []
    (λ b sel, if bool_decide (b = CSS_SELECTOR)
                 && (String.eqb sel Fast.link_selector || String.eqb sel "img.img-responsive")
              then Ok [leaf "" []] else Ok []).

(** A product page with three review elements: a review, a blank one, and
    the first review again. *)
Definition repeated_reviews : page :=
  page_with XPATH "//div[@class='user-review-reviewTextWrapper']"
    [leaf " Good " []; leaf "  " []; leaf "Good" []].

(** Two listing records with values of their own; the second has a link
    without [href]. *)
Definition roadster_shirt : Fast.ProductInfo :=
  {| Fast.search_term := "white shirt";
     Fast.brand_name := Some "Roadster"; Fast.current_price := Some "Rs. 499";
     Fast.product_rating := Some "N/A"; Fast.product_title := Some "Slim Fit Shirt";
     Fast.original_price := Some "N/A"; Fast.sale_price := Some "Rs. 499";
     Fast.discount_percent := Some "N/A"; Fast.category_path := Some "N/A";
     Fast.product_link := Some "https://www.myntra.com/shirts/1";
     Fast.image_link := Some "N/A"; Fast.review_count := Some "N/A";
     Fast.size_options := Some "N/A" |}.

Definition black_dress : Fast.ProductInfo :=
  {| Fast.search_term := "black dress";
     Fast.brand_name := Some "N/A"; Fast.current_price := Some "N/A";
     Fast.product_rating := Some "4.2"; Fast.product_title := Some "N/A";
     Fast.original_price := Some "Rs. 1999"; Fast.sale_price := Some "N/A";
     Fast.discount_percent := Some "(50% OFF)"; Fast.category_path := Some "N/A";
     Fast.product_link := None;
     Fast.image_link := Some "N/A"; Fast.review_count := Some "12";
     Fast.size_options := Some "N/A" |}.

Definition results_url : string := "https://www.myntra.com/shirt?rawQuery=shirt".

(** Search results with products on page 1 only. *)
Definition one_page_of_results : world :=
  World (λ url, if String.eqb url (results_url +:+ "&p=1") then Ok listing else Ok empty_listing).

End Sample.

(** * The vocabulary of the properties *)

(** ** Sessions *)

Section Notions.
Context {R : Type}.

(** The state after [vis] more navigations and [out] more printed lines. *)
Definition logged (st : state R) (vis out : list string) : state R :=
  State (fs st) (stdout st ++ out) (visited st ++ vis) (quits st) (driver st) (buffer st).

(** [m] only talks to the browser and the console: its outcome does not
    depend on the state, and it only adds [vis] to the visited URLs and
    [out] to the printed lines. *)
Definition io {A} (m : M R A) (r : outcome A) (vis out : list string) : Prop :=
  ∀ st, m st = (r, logged st vis out).

(** [m] is such a session, and it returns or raises. *)
Definition is_io {A} (m : M R A) : Prop :=
  ∃ r vis out, io m r vis out ∧ r ≠ Unfinished.

(** [m] is such a session and navigates to exactly [vis]. *)
Definition talks {A} (m : M R A) (vis : list string) : Prop :=
  ∃ r out, io m r vis out ∧ r ≠ Unfinished.

(** A property of the state that the console and the list of visited URLs
    do not bear on. *)
Definition blind (P : state R → Prop) : Prop :=
  ∀ st vis out, P st → P (logged st vis out).

(** [m] keeps [P], however it ends. *)
Definition preserves {A} (P : state R → Prop) (m : M R A) : Prop :=
  ∀ st, P st → P (m st).2.

(** [m] returns or raises: it is not left inside a loop. *)
Definition finishes {A} (m : M R A) : Prop := ∀ st, (m st).1 ≠ Unfinished.

End Notions.

(** ** Strings, documents and files *)

(** [v] is [r] cut before its first [c]. *)
Definition cut_at (c : ascii) (r v : string) : Prop :=
  Py.mem_char c v = false ∧ (v = r ∨ ∃ rest, r = v +:+ String c rest).

(** A strategy abstains on a document when it raises, returns [None],
    returns the empty string, or returns a value that does not start with
    "http". *)
Definition abstains (pg : page) (s : strategy) : Prop :=
  (∃ e, s pg = Raise e) ∨ s pg = Ok None ∨ s pg = Ok (Some "")
  ∨ (∃ r, s pg = Ok (Some r) ∧ Py.startswith "http" r = false).

(** The stock status of a size. *)
Inductive stock := InStock | OutOfStock.

(** The element has a label: its text is not blank. *)
Definition labelled (e : element) : bool := Py.truthy (Py.strip (text e)).

(** The element is disabled: its class contains "disabled" or its
    [aria-disabled] attribute is "true". *)
Definition disabled (e : element) : bool :=
  Py.contains "disabled" (default "" (get_attribute e "class"))
  || bool_decide (get_attribute e "aria-disabled" = Some "true").

(** The (size label, stock status) pairs of the labelled elements, in the
    order of the elements. *)
Definition size_pairs (size_elements : list element) : list (string * stock) :=
  map (λ e, (Py.strip (text e), if disabled e then OutOfStock else InStock))
      (filter (λ e, labelled e = true) size_elements).

(** How the scrapers write a pair. *)
Definition render (p : string * stock) : string :=
  p.1 +:+ " (" +:+ match p.2 with InStock => "In Stock" | OutOfStock => "Out of Stock" end +:+ ")".

(** The element carries a class attribute. *)
Definition has_class (e : element) : Prop := is_Some (get_attribute e "class").

(** What one page yields, whatever went on before. *)
Definition page_outcome (w : world) (term url : string) : outcome (list Fast.ProductInfo) :=
  (Fast.scrape_products_from_page w term url (initial ∅)).1.

(** The content of a file after [rows] are handed to [save_to_csv] in append
    mode. *)
Definition appended (old : option (list chunk)) (rows : list chunk) : list chunk :=
  match old with
  | Some content => content ++ rows
  | None => HeaderRow Fast.fieldnames :: rows
  end.

(** [save_to_csv] called once per batch, in append mode, on one target. *)
Fixpoint append_batches (batches : list (list Fast.ProductInfo)) (filename : string)
    : Fast.session unit :=
  match batches with
  | [] => ret tt
  | products :: rest => Fast.save_to_csv products filename true;; append_batches rest filename
  end.

(** The chunk is a header row. *)
Definition is_header (c : chunk) : bool :=
  match c with
  | HeaderRow _ => true
  | _ => false
  end.

(** The number of header rows in a file. *)
Definition headers (content : list chunk) : nat :=
  length (filter (λ c, is_header c = true) content).

(** Every failed query on [ctx] is a missing node. *)
Definition only_missing `{SearchContext T} (ctx : T) : Prop :=
  ∀ b sel e, find_element ctx b sel = Raise e → e = NoSuchElementException.

(** The value read from the node found, the default when there is none. *)
Definition found_or {A} (found : result element) (read : element → A) (default : A) : A :=
  match found with
  | Ok e => read e
  | Raise _ => default
  end.

(** The fields [setattr] is used on. *)
Definition settable (field : string) : Prop := field ∈ tail Fast.fieldnames.





(** The record a listing element contributes: none when its extraction
    raises. *)
Definition card_result (pg : page) (term : string) (el : element) : option Fast.ProductInfo :=
  match Fast.extract_product_details pg el term with
  | Ok p => Some p
  | Raise _ => None
  end.


(** The files are as in [files]. *)
Definition files_are {R} (files : gmap string (list chunk)) : state R → Prop :=
  λ st, fs st = files.

(** The chunk is a data row. *)
Definition is_data (c : chunk) : bool :=
  match c with
  | DataRow _ => true
  | _ => false
  end.

(** The data rows a file holds; none when the file does not exist. *)
Definition data_rows (content : option (list chunk)) : list chunk :=
  filter (λ c, is_data c = true) (default [] content).

(** The CSV file holds the rows [base] it held when the session began and,
    after them, one row for each record of the session so far, in order. *)
Definition persisted (csv : string) (base : list chunk) : state Fast.ProductInfo → Prop :=
  λ st, data_rows (fs st !! csv) = base ++ map Fast.writerow (buffer st).

(** The last character of a string. *)
Fixpoint last_char (s : string) : option ascii :=
  match s with
  | EmptyString => None
  | String c EmptyString => Some c
  | String _ s' => last_char s'
  end.


(** The session gets past its searches, the statements before its [try]
    block, and so into that block: none of them raises. *)
Definition reaches_try (w : world) (terms : list string) : bool :=
  match (Fast.generate_urls w terms [] (initial ∅)).1 with
  | Returns _ => true
  | _ => false
  end.

(** ** Text, records, pages and exceptions *)

(** Every character of [s] satisfies [p]. *)
Fixpoint all_chars (p : ascii → bool) (s : string) : bool :=
  match s with
  | EmptyString => true
  | String c s' => p c && all_chars p s'
  end.

(** The first character of a string. *)
Definition first_char (s : string) : option ascii :=
  match s with
  | EmptyString => None
  | String c _ => Some c
  end.

(** [s] neither starts nor ends with a character that satisfies [p]. *)
Definition trimmed (p : ascii → bool) (s : string) : Prop :=
  (∀ c, first_char s = Some c → p c = false) ∧ (∀ c, last_char s = Some c → p c = false).

(** The image [img] passes the test of the last-resort scan. *)
Definition product_image (keywords : list string) (img : element) (src : string) : Prop :=
  get_attribute img "src" = Some src ∧ src ≠ ""
  ∧ ∃ keyword, keyword ∈ keywords ∧ Py.contains keyword (Py.lower src) = true.

(** The records [l] are none at all, or those of the product elements the
    page at [url] shows whose extraction succeeded, in the order of the
    elements. *)
Definition shown_products (w : world) (term url : string) (l : list Fast.ProductInfo) : Prop :=
  l = []
  ∨ ∃ pg els, get w url = Ok pg ∧ find_elements pg CLASS_NAME "product-base" = Ok els
              ∧ l = omap (card_result pg term) els.

(** The navigation to [url] times out, or the page it shows never has a
    product element. *)
Definition no_product_shows (w : world) (url : string) : Prop :=
  get w url = Raise TimeoutException
  ∨ ∃ pg, get w url = Ok pg
          ∧ (find_elements pg CLASS_NAME "product-base" = Ok []
             ∨ find_elements pg CLASS_NAME "product-base" = Raise NoSuchElementException
             ∨ find_elements pg CLASS_NAME "product-base" = Raise TimeoutException).

(** Every exception [m] raises is in [ok]. *)
Definition raises_only {R A} (ok : exn → Prop) (m : M R A) : Prop :=
  ∀ st e, (m st).1 = Raises e → ok e.

(** Not caught by [except Exception]. *)
Definition not_an_Exception (e : exn) : Prop := is_Exception e = false.

(** What a search for [q] gives, whatever went on before. *)
Definition search_outcome (w : world) (q : string) : outcome (option string) :=
  (Fast.search_and_get_url w q (initial ∅)).1.

(** The link an element of the results page contributes: none when the
    element has no anchor or the query fails. *)
Definition link_of (el : element) : option (option string) :=
  match find_element el TAG_NAME "a" with
  | Ok a => Some (get_attribute a "href")
  | Raise _ => None
  end.

(** The records [base] are the first of [scraped_data], in order. *)
Definition keeps_records {R} (base : list R) : state R → Prop :=
  λ st, base `prefix_of` buffer st.

(** [quit] has been called [k] times. *)
Definition quit_count {R} (k : nat) : state R → Prop := λ st, quits st = k.

(** The two files [name].csv and [name].json hold [csv] and [doc], and
    every other file is as in [files]. *)
Definition saved_as {R} (name : string) (csv : list chunk) (doc : json)
    (files : gmap string (list chunk)) : state R → Prop :=
  λ st, fs st !! (name +:+ ".csv") = Some csv
        ∧ fs st !! (name +:+ ".json") = Some [JsonDoc doc]
        ∧ ∀ other, other ≠ name +:+ ".csv" → other ≠ name +:+ ".json" →
                   fs st !! other = files !! other.

(** The keys of a JSON object. *)
Definition keys_of (doc : json) : list string :=
  match doc with
  | JObject members => map fst members
  | _ => []
  end.

(** The number of cells of a row. *)
Definition width (row : chunk) : nat :=
  match row with
  | HeaderRow fieldnames => length fieldnames
  | DataRow cells => length cells
  | JsonDoc _ => 0
  end.

(** No search for a term of [terms] gives a URL: each returns [None], or
    the empty string. *)
Definition without_url (w : world) (terms : list string) : Prop :=
  ∀ term, term ∈ terms →
    ∃ url, search_outcome w term = Returns url ∧ Py.truthy_opt url = false.

(** What [csv.DictWriter] writes for the value of a field: the string, and
    nothing for [None]. *)
Definition shown (v : option string) : string :=
  match v with
  | Some s => s
  | None => ""
  end.

(** The CSV row of a listing record: the value of each field, under the
    column of its name. *)
Definition record_row (p : Fast.ProductInfo) : chunk :=
  DataRow
    [ Fast.search_term p; shown (Fast.brand_name p); shown (Fast.current_price p);
      shown (Fast.product_rating p); shown (Fast.product_title p);
      shown (Fast.original_price p); shown (Fast.sale_price p);
      shown (Fast.discount_percent p); shown (Fast.category_path p);
      shown (Fast.product_link p); shown (Fast.image_link p);
      shown (Fast.review_count p); shown (Fast.size_options p) ].

(** The columns of that file. *)
Definition listing_columns : list string :=
  [ "search_term"; "brand_name"; "current_price"; "product_rating"; "product_title";
    "original_price"; "sale_price"; "discount_percent"; "category_path"; "product_link";
    "image_link"; "review_count"; "size_options" ].

(** The listing of [url] does not load: the navigation times out, or the
    page it shows never has a product element. *)
Definition no_listing_shows (w : world) (url : string) : Prop :=
  get w url = Raise TimeoutException
  ∨ ∃ pg, get w url = Ok pg
          ∧ (find_elements pg XPATH Myntra.listing_xpath = Ok []
             ∨ find_elements pg XPATH Myntra.listing_xpath = Raise NoSuchElementException
             ∨ find_elements pg XPATH Myntra.listing_xpath = Raise TimeoutException).

(** * Properties *)

(** ** Python strings *)

Lemma split_head_cut (c : ascii) (s : string) : cut_at c s (Py.split_head c s).
Proof.
  induction s as [|a s [IHfree IHshape]]; simpl.
  - split; [done | by left].
  - destruct (Ascii.eqb_spec a c) as [->|Hne].
    + split; [done | right; by exists s].
    + split.
      * simpl. rewrite IHfree.
        assert (Ascii.eqb c a = false) as -> by (apply Ascii.eqb_neq; congruence).
        done.
      * destruct IHshape as [->| [rest Hrest]].
        -- by left.
        -- right. exists rest.
           change (String a s = String a (Py.split_head c s +:+ String c rest)).
           by f_equal.
Qed.

(** X2.  Cutting a URL before its first question mark is idempotent: a URL
    that was cut is left as it is. *)
Lemma split_head_idempotent (c : ascii) (s : string) :
  Py.split_head c (Py.split_head c s) = Py.split_head c s.
Proof.
  induction s as [|a s IH]; simpl; [done |].
  destruct (Ascii.eqb a c) eqn:E; simpl; [done |].
  by rewrite E, IH.
Qed.

(** ** The image strategy chain *)

Lemma abstains_step (pg : page) (s : strategy) (rest : list strategy) (i : nat) :
  abstains pg s →
  try_strategies i (s :: rest) pg =
    ((try_strategies (S i) rest pg).1, i :: (try_strategies (S i) rest pg).2).
Proof.
  intros Habs. simpl.
  destruct (try_strategies (S i) rest pg) as [v calls] eqn:E. simpl.
  destruct Habs as [[e ->] | [-> | [-> | [r [-> Hr]]]]]; try done.
  rewrite Hr. by rewrite andb_false_r.
Qed.

Lemma chain_accepts (i : nat) (pre post : list strategy) (s : strategy) (pg : page) (r : string) :
  Forall (abstains pg) pre →
  s pg = Ok (Some r) → r ≠ "" → Py.startswith "http" r = true →
  try_strategies i (pre ++ s :: post) pg = (Py.split_head "?" r, seq i (S (length pre))).
Proof.
  intros Hpre Hs Hne Hhttp. revert i.
  induction Hpre as [|s' pre Hs' _ IH]; intros i.
  - simpl. rewrite Hs, Hhttp. destruct r; [done | by simpl].
  - rewrite <- app_comm_cons, abstains_step by done.
    by rewrite IH.
Qed.

Lemma chain_exhausted (i : nat) (ss : list strategy) (pg : page) :
  Forall (abstains pg) ss →
  try_strategies i ss pg = ("Image not available", seq i (length ss)).
Proof.
  intros Hall. revert i.
  induction Hall as [|s ss Hs _ IH]; intros i; [done |].
  by rewrite abstains_step, IH.
Qed.

(** C3. The image chain returns the value of the first strategy, in declared
    order, whose value is non-empty and starts with "http", cut before its
    first question mark; it has then called that strategy and the ones
    before it and none after it.  A strategy that raises, returns nothing
    or returns an invalid value only abstains, and when every strategy
    abstains the chain returns "Image not available", having called them
    all.  Both scrapers run this chain on their own strategy list. *)
Theorem image_chain_resolution (image_strategies : list strategy) (pg : page) :
  (∀ pre s post r,
      image_strategies = pre ++ s :: post →
      Forall (abstains pg) pre →
      s pg = Ok (Some r) → r ≠ "" → Py.startswith "http" r = true →
      try_strategies 0 image_strategies pg = (Py.split_head "?" r, seq 0 (S (length pre)))
      ∧ cut_at "?" r (Py.split_head "?" r))
  ∧ (Forall (abstains pg) image_strategies →
      try_strategies 0 image_strategies pg
      = ("Image not available", seq 0 (length image_strategies)))
  ∧ Myntra.extract_product_image pg = (try_strategies 0 Myntra.image_strategies pg).1
  ∧ Nykaa.extract_product_image pg = (try_strategies 0 Nykaa.image_strategies pg).1.
Proof.
  split; [| split; [| done]].
  - intros pre s post r -> Hpre Hs Hne Hhttp.
    split.
    + by apply chain_accepts.
    + apply split_head_cut.
  - apply chain_exhausted.
Qed.

(** The chain on a Myntra page whose only image is the one the last-resort
    scan finds: the four strategies before it abstain, the URL loses its
    query string. *)
Lemma image_chain_resolution_witness :
  try_strategies 0 Myntra.image_strategies Sample.fallback_image
  = (Py.split_head "?" "https://assets.myntassets.com/img/123.jpg?w=200", seq 0 5)
  ∧ cut_at "?" "https://assets.myntassets.com/img/123.jpg?w=200"
           (Py.split_head "?" "https://assets.myntassets.com/img/123.jpg?w=200").
Proof.
  apply (proj1 (image_chain_resolution Myntra.image_strategies Sample.fallback_image)
           [ Myntra._extract_background_image ".image-grid-image";
             Myntra._extract_background_image ".image-grid-imageContainer";
             Myntra._extract_img_src "img.img-responsive";
             Myntra._extract_img_src ".pdp-main-container img" ]
           Myntra._find_product_image_fallback []).
  - reflexivity.
  - repeat (apply Forall_cons_2; [left; exists NoSuchElementException; reflexivity |]).
    apply Forall_nil_2.
  - reflexivity.
  - discriminate.
  - reflexivity.
Defined.

(** The same run, evaluated. *)
Example fallback_image_url :
  Myntra.extract_product_image Sample.fallback_image = "https://assets.myntassets.com/img/123.jpg".
Proof. reflexivity. Qed.

(** ** The original price of a product page *)

(** C1, on myntra_new.py.  A product page with a price node and no MRP node:
    [_safe_extract] reads "N/A" for the MRP, "N/A" is truthy, so the step
    under "Handle missing original price" does not run and the record keeps
    "N/A" beside a discounted price of "Rs. 499". *)
Theorem myntra_original_price_stays_unavailable :
  ∃ r st',
    Myntra.extract_product_details (Sample.always Sample.price_only)
      (Some "https://www.myntra.com/shirts/1") "white shirt" (initial ∅)
    = (Returns (Some r), st')
    ∧ Myntra.original_price r = "N/A"
    ∧ Myntra.discounted_price r = "Rs. 499".
Proof. do 2 eexists. split; [reflexivity | split; reflexivity]. Qed.

(** On myntra_new.py this holds for every page without an MRP node. *)
Lemma myntra_missing_mrp (pg : page) (url keyword : string) (e : exn) :
  find_element pg CLASS_NAME "pdp-mrp" = Raise e →
  Myntra.original_price (Myntra.product_info_of pg url keyword) = "N/A".
Proof.
  intros Hmiss.
  assert (Myntra._safe_extract pg CLASS_NAME "pdp-mrp" = "N/A") as Hna
    by (unfold Myntra._safe_extract; by rewrite Hmiss).
  unfold Myntra.product_info_of. simpl. by rewrite !Hna.
Qed.

(** X1.  nyakaa_new.py also tests for "N/A": on a product page without an
    original-price node the record's original price is its discounted
    price. *)
Lemma nykaa_missing_mrp (pg : page) (url keyword : string) (e : exn) :
  find_element pg XPATH "//span[@class=' css-1byl9fj']" = Raise e →
  Nykaa.original_price (Nykaa.product_info_of pg url keyword)
  = Nykaa.discounted_price (Nykaa.product_info_of pg url keyword).
Proof.
  intros Hmiss.
  assert (Nykaa._safe_extract_xpath pg "//span[@class=' css-1byl9fj']" = "N/A") as Hna
    by (unfold Nykaa._safe_extract_xpath; by rewrite Hmiss).
  unfold Nykaa.product_info_of. simpl. by rewrite !Hna.
Qed.

(** On a Nykaa page with a price node and no original-price node both
    prices are "Rs. 799". *)
Lemma nykaa_missing_mrp_witness :
  Nykaa.original_price
    (Nykaa.product_info_of Sample.nykaa_price_only "https://www.nykaafashion.com/p/1" "sneakers")
  = Nykaa.discounted_price
      (Nykaa.product_info_of Sample.nykaa_price_only "https://www.nykaafashion.com/p/1" "sneakers").
Proof. by apply (nykaa_missing_mrp _ _ _ NoSuchElementException). Defined.

(** ** Size options *)

Lemma size_loop_pairs (size_elements : list element) (size_info : list string) :
  Forall has_class size_elements →
  size_loop size_elements size_info = Ok (size_info ++ map render (size_pairs size_elements)).
Proof.
  intros Hcls. revert size_info.
  induction Hcls as [|e rest [cls Hcls] _ IH]; intros size_info.
  - simpl. by rewrite app_nil_r.
  - simpl. unfold size_pairs. rewrite filter_cons.
    destruct (decide (labelled e = true)) as [Hlab|Hlab].
    + unfold labelled in Hlab. rewrite Hlab. simpl.
      unfold is_disabled. rewrite Hcls. simpl. rewrite IH.
      rewrite <- app_assoc. simpl. do 3 f_equal.
      unfold render, disabled, stock_status. simpl. rewrite Hcls. simpl.
      by destruct (_ || _).
    + apply not_true_is_false in Hlab. unfold labelled in Hlab. rewrite Hlab.
      apply IH.
Qed.

(** C8, amended.  When the size query succeeds and every element it returns
    carries a class attribute, size extraction lists the elements that have
    a label, in DOM order, each as its (label, stock status) pair written
    "label (In Stock)" or "label (Out of Stock)", out of stock exactly when
    the element is disabled; an element whose text is blank yields no
    entry. *)
Theorem size_options_in_dom_order (pg : page) (size_elements : list element) :
  Forall has_class size_elements →
  (find_elements pg CLASS_NAME "size-buttons-size-button" = Ok size_elements →
   Myntra._extract_size_options pg = map render (size_pairs size_elements))
  ∧ (find_elements pg XPATH "//span[@class='css-la6tof']" = Ok size_elements →
     Nykaa._extract_size_options pg = map render (size_pairs size_elements)).
Proof.
  intros Hcls.
  split; intros Hfound.
  - unfold Myntra._extract_size_options, size_options_of.
    rewrite Hfound. simpl. by rewrite size_loop_pairs.
  - unfold Nykaa._extract_size_options, size_options_of.
    rewrite Hfound. simpl. by rewrite size_loop_pairs.
Qed.

(** The buttons S (enabled) and M (disabled) give "S (In Stock)" and
    "M (Out of Stock)", in that order. *)
Lemma size_options_in_dom_order_witness :
  Myntra._extract_size_options Sample.two_sizes
  = map render [("S", InStock); ("M", OutOfStock)].
Proof.
  apply (proj1 (size_options_in_dom_order Sample.two_sizes
    [ Sample.leaf "S" [("class", "size-buttons-size-button")];
      Sample.leaf "M" [("class", "size-buttons-size-button size-buttons-size-button-disabled")] ]
    ltac:(repeat (apply Forall_cons_2; [eexists; reflexivity |]); apply Forall_nil_2))).
  reflexivity.
Defined.

(** C8 as stated fails: of two size elements the one without a label is
    dropped, so the sequence has one entry for two elements. *)
Lemma size_element_without_label_dropped :
  ∃ size_elements,
    find_elements Sample.blank_size CLASS_NAME "size-buttons-size-button" = Ok size_elements
    ∧ length size_elements = 2
    ∧ Myntra._extract_size_options Sample.blank_size = ["M (Out of Stock)"].
Proof. eexists. split; [reflexivity | split; reflexivity]. Qed.

(** ** Reasoning about sessions *)

Section Sessions.
Context {R : Type}.

Lemma logged_nil (st : state R) : logged st [] [] = st.
Proof. destruct st. unfold logged. simpl. by rewrite !app_nil_r. Qed.

Lemma logged_logged (st : state R) (v1 o1 v2 o2 : list string) :
  logged (logged st v1 o1) v2 o2 = logged st (v1 ++ v2) (o1 ++ o2).
Proof. unfold logged. simpl. by rewrite !app_assoc. Qed.

Lemma io_ret {A} (a : A) : io (ret (R:=R) a) (Returns a) [] [].
Proof. intros st. by rewrite logged_nil. Qed.

Lemma io_lift {A} (r : result A) :
  io (lift (R:=R) r) (match r with Ok a => Returns a | Raise e => Raises e end) [] [].
Proof. intros st. destruct r; simpl; by rewrite logged_nil. Qed.

Lemma io_print (line : string) : io (print (R:=R) line) (Returns tt) [] [line].
Proof. intros st. unfold print, logged. by rewrite app_nil_r. Qed.

Lemma io_driver_get (w : world) (url : string) :
  io (driver_get (R:=R) w url)
     (match get w url with Ok pg => Returns pg | Raise e => Raises e end) [url] [].
Proof.
  intros st. unfold driver_get, logged. rewrite app_nil_r.
  by destruct (get w url).
Qed.

Lemma io_bind {A B} (m : M R A) (k : A → M R B) r vis out :
  io m r vis out →
  match r with
  | Returns a => ∀ r' vis' out', io (k a) r' vis' out' → io (bind m k) r' (vis ++ vis') (out ++ out')
  | Raises e => io (bind m k) (Raises e) vis out
  | Unfinished => io (bind m k) Unfinished vis out
  end.
Proof.
  intros Hm. destruct r as [a|e|].
  - intros r' vis' out' Hk st. unfold bind. rewrite Hm, Hk. by rewrite logged_logged.
  - intros st. unfold bind. by rewrite Hm.
  - intros st. unfold bind. by rewrite Hm.
Qed.

Lemma is_io_bind {A B} (m : M R A) (k : A → M R B) :
  is_io m → (∀ a, is_io (k a)) → is_io (bind m k).
Proof.
  intros (r & vis & out & Hm & Hends) Hk.
  pose proof (io_bind m k r vis out Hm) as Hb.
  destruct r as [a|e|]; [| | done].
  - destruct (Hk a) as (r' & vis' & out' & Hka & Hends'). do 3 eexists.
    split; [by apply Hb | done].
  - by do 3 eexists.
Qed.

Lemma talks_nil_bind {A B} (m : M R A) (k : A → M R B) :
  talks m [] → (∀ a, talks (k a) []) → talks (bind m k) [].
Proof.
  intros (r & out & Hm & Hends) Hk.
  pose proof (io_bind m k r [] out Hm) as Hb.
  destruct r as [a|e|]; [| | done].
  - destruct (Hk a) as (r' & out' & Hka & Hends'). do 2 eexists.
    split; [apply (Hb _ [] _ Hka) | done].
  - by do 2 eexists.
Qed.

Lemma io_try_catch {A} (catches : exn → bool) (m : M R A) (h : exn → M R A) r vis out :
  io m r vis out →
  match r with
  | Raises e =>
      if catches e
      then ∀ r' vis' out', io (h e) r' vis' out' → io (try_catch catches m h) r' (vis ++ vis') (out ++ out')
      else io (try_catch catches m h) (Raises e) vis out
  | _ => io (try_catch catches m h) r vis out
  end.
Proof.
  intros Hm. destruct r as [a|e|].
  - intros st. unfold try_catch. by rewrite Hm.
  - destruct (catches e) eqn:Hc.
    + intros r' vis' out' Hh st. unfold try_catch. rewrite Hm, Hc, Hh. by rewrite logged_logged.
    + intros st. unfold try_catch. by rewrite Hm, Hc.
  - intros st. unfold try_catch. by rewrite Hm.
Qed.

Lemma is_io_try_catch {A} (catches : exn → bool) (m : M R A) (h : exn → M R A) :
  is_io m → (∀ e, is_io (h e)) → is_io (try_catch catches m h).
Proof.
  intros (r & vis & out & Hm & Hends) Hh.
  pose proof (io_try_catch catches m h r vis out Hm) as Ht.
  destruct r as [a|e|]; [by do 3 eexists | | done].
  destruct (catches e).
  - destruct (Hh e) as (r' & vis' & out' & Hhe & Hends'). do 3 eexists.
    split; [by apply Ht | done].
  - by do 3 eexists.
Qed.

Lemma talks_try_catch {A} (catches : exn → bool) (m : M R A) (h : exn → M R A) vis :
  talks m vis → (∀ e, talks (h e) []) → talks (try_catch catches m h) vis.
Proof.
  intros (r & out & Hm & Hends) Hh.
  pose proof (io_try_catch catches m h r vis out Hm) as Ht.
  destruct r as [a|e|]; [by do 2 eexists | | done].
  destruct (catches e).
  - destruct (Hh e) as (r' & out' & Hhe & Hends'). do 2 eexists.
    rewrite <- (app_nil_r vis). split; [by apply Ht | done].
  - by do 2 eexists.
Qed.

Lemma talks_is_io {A} (m : M R A) vis : talks m vis → is_io m.
Proof. intros (r & out & Hm & Hends). by do 3 eexists. Qed.

Lemma is_io_ret {A} (a : A) : is_io (ret (R:=R) a).
Proof. do 3 eexists. split; [apply io_ret | done]. Qed.

Lemma is_io_lift {A} (r : result A) : is_io (lift (R:=R) r).
Proof. do 3 eexists. split; [apply io_lift | by destruct r]. Qed.

Lemma is_io_print (line : string) : is_io (print (R:=R) line).
Proof. do 3 eexists. split; [apply io_print | done]. Qed.

Lemma is_io_driver_get (w : world) (url : string) : is_io (driver_get (R:=R) w url).
Proof. do 3 eexists. split; [apply io_driver_get | by destruct (get w url)]. Qed.

Lemma talks_ret {A} (a : A) : talks (ret (R:=R) a) [].
Proof. do 2 eexists. split; [apply io_ret | done]. Qed.

Lemma talks_lift {A} (r : result A) : talks (lift (R:=R) r) [].
Proof. do 2 eexists. split; [apply io_lift | by destruct r]. Qed.

Lemma talks_print (line : string) : talks (print (R:=R) line) [].
Proof. do 2 eexists. split; [apply io_print | done]. Qed.

(** A navigation followed by steps that do not navigate visits one URL. *)
Lemma talks_driver_get_bind {B} (w : world) (url : string) (k : page → M R B) :
  (∀ pg, talks (k pg) []) → talks (bind (driver_get w url) k) [url].
Proof.
  intros Hk.
  pose proof (io_bind _ k _ _ _ (io_driver_get w url)) as Hb.
  destruct (get w url) as [pg|e].
  - destruct (Hk pg) as (r' & out' & Hkp & Hends). do 2 eexists.
    rewrite <- (app_nil_r [url]). split; [by apply Hb | done].
  - by do 2 eexists.
Qed.

Lemma is_io_preserves {A} (P : state R → Prop) (m : M R A) :
  blind P → is_io m → preserves P m.
Proof.
  intros Hblind (r & vis & out & Hm & _) st HP. rewrite Hm. simpl. by apply Hblind.
Qed.

Lemma is_io_finishes {A} (m : M R A) : is_io m → finishes m.
Proof. intros (r & vis & out & Hm & Hends) st. by rewrite Hm. Qed.

Lemma finishes_bind {A B} (m : M R A) (k : A → M R B) :
  finishes m → (∀ a, finishes (k a)) → finishes (bind m k).
Proof.
  intros Hm Hk st. unfold bind. specialize (Hm st).
  destruct (m st) as [[a|e|] st']; simpl in *; [apply Hk | done | done].
Qed.

Lemma finishes_try_catch {A} catches (m : M R A) (h : exn → M R A) :
  finishes m → (∀ e, finishes (h e)) → finishes (try_catch catches m h).
Proof.
  intros Hm Hh st. unfold try_catch. specialize (Hm st).
  destruct (m st) as [[a|e|] st']; simpl in *; [done | | done].
  destruct (catches e); [apply Hh | done].
Qed.


Lemma preserves_ret {A} (P : state R → Prop) (a : A) : preserves P (ret a).
Proof. by intros st. Qed.

Lemma preserves_bind {A B} (P : state R → Prop) (m : M R A) (k : A → M R B) :
  preserves P m → (∀ a, preserves P (k a)) → preserves P (bind m k).
Proof.
  intros Hm Hk st HP. unfold bind.
  specialize (Hm st HP). destruct (m st) as [[a|e|] st']; simpl in *; [by apply Hk | done | done].
Qed.

Lemma preserves_try_catch {A} (P : state R → Prop) catches (m : M R A) (h : exn → M R A) :
  preserves P m → (∀ e, preserves P (h e)) → preserves P (try_catch catches m h).
Proof.
  intros Hm Hh st HP. unfold try_catch.
  specialize (Hm st HP). destruct (m st) as [[a|e|] st']; simpl in *; [done | | done].
  destruct (catches e); [by apply Hh | done].
Qed.

Lemma preserves_finally {A} (P : state R → Prop) (m : M R A) (f : M R unit) :
  preserves P m → preserves P f → preserves P (finally m f).
Proof.
  intros Hm Hf st HP. unfold finally.
  specialize (Hm st HP). destruct (m st) as [[a|e|] st']; simpl in *; [| | done].
  - specialize (Hf st' Hm). by destruct (f st') as [[[]|e|] st''].
  - specialize (Hf st' Hm). by destruct (f st') as [[[]|e'|] st''].
Qed.

End Sessions.

Create HintDb io discriminated.
#[export] Hint Resolve is_io_ret is_io_lift is_io_print is_io_driver_get : io.
#[export] Hint Resolve talks_ret talks_lift talks_print : io.

(** Decompose a session built from binds, handlers and console calls. *)
Ltac io_steps :=
  repeat first
    [ apply is_io_bind | apply is_io_try_catch
    | apply talks_nil_bind | apply talks_try_catch
    | progress intros
    | solve [eauto with io]
    | match goal with
      | |- is_io (match ?x with _ => _ end) => destruct x
      | |- talks (match ?x with _ => _ end) _ => destruct x
      | |- is_io (if ?x then _ else _) => destruct x
      | |- talks (if ?x then _ else _) _ => destruct x
      end ].

(** ** myntra2_fast.py: what its steps touch *)

Lemma search_and_get_url_io (w : world) (q : string) : is_io (Fast.search_and_get_url w q).
Proof. unfold Fast.search_and_get_url. io_steps. Qed.

Lemma extract_all_quiet (pg : page) (els : list element) (term : string) (acc : list Fast.ProductInfo) :
  talks (Fast.extract_all pg els term acc) [].
Proof.
  revert acc. induction els as [|el els IH]; intros acc; simpl; io_steps.
Qed.

Lemma scrape_products_from_page_talks (w : world) (term url : string) :
  talks (Fast.scrape_products_from_page w term url) [url].
Proof.
  unfold Fast.scrape_products_from_page.
  apply talks_try_catch; [| io_steps].
  apply talks_driver_get_bind. intros pg.
  apply talks_nil_bind; [io_steps |].
  intros [|el els]; [io_steps | apply extract_all_quiet].
Qed.

Lemma generate_urls_io (w : world) (terms : list string) (acc : list (string * option string)) :
  is_io (Fast.generate_urls w terms acc).
Proof.
  revert acc. induction terms as [|term terms IH]; intros acc; simpl.
  - io_steps.
  - apply is_io_bind; [apply search_and_get_url_io |]. intros url.
    apply is_io_bind; [io_steps | intros _; apply IH].
Qed.

Lemma scrape_products_from_page_run (w : world) (term url : string) :
  ∃ out, io (Fast.scrape_products_from_page w term url) (page_outcome w term url) [url] out.
Proof.
  destruct (scrape_products_from_page_talks w term url) as (r & out & Hio & _).
  exists out. unfold page_outcome. by rewrite Hio.
Qed.

(** ** Appending to the CSV file *)

Lemma save_to_csv_append (products : list Fast.ProductInfo) (filename : string)
    (st : state Fast.ProductInfo) :
  Fast.save_to_csv products filename true st
  = (Returns tt,
     State (<[filename +:+ ".csv" :=
               appended (fs st !! (filename +:+ ".csv")) (map Fast.writerow products)]> (fs st))
           (stdout st) (visited st) (quits st) (driver st) (buffer st)).
Proof.
  unfold Fast.save_to_csv, bind, path_exists. simpl.
  destruct (fs st !! (filename +:+ ".csv")) as [content|] eqn:E.
  - rewrite bool_decide_true by (by eexists). simpl. unfold append_file. by rewrite E.
  - rewrite bool_decide_false by (by intros [? ?]). reflexivity.
Qed.

Lemma headers_rows (products : list Fast.ProductInfo) : headers (map Fast.writerow products) = 0.
Proof. induction products as [|p ps IH]; [done |]. unfold headers in *. simpl. by rewrite filter_cons. Qed.

Lemma append_batches_present (batches : list (list Fast.ProductInfo)) (filename : string)
    (st : state Fast.ProductInfo) (content : list chunk) :
  fs st !! (filename +:+ ".csv") = Some content →
  ∃ st', append_batches batches filename st = (Returns tt, st')
         ∧ fs st' !! (filename +:+ ".csv") = Some (content ++ map Fast.writerow (concat batches)).
Proof.
  revert st content. induction batches as [|b rest IH]; intros st content Hfile; simpl.
  - exists st. by rewrite app_nil_r.
  - unfold bind. rewrite save_to_csv_append, Hfile. simpl.
    match goal with
    | |- context [append_batches rest filename ?s] =>
        destruct (IH s (content ++ map Fast.writerow b)) as (st' & Hrun & Hfs);
          [simpl; apply lookup_insert_eq |]
    end.
    exists st'. split; [exact Hrun |].
    by rewrite Hfs, map_app, app_assoc.
Qed.

(** C4. After one or more calls of [save_to_csv] in append mode on a target
    that did not exist, the file holds the header row once, written by the
    first call, and after it one row for each record of all batches, in
    submission order: no record is dropped, repeated or moved.  The row of a
    record holds the values of its thirteen fields, each under the column of
    its name. *)
Theorem append_keeps_one_header (batches : list (list Fast.ProductInfo)) (filename : string)
    (st : state Fast.ProductInfo) :
  fs st !! (filename +:+ ".csv") = None →
  batches ≠ [] →
  ∃ st' content,
    append_batches batches filename st = (Returns tt, st')
    ∧ fs st' !! (filename +:+ ".csv") = Some content
    ∧ content = HeaderRow listing_columns :: map record_row (concat batches)
    ∧ headers content = 1.
Proof.
  intros Hfresh Hsome.
  destruct batches as [|b rest]; [done |]. simpl.
  unfold bind. rewrite save_to_csv_append, Hfresh. simpl.
  match goal with
  | |- context [append_batches rest filename ?s] =>
      destruct (append_batches_present rest filename s
                  (HeaderRow Fast.fieldnames :: map Fast.writerow b)) as (st' & Hrun & Hfs);
        [simpl; apply lookup_insert_eq |]
  end.
  exists st'. eexists. split; [exact Hrun |]. split; [exact Hfs |]. split.
  - simpl. rewrite map_app. reflexivity.
  - simpl. change (S (headers (map Fast.writerow b ++ map Fast.writerow (concat rest))) = 1).
    by rewrite <- map_app, headers_rows.
Qed.

(** Three batches appended to a fresh target, the second one empty: one
    header, then the three records with their values in place. *)
Lemma append_keeps_one_header_witness :
  ∃ st',
    append_batches
      [ [Sample.roadster_shirt]; []; [Sample.black_dress; Fast.new_product "sneakers"] ]
      "products" (initial ∅)
    = (Returns tt, st')
    ∧ fs st' !! "products.csv"
      = Some
          [ HeaderRow
              [ "search_term"; "brand_name"; "current_price"; "product_rating";
                "product_title"; "original_price"; "sale_price"; "discount_percent";
                "category_path"; "product_link"; "image_link"; "review_count";
                "size_options" ];
            DataRow
              [ "white shirt"; "Roadster"; "Rs. 499"; "N/A"; "Slim Fit Shirt"; "N/A"; "Rs. 499";
                "N/A"; "N/A"; "https://www.myntra.com/shirts/1"; "N/A"; "N/A"; "N/A" ];
            DataRow
              [ "black dress"; "N/A"; "N/A"; "4.2"; "N/A"; "Rs. 1999"; "N/A"; "(50% OFF)";
                "N/A"; ""; "N/A"; "12"; "N/A" ];
            DataRow
              [ "sneakers"; "N/A"; "N/A"; "N/A"; "N/A"; "N/A"; "N/A"; "N/A"; "N/A"; "N/A";
                "N/A"; "N/A"; "N/A" ] ].
Proof.
  destruct (append_keeps_one_header
              [ [Sample.roadster_shirt]; []; [Sample.black_dress; Fast.new_product "sneakers"] ]
              "products" (initial ∅))
    as (st' & content & Hrun & Hfs & Hcontent & _); [apply lookup_empty | discriminate |].
  exists st'. split; [exact Hrun |]. rewrite Hcontent in Hfs. exact Hfs.
Defined.

(** ** The pagination loop *)

Section Pagination.
Variables (w : world) (term base output : string) (max_pages : Z).

Lemma scrape_pages_over (fuel p : nat) (st : state Fast.ProductInfo) :
  Fast.within p (Fast.pages_bound max_pages) = false →
  Fast.scrape_pages fuel w term base output (Fast.pages_bound max_pages) p st = (Returns tt, st).
Proof. intros Hout. destruct fuel; simpl; by rewrite Hout. Qed.

Lemma scrape_pages_empty (fuel p : nat) (st : state Fast.ProductInfo) :
  Fast.within p (Fast.pages_bound max_pages) = true →
  page_outcome w term (Fast.page_url base p) = Returns [] →
  ∃ st', Fast.scrape_pages (S fuel) w term base output (Fast.pages_bound max_pages) p st
         = (Returns tt, st')
         ∧ visited st' = visited st ++ [Fast.page_url base p]
         ∧ fs st' = fs st ∧ buffer st' = buffer st.
Proof.
  intros Hin Hpage. simpl. rewrite Hin.
  destruct (scrape_products_from_page_run w term (Fast.page_url base p)) as [out Hio].
  rewrite Hpage in Hio.
  unfold bind at 1. unfold print at 1. simpl.
  unfold bind. rewrite Hio. simpl.
  eexists. split; [reflexivity |]. done.
Qed.

Lemma scrape_pages_next (fuel p : nat) (l : list Fast.ProductInfo) (st : state Fast.ProductInfo) :
  Fast.within p (Fast.pages_bound max_pages) = true →
  page_outcome w term (Fast.page_url base p) = Returns l → l ≠ [] →
  ∃ st1, Fast.scrape_pages (S fuel) w term base output (Fast.pages_bound max_pages) p st
         = Fast.scrape_pages fuel w term base output (Fast.pages_bound max_pages) (S p) st1
         ∧ visited st1 = visited st ++ [Fast.page_url base p]
         ∧ fs st1 = <[output +:+ ".csv" :=
                        appended (fs st !! (output +:+ ".csv")) (map Fast.writerow l)]> (fs st)
         ∧ buffer st1 = buffer st ++ l.
Proof.
  intros Hin Hpage Hne.
  change (Fast.scrape_pages (S fuel) w term base output (Fast.pages_bound max_pages) p st)
    with ((if Fast.within p (Fast.pages_bound max_pages) then
             print ("Processing page " +:+ Py.str_nat p +:+ ": " +:+ Fast.page_url base p);;
             let! page_products := Fast.scrape_products_from_page w term (Fast.page_url base p) in
             match page_products with
             | [] => print ("No products found on page " +:+ Py.str_nat p)
             | _ =>
                 extend page_products;;
                 Fast.save_to_csv page_products output true;;
                 print ("Saved " +:+ Py.str_nat (length page_products) +:+ " products from page "
                        +:+ Py.str_nat p);;
                 Fast.scrape_pages fuel w term base output (Fast.pages_bound max_pages) (S p)
             end
           else ret tt) st).
  rewrite Hin.
  destruct (scrape_products_from_page_run w term (Fast.page_url base p)) as [out Hio].
  rewrite Hpage in Hio.
  unfold bind at 1. unfold print at 1. simpl.
  unfold bind at 1. rewrite Hio.
  destruct l as [|x l]; [done |].
  unfold bind at 1. unfold extend at 1. simpl.
  unfold bind at 1. rewrite save_to_csv_append. simpl.
  unfold bind at 1. unfold print at 1. simpl.
  eexists. split; [reflexivity |]. done.
Qed.

End Pagination.

Lemma within_le (p q : nat) (b : Fast.bound) :
  Fast.within q b = true → p ≤ q → Fast.within p b = true.
Proof. destruct b as [n|]; simpl; [| done]. intros Hq Hpq. lia. Qed.

Lemma pages_until_empty (w : world) (term base output : string) (max_pages : Z)
    (k c fuel : nat) (st : state Fast.ProductInfo) :
  (∀ p, c ≤ p < c + k →
        ∃ l, page_outcome w term (Fast.page_url base p) = Returns l ∧ l ≠ []) →
  page_outcome w term (Fast.page_url base (c + k)) = Returns [] →
  Fast.within (c + k) (Fast.pages_bound max_pages) = true →
  k < fuel →
  ∃ st', Fast.scrape_pages fuel w term base output (Fast.pages_bound max_pages) c st
         = (Returns tt, st')
         ∧ visited st' = visited st ++ map (Fast.page_url base) (seq c (S k)).
Proof.
  revert c fuel st. induction k as [|k IH]; intros c fuel st Hfull Hempty Hin Hfuel.
  - destruct fuel as [|fuel]; [lia |].
    rewrite Nat.add_0_r in Hempty, Hin.
    destruct (scrape_pages_empty w term base output max_pages fuel c st Hin Hempty)
      as (st' & Hrun & Hvis & _).
    exists st'. by split.
  - destruct fuel as [|fuel]; [lia |].
    destruct (Hfull c ltac:(lia)) as (l & Hl & Hne).
    destruct (scrape_pages_next w term base output max_pages fuel c l st) as (st1 & Hrun & Hvis & _);
      [apply (within_le _ (c + S k)); [done | lia] | done | done |].
    destruct (IH (S c) fuel st1) as (st' & Hrun' & Hvis').
    + intros p Hp. apply Hfull. lia.
    + by replace (S c + k) with (c + S k) by lia.
    + by replace (S c + k) with (c + S k) by lia.
    + lia.
    + exists st'. split; [by rewrite Hrun |].
      rewrite Hvis', Hvis, <- app_assoc. reflexivity.
Qed.

Lemma pages_until_limit (w : world) (term base output : string) (max_pages : Z)
    (k c fuel : nat) (st : state Fast.ProductInfo) :
  (∀ p, c ≤ p < c + k →
        ∃ l, page_outcome w term (Fast.page_url base p) = Returns l ∧ l ≠ []) →
  (0 < max_pages)%Z → Z.of_nat (c + k) = (max_pages + 1)%Z →
  k ≤ fuel →
  ∃ st', Fast.scrape_pages fuel w term base output (Fast.pages_bound max_pages) c st
         = (Returns tt, st')
         ∧ visited st' = visited st ++ map (Fast.page_url base) (seq c k).
Proof.
  revert c fuel st. induction k as [|k IH]; intros c fuel st Hfull Hpos Hlast Hfuel.
  - exists st. split; [| by rewrite app_nil_r].
    apply scrape_pages_over. unfold Fast.pages_bound.
    destruct (0 <? max_pages)%Z eqn:E; [simpl; lia | lia].
  - destruct fuel as [|fuel]; [lia |].
    destruct (Hfull c ltac:(lia)) as (l & Hl & Hne).
    destruct (scrape_pages_next w term base output max_pages fuel c l st) as (st1 & Hrun & Hvis & _);
      [| done | done |].
    { unfold Fast.pages_bound. destruct (0 <? max_pages)%Z eqn:E; [simpl; lia | done]. }
    destruct (IH (S c) fuel st1) as (st' & Hrun' & Hvis'); [| done | lia | lia |].
    + intros p Hp. apply Hfull. lia.
    + exists st'. split; [by rewrite Hrun |].
      rewrite Hvis', Hvis, <- app_assoc. reflexivity.
Qed.

(** C5. The loop of one search term fetches pages 1, 2, ... in order and
    stops at page [n]: the first page that yields no product, when the page
    limit does not come first, or the page whose number is the limit.  A
    limit of 0 (or less) is no limit: the loop then stops at the first empty
    page only.  No page after [n] is fetched.  [fuel] steps are enough when
    [n ≤ fuel]. *)
Theorem pagination_stops (w : world) (term base output : string) (max_pages : Z)
    (n fuel : nat) (st : state Fast.ProductInfo) :
  1 ≤ n → n ≤ fuel →
  (∀ p, 1 ≤ p < n →
        ∃ l, page_outcome w term (Fast.page_url base p) = Returns l ∧ l ≠ []) →
  (page_outcome w term (Fast.page_url base n) = Returns []
   ∧ (max_pages ≤ 0 ∨ Z.of_nat n ≤ max_pages)%Z)
  ∨ ((∃ l, page_outcome w term (Fast.page_url base n) = Returns l ∧ l ≠ [])
     ∧ max_pages = Z.of_nat n) →
  ∃ st', Fast.scrape_pages fuel w term base output (Fast.pages_bound max_pages) 1 st
         = (Returns tt, st')
         ∧ visited st' = visited st ++ map (Fast.page_url base) (seq 1 n).
Proof.
  intros Hn Hfuel Hfull [[Hempty Hlimit] | [Hlast Hlimit]].
  - destruct (pages_until_empty w term base output max_pages (n - 1) 1 fuel st)
      as (st' & Hrun & Hvis).
    + intros p Hp. apply Hfull. lia.
    + by replace (1 + (n - 1)) with n by lia.
    + replace (1 + (n - 1)) with n by lia.
      unfold Fast.pages_bound. destruct (0 <? max_pages)%Z eqn:E; [simpl; lia | done].
    + lia.
    + exists st'. split; [done |]. by replace (S (n - 1)) with n in Hvis by lia.
  - destruct (pages_until_limit w term base output max_pages n 1 fuel st)
      as (st' & Hrun & Hvis); [| lia | lia | lia |].
    + intros p Hp. destruct (decide (p = n)) as [->|]; [done | apply Hfull; lia].
    + by exists st'.
Qed.

(** With no page limit and products on page 1 only, the loop fetches pages 1
    and 2 and stops. *)
Lemma pagination_stops_witness :
  ∃ st', Fast.scrape_pages 2 Sample.one_page_of_results "shirt" Sample.results_url "products"
           (Fast.pages_bound 0) 1 (initial ∅)
         = (Returns tt, st')
         ∧ visited st' = visited (initial (R:=Fast.ProductInfo) ∅)
                         ++ map (Fast.page_url Sample.results_url) (seq 1 2).
Proof.
  apply pagination_stops.
  - lia.
  - lia.
  - intros p Hp. assert (p = 1) as -> by lia.
    eexists. split; [vm_compute; reflexivity | discriminate].
  - left. split; [vm_compute; reflexivity | left; lia].
Defined.

(** ** Field extraction on a listing element *)

Lemma getattr_setattr (p : Fast.ProductInfo) (field : string) (v : option string) :
  settable field → Fast.getattr (Fast.setattr p field v) field = Some v.
Proof.
  intros Hf. destruct p. unfold settable in Hf. simpl in Hf.
  repeat (apply elem_of_cons in Hf as [->|Hf]; [reflexivity |]).
  by apply elem_of_nil in Hf.
Qed.

Lemma getattr_setattr_ne (p : Fast.ProductInfo) (field other : string) (v : option string) :
  field ≠ other → Fast.getattr (Fast.setattr p field v) other = Fast.getattr p other.
Proof.
  intros Hne. destruct p. unfold Fast.setattr.
  repeat match goal with
         | |- context [String.eqb field ?s] =>
             destruct (String.eqb_spec field s) as [->|?];
             [ assert (String.eqb other s = false) as Hs by (apply String.eqb_neq; congruence);
               unfold Fast.getattr; simpl; rewrite Hs; reflexivity
             | ]
         end.
  reflexivity.
Qed.

Lemma search_term_setattr (p : Fast.ProductInfo) (field : string) (v : option string) :
  Fast.search_term (Fast.setattr p field v) = Fast.search_term p.
Proof.
  destruct p. unfold Fast.setattr.
  repeat match goal with
         | |- context [String.eqb field ?s] => destruct (String.eqb field s); [reflexivity |]
         end.
  reflexivity.
Qed.

Lemma on_found_step `{SearchContext T} (ctx : T) (b : By) (sel field : string)
    (read : element → option string) (p : Fast.ProductInfo) :
  only_missing ctx → settable field →
  ∃ p', Fast.on_found (find_element ctx b sel) (λ e, Fast.setattr p field (read e)) p = Ok p'
        ∧ Fast.getattr p' field
          = found_or (find_element ctx b sel) (λ e, Some (read e)) (Fast.getattr p field)
        ∧ (∀ other, field ≠ other → Fast.getattr p' other = Fast.getattr p other)
        ∧ Fast.search_term p' = Fast.search_term p.
Proof.
  intros Hctx Hf. unfold Fast.on_found, found_or.
  destruct (find_element ctx b sel) as [e|x] eqn:E; simpl.
  - eexists. split; [reflexivity |]. split; [by apply getattr_setattr |].
    split; [intros; by apply getattr_setattr_ne | apply search_term_setattr].
  - rewrite (Hctx _ _ _ E). rewrite decide_True by done.
    eexists. split; [reflexivity |]. done.
Qed.

Lemma elem_of_map_fst {A B} (x : A) (y : B) (l : list (A * B)) :
  (x, y) ∈ l → x ∈ map fst l.
Proof.
  intros Hin. apply list_elem_of_In. apply list_elem_of_In in Hin.
  by apply (in_map fst) in Hin.
Qed.

Lemma extract_fields_total (el : element) (fields : list (string * (string * string)))
    (p : Fast.ProductInfo) :
  only_missing el → NoDup (map fst fields) → Forall (λ x, settable x.1) fields →
  ∃ p', Fast.extract_fields el fields p = Ok p'
        ∧ (∀ field cls mode, (field, (cls, mode)) ∈ fields →
             Fast.getattr p' field
             = found_or (find_element el CLASS_NAME cls) (λ e, Some (Fast.read e mode))
                        (Fast.getattr p field))
        ∧ (∀ other, other ∉ map fst fields → Fast.getattr p' other = Fast.getattr p other)
        ∧ Fast.search_term p' = Fast.search_term p.
Proof.
  intros Hel. revert p.
  induction fields as [|[field [cls mode]] rest IH]; intros p Hnodup Hset.
  - exists p. split; [done |]. split; [| done].
    intros ??? Hin. by apply elem_of_nil in Hin.
  - simpl in Hnodup. apply NoDup_cons in Hnodup as [Hfresh Hnodup].
    apply Forall_cons in Hset as [Hfield Hset]. simpl in Hfield.
    destruct (on_found_step el CLASS_NAME cls field (λ e, Fast.read e mode) p Hel Hfield)
      as (p1 & Hstep & Hsame & Hother & Hterm).
    destruct (IH p1 Hnodup Hset) as (p' & Hrun & Hlisted & Hrest & Hterm').
    exists p'. simpl. rewrite Hstep. simpl. split; [exact Hrun |].
    split; [| split].
    + intros f c m Hin. apply elem_of_cons in Hin as [Heq|Hin].
      * injection Heq as -> -> ->. by rewrite Hrest, Hsame.
      * rewrite (Hlisted _ _ _ Hin). rewrite Hother; [done |].
        intros ->. apply Hfresh. by apply (elem_of_map_fst _ (c, m)).
    + intros other Hnot. simpl in Hnot. apply not_elem_of_cons in Hnot as [Hne Hnot].
      rewrite Hrest by done. by apply Hother.
    + by rewrite Hterm'.
Qed.

(** Settle a decidable statement about concrete data by evaluation. *)
Ltac decide_it := apply (bool_decide_unpack _); by vm_compute.

Lemma extraction_map_wellformed :
  NoDup (map fst Fast.extraction_map) ∧ Forall (λ x, settable x.1) Fast.extraction_map.
Proof.
  unfold settable. split; decide_it.
Qed.

Lemma extract_product_details_total (pg : page) (el : element) (term : string) :
  only_missing el → only_missing pg →
  (∀ fields p0,
      NoDup (map fst fields) → Forall (λ x, settable x.1) fields →
      ∃ p, Fast.extract_fields el fields p0 = Ok p
           ∧ ∀ field cls mode, (field, (cls, mode)) ∈ fields →
               Fast.getattr p field
               = found_or (find_element el CLASS_NAME cls) (λ e, Some (Fast.read e mode))
                          (Fast.getattr p0 field))
  ∧ (∃ p, Fast.extract_product_details pg el term = Ok p
     ∧ Fast.search_term p = term
     ∧ (∀ field cls mode, (field, (cls, mode)) ∈ Fast.extraction_map →
          Fast.getattr p field
          = Some (found_or (find_element el CLASS_NAME cls) (λ e, Fast.read e mode) (Some "N/A")))
     ∧ Fast.product_link p
       = found_or (find_element el CSS_SELECTOR Fast.link_selector)
                  (λ e, get_attribute e "href") (Some "N/A")
     ∧ Fast.image_link p
       = found_or (find_element el CSS_SELECTOR "img.img-responsive")
                  (λ e, get_attribute e "src") (Some "N/A")
     ∧ Fast.review_count p
       = found_or (find_element el CSS_SELECTOR ".product-ratingsCount")
                  (λ e, Some (Py.strip_chars "()" (text e))) (Some "N/A")
     ∧ Fast.category_path p
       = found_or (find_element pg CSS_SELECTOR Fast.breadcrumb_selector)
                  (λ e, Some (text e)) (Some "N/A")
     ∧ Fast.size_options p = Some "N/A")
  ∧ (∀ b sel, Myntra._safe_extract pg b sel
              = found_or (find_element pg b sel) (λ e, Py.strip (text e)) "N/A").
Proof.
  intros Hel Hpg.
  split; [| split; [| intros b sel; unfold Myntra._safe_extract; by destruct (find_element pg b sel)]].
  { intros fields p0 Hnodup Hset.
    destruct (extract_fields_total el fields p0 Hel Hnodup Hset) as (p & Hrun & Hlisted & _).
    by exists p. }
  destruct extraction_map_wellformed as [Hnodup Hset].
  unfold Fast.extract_product_details.
  destruct (extract_fields_total el Fast.extraction_map (Fast.new_product term) Hel Hnodup Hset)
    as (p1 & -> & Hmap & Hrest1 & Hterm1). simpl.
  destruct (on_found_step el CSS_SELECTOR Fast.link_selector "product_link"
              (λ e, get_attribute e "href") p1 Hel ltac:(unfold settable; decide_it))
    as (p2 & -> & Hlink & Hrest2 & Hterm2). simpl.
  destruct (on_found_step el CSS_SELECTOR "img.img-responsive" "image_link"
              (λ e, get_attribute e "src") p2 Hel ltac:(unfold settable; decide_it))
    as (p3 & -> & Himg & Hrest3 & Hterm3). simpl.
  destruct (on_found_step el CSS_SELECTOR ".product-ratingsCount" "review_count"
              (λ e, Some (Py.strip_chars "()" (text e))) p3 Hel ltac:(unfold settable; decide_it))
    as (p4 & -> & Hrev & Hrest4 & Hterm4). simpl.
  destruct (on_found_step pg CSS_SELECTOR Fast.breadcrumb_selector "category_path"
              (λ e, Some (text e)) p4 Hpg ltac:(unfold settable; decide_it))
    as (p5 & Hrun & Hcat & Hrest5 & Hterm5).
  exists p5. split; [exact Hrun |].
  split; [by rewrite Hterm5, Hterm4, Hterm3, Hterm2, Hterm1 |].
  assert (∀ name v, Fast.getattr p5 name = Some v →
                    ∀ proj, (∀ q, Fast.getattr q name = Some (proj q)) → proj p5 = v) as Hproj.
  { intros name v Hget proj Hp. rewrite Hp in Hget. by injection Hget. }
  split; [| repeat split].
  - intros field cls mode Hin.
    assert (Fast.getattr p1 field
            = Some (found_or (find_element el CLASS_NAME cls) (λ e, Fast.read e mode) (Some "N/A")))
      as H1.
    { rewrite (Hmap _ _ _ Hin). unfold found_or.
      destruct (find_element el CLASS_NAME cls); [done |].
      unfold Fast.extraction_map in Hin.
      repeat (apply elem_of_cons in Hin as [Heq|Hin]; [by injection Heq as -> _ _ |]).
      by apply elem_of_nil in Hin. }
    assert (field ∈ map fst Fast.extraction_map) as Hfield
      by (by apply (elem_of_map_fst _ (cls, mode))).
    rewrite Hrest5, Hrest4, Hrest3, Hrest2; [exact H1 | | | |];
      intros <-; revert Hfield; decide_it.
  - apply (Hproj "product_link"); [| done].
    rewrite Hrest5, Hrest4, Hrest3, Hlink by done.
    rewrite Hrest1 by decide_it. unfold found_or.
    by destruct (find_element el CSS_SELECTOR Fast.link_selector).
  - apply (Hproj "image_link"); [| done].
    rewrite Hrest5, Hrest4, Himg by done.
    rewrite Hrest2 by done. rewrite Hrest1 by decide_it. unfold found_or.
    by destruct (find_element el CSS_SELECTOR "img.img-responsive").
  - apply (Hproj "review_count"); [| done].
    rewrite Hrest5, Hrev by done.
    rewrite Hrest3, Hrest2 by done. rewrite Hrest1 by decide_it. unfold found_or.
    by destruct (find_element el CSS_SELECTOR ".product-ratingsCount").
  - apply (Hproj "category_path"); [| done].
    rewrite Hcat.
    rewrite Hrest4, Hrest3, Hrest2 by done. rewrite Hrest1 by decide_it. unfold found_or.
    by destruct (find_element pg CSS_SELECTOR Fast.breadcrumb_selector).
  - apply (Hproj "size_options"); [| done].
    rewrite Hrest5, Hrest4, Hrest3, Hrest2 by done. rewrite Hrest1 by decide_it.
    reflexivity.
Qed.

(** C6, amended.  On a listing element whose queries fail only because a
    node is missing, extraction raises nothing.  For every list of field
    specs (one spec per field) the loop over the specs returns a record in
    which each listed field holds the value read from its node, or its
    default when the node is missing.  [extract_product_details] returns a
    record in which every declared field holds the value read from its
    node, or "N/A" when the node is missing: the seven fields of the
    extraction map, the link, the image, the review count and the category
    path; [size_options], which nothing reads, stays "N/A".  Every field but
    the link and the image is a string.  The link and the image hold what
    [get_attribute] gives for the node found, which is [None] when the
    anchor has no [href] or the image no [src].  [_safe_extract] of
    myntra_new.py returns the stripped text of the node, or "N/A" whatever
    the query raised. *)
Theorem extraction_is_total (pg : page) (el : element) (term : string) :
  only_missing el → only_missing pg →
  (∀ fields p0,
      NoDup (map fst fields) → Forall (λ x, settable x.1) fields →
      ∃ p, Fast.extract_fields el fields p0 = Ok p
           ∧ ∀ field cls mode, (field, (cls, mode)) ∈ fields →
               Fast.getattr p field
               = found_or (find_element el CLASS_NAME cls) (λ e, Some (Fast.read e mode))
                          (Fast.getattr p0 field))
  ∧ (∃ p, Fast.extract_product_details pg el term = Ok p
     ∧ Fast.search_term p = term
     ∧ (∀ field cls mode, (field, (cls, mode)) ∈ Fast.extraction_map →
          Fast.getattr p field
          = Some (found_or (find_element el CLASS_NAME cls) (λ e, Fast.read e mode) (Some "N/A")))
     ∧ Fast.product_link p
       = found_or (find_element el CSS_SELECTOR Fast.link_selector)
                  (λ e, get_attribute e "href") (Some "N/A")
     ∧ Fast.image_link p
       = found_or (find_element el CSS_SELECTOR "img.img-responsive")
                  (λ e, get_attribute e "src") (Some "N/A")
     ∧ Fast.review_count p
       = found_or (find_element el CSS_SELECTOR ".product-ratingsCount")
                  (λ e, Some (Py.strip_chars "()" (text e))) (Some "N/A")
     ∧ Fast.category_path p
       = found_or (find_element pg CSS_SELECTOR Fast.breadcrumb_selector)
                  (λ e, Some (text e)) (Some "N/A")
     ∧ Fast.size_options p = Some "N/A"
     ∧ (∀ field, field ∈ listing_columns →
          field ≠ "product_link" → field ≠ "image_link" →
          ∃ s, Fast.getattr p field = Some (Some s)))
  ∧ (∀ b sel, Myntra._safe_extract pg b sel
              = found_or (find_element pg b sel) (λ e, Py.strip (text e)) "N/A").
Proof.
  intros Hel Hpg.
  destruct (extract_product_details_total pg el term Hel Hpg)
    as (Hloop & (p & Hrun & Hterm & Hmap & Hlink & Himg & Hrev & Hcat & Hsize) & Hsafe).
  split; [exact Hloop |]. split; [| exact Hsafe].
  exists p. do 8 (split; [done |]).
  assert (∀ field cls, (field, (cls, "text")) ∈ Fast.extraction_map →
                       ∃ s, Fast.getattr p field = Some (Some s)) as Htext.
  { intros field cls Hin. rewrite (Hmap _ _ _ Hin). unfold found_or.
    destruct (find_element el CLASS_NAME cls); by eexists. }
  intros field Hin Hnolink Hnoimg. unfold listing_columns in Hin.
  repeat (apply elem_of_cons in Hin as [->|Hin]).
  - by eexists.
  - apply (Htext _ "product-brand"). decide_it.
  - apply (Htext _ "product-discountedPrice"). decide_it.
  - apply (Htext _ "product-ratingsContainer"). decide_it.
  - apply (Htext _ "product-product"). decide_it.
  - apply (Htext _ "product-strike"). decide_it.
  - apply (Htext _ "product-discountedPrice"). decide_it.
  - apply (Htext _ "product-discountPercentage"). decide_it.
  - change (∃ s, Some (Fast.category_path p) = Some (Some s)). rewrite Hcat. unfold found_or.
    destruct (find_element pg CSS_SELECTOR Fast.breadcrumb_selector); by eexists.
  - done.
  - done.
  - change (∃ s, Some (Fast.review_count p) = Some (Some s)). rewrite Hrev. unfold found_or.
    destruct (find_element el CSS_SELECTOR ".product-ratingsCount"); by eexists.
  - change (∃ s, Some (Fast.size_options p) = Some (Some s)). rewrite Hsize. by eexists.
  - by apply elem_of_nil in Hin.
Qed.

(** A product element with a brand node and nothing else, on a page without
    breadcrumb: the brand is read, the other fields stay "N/A". *)
Lemma extraction_is_total_witness :
  ∃ p, Fast.extract_product_details Sample.empty_listing Sample.product_card "white shirt" = Ok p
       ∧ Fast.getattr p "brand_name" = Some (Some "Roadster")
       ∧ Fast.getattr p "original_price" = Some (Some "N/A")
       ∧ Fast.size_options p = Some "N/A".
Proof.
  assert (only_missing Sample.product_card) as Hel.
  { intros b sel e. unfold find_element, find_elements, element_context. simpl.
    destruct (bool_decide (b = CLASS_NAME) && String.eqb sel "product-brand"); simpl;
      intros Hraise; [discriminate | by injection Hraise]. }
  assert (only_missing Sample.empty_listing) as Hpg.
  { intros b sel e. unfold find_element, find_elements, page_context. simpl.
    destruct (bool_decide (b = CLASS_NAME) && String.eqb sel "product-base"); simpl;
      intros Hraise; by injection Hraise. }
  destruct (extraction_is_total Sample.empty_listing Sample.product_card "white shirt" Hel Hpg)
    as (_ & (p & Hrun & _ & Hmap & _ & _ & _ & _ & Hsizes & _) & _).
  exists p. split; [exact Hrun |]. split; [| split; [| exact Hsizes]].
  - rewrite (Hmap "brand_name" "product-brand" "text") by decide_it. reflexivity.
  - rewrite (Hmap "original_price" "product-strike" "text") by decide_it. reflexivity.
Defined.

(** C6 as stated fails for the link and the image: on a product element
    whose anchor has no [href] and whose image has no [src], both nodes are
    found and both fields are [None], neither a string read from the page
    nor "N/A". *)
Lemma link_without_href_is_none :
  only_missing Sample.bare_link_card
  ∧ only_missing Sample.empty_listing
  ∧ ∃ p, Fast.extract_product_details Sample.empty_listing Sample.bare_link_card "white shirt"
         = Ok p
         ∧ Fast.product_link p = None
         ∧ Fast.image_link p = None.
Proof.
  split; [| split].
  - intros b sel e. unfold find_element, find_elements, element_context. simpl.
    destruct (bool_decide (b = CSS_SELECTOR)
              && (String.eqb sel Fast.link_selector || String.eqb sel "img.img-responsive"));
      simpl; intros Hraise; [discriminate | by injection Hraise].
  - intros b sel e. unfold find_element, find_elements, page_context. simpl.
    destruct (bool_decide (b = CLASS_NAME) && String.eqb sel "product-base"); simpl;
      intros Hraise; by injection Hraise.
  - eexists. split; [vm_compute; reflexivity |]. split; reflexivity.
Qed.

(** ** One product fails, the batch goes on *)






(** The same batch, evaluated: two records, three visits, one error line. *)
Example second_product_skipped :
  let st' := (Myntra.visit_products Sample.second_fails "white shirt" 3 1 Sample.three_products
                (initial ∅)).2 in
  map Myntra.product_url (buffer st')
  = ["https://www.myntra.com/shirts/1"; "https://www.myntra.com/shirts/3"]
  ∧ length (visited st') = 3
  ∧ "Error extracting details from https://www.myntra.com/shirts/2: WebDriverException"
    ∈ stdout st'.
Proof. vm_compute. repeat split. do 2 apply list_elem_of_further. apply list_elem_of_here. Qed.

(** ** myntra_new.py: what its steps touch *)

Lemma search_products_io (w : world) (term : string) : is_io (Myntra.search_products w term).
Proof. unfold Myntra.search_products. io_steps. Qed.

Lemma collect_product_urls_io (w : world) (url : string) (n : Z) :
  is_io (Myntra.collect_product_urls w url n).
Proof. unfold Myntra.collect_product_urls. io_steps. Qed.

Lemma extract_product_details_io (w : world) (url : option string) (term : string) :
  is_io (Myntra.extract_product_details w url term).
Proof. unfold Myntra.extract_product_details. io_steps. Qed.

Lemma files_are_blind {R} (files : gmap string (list chunk)) : blind (files_are (R:=R) files).
Proof. by intros st vis out. Qed.

Lemma visit_products_files (w : world) (term : string) (total idx : nat)
    (urls : list (option string)) (files : gmap string (list chunk)) :
  preserves (files_are files) (Myntra.visit_products w term total idx urls).
Proof.
  revert idx. induction urls as [|url urls IH]; intros idx; simpl.
  - apply preserves_ret.
  - apply preserves_bind; [apply is_io_preserves; [apply files_are_blind | io_steps] |].
    intros _. apply preserves_bind;
      [apply is_io_preserves; [apply files_are_blind | apply extract_product_details_io] |].
    intros details. apply preserves_bind; [| intros _; apply IH].
    destruct details; [by intros st | apply preserves_ret].
Qed.

Lemma process_terms_files (w : world) (terms : list string) (n : Z)
    (files : gmap string (list chunk)) :
  preserves (files_are files) (Myntra.process_terms w terms n).
Proof.
  induction terms as [|term terms IH]; simpl.
  - apply preserves_ret.
  - apply preserves_bind; [apply is_io_preserves; [apply files_are_blind | io_steps] |].
    intros _. apply preserves_bind;
      [apply is_io_preserves; [apply files_are_blind | apply search_products_io] |].
    intros url. apply preserves_bind; [| intros _; apply IH].
    destruct (Py.truthy_opt url); [| apply preserves_ret].
    apply preserves_bind;
      [apply is_io_preserves; [apply files_are_blind | apply collect_product_urls_io] |].
    intros urls. apply preserves_bind;
      [apply is_io_preserves; [apply files_are_blind | io_steps] |].
    intros _. apply visit_products_files.
Qed.

Lemma run_scraping_session_files (w : world) (terms : list string) (n : Z)
    (files : gmap string (list chunk)) :
  preserves (files_are files) (Myntra.run_scraping_session w terms n).
Proof.
  unfold Myntra.run_scraping_session.
  apply preserves_bind; [apply is_io_preserves; [apply files_are_blind | io_steps] |].
  intros _. apply preserves_bind; [apply process_terms_files |].
  intros _. apply preserves_bind; [by intros st |].
  intros data. apply is_io_preserves; [apply files_are_blind | io_steps].
Qed.

(** ** Saving without records *)

Lemma myntra_save_data_empty (filename : string) (st : state Myntra.ProductDetails) :
  buffer st = [] →
  Myntra.save_data filename st = (Returns tt, logged st [] ["No data to save"]).
Proof.
  intros Hempty. unfold Myntra.save_data, bind, read_buffer. rewrite Hempty.
  unfold print, logged. by rewrite app_nil_r.
Qed.

Lemma myntra_save_data_buffer (filename : string) (st : state Myntra.ProductDetails) :
  buffer (Myntra.save_data filename st).2 = buffer st.
Proof.
  unfold Myntra.save_data, bind, read_buffer. simpl.
  destruct (buffer st) eqn:E; simpl; by rewrite ?E.
Qed.

(** A run of myntra_new.py ends with the files as they were, or with a
    record in [scraped_data]. *)
Lemma myntra_main_end (w : world) (max_products : Z) (output_file : string)
    (st : state Myntra.ProductDetails) :
  fs (Myntra.main w max_products output_file st).2 = fs st
  ∨ buffer (Myntra.main w max_products output_file st).2 ≠ [].
Proof.
  unfold Myntra.main, bind, set_driver, reset_buffer, finally, try_catch, Myntra.close,
    driver_quit. simpl.
  match goal with
  | |- context [Myntra.run_scraping_session w Myntra.search_terms max_products ?s] =>
      pose proof (run_scraping_session_files w Myntra.search_terms max_products (fs st) s eq_refl)
        as Hfiles;
      destruct (Myntra.run_scraping_session w Myntra.search_terms max_products s)
        as [[[]|e|] st2]
  end; unfold files_are in Hfiles; simpl in Hfiles.
  - destruct (buffer st2) as [|r rs] eqn:Hbuf.
    + left. rewrite (myntra_save_data_empty output_file st2 Hbuf). simpl. exact Hfiles.
    + right. pose proof (myntra_save_data_buffer output_file st2) as Hkeep.
      destruct (Myntra.save_data output_file st2) as [[[]|e|] st3]; simpl in *.
      * congruence.
      * destruct (Exception e); simpl; congruence.
      * congruence.
  - left. by destruct (Exception e).
  - by left.
Qed.

(** C10.  With no record in [scraped_data], [save_data] of both product-page
    scrapers returns after printing "No data to save": the files are as
    before, so neither the CSV nor the JSON file is created.  With a record
    it writes both.  A whole run of myntra_new.py that ends without a record
    leaves the files as they were. *)
Theorem save_data_needs_records :
  (∀ (filename : string) (st : state Myntra.ProductDetails),
      buffer st = [] →
      Myntra.save_data filename st = (Returns tt, logged st [] ["No data to save"]))
  ∧ (∀ (filename : string) (st : state Nykaa.ProductDetails),
        buffer st = [] →
        Nykaa.save_data filename st = (Returns tt, logged st [] ["No data to save"]))
  ∧ (∀ (filename : string) (st : state Myntra.ProductDetails),
        buffer st ≠ [] →
        is_Some (fs (Myntra.save_data filename st).2 !! (filename +:+ ".csv"))
        ∧ is_Some (fs (Myntra.save_data filename st).2 !! (filename +:+ ".json")))
  ∧ (∀ (w : world) (max_products : Z) (output_file : string) (st : state Myntra.ProductDetails),
        buffer (Myntra.main w max_products output_file st).2 = [] →
        fs (Myntra.main w max_products output_file st).2 = fs st).
Proof.
  split; [exact myntra_save_data_empty |]. split; [| split].
  - intros filename st Hempty. unfold Nykaa.save_data, bind, read_buffer. rewrite Hempty.
    unfold print, logged. by rewrite app_nil_r.
  - intros filename st Hsome. unfold Myntra.save_data, bind, read_buffer.
    destruct (buffer st) as [|r rs] eqn:E; [done |]. simpl.
    split.
    + destruct (decide (filename +:+ ".json" = filename +:+ ".csv")) as [->|Hne].
      * rewrite lookup_insert_eq. by eexists.
      * rewrite lookup_insert_ne by done. rewrite lookup_insert_eq. by eexists.
    + rewrite lookup_insert_eq. by eexists.
  - intros w max_products output_file st Hend.
    by destruct (myntra_main_end w max_products output_file st).
Qed.

(** A run without network: no search succeeds, no record is scraped, no
    file appears. *)
Lemma save_data_needs_records_witness :
  fs (Myntra.main Sample.offline 10 "myntra_products" (initial ∅)).2
  = fs (initial (R:=Myntra.ProductDetails) ∅).
Proof.
  apply (proj2 (proj2 (proj2 save_data_needs_records))).
  vm_compute. reflexivity.
Defined.

(** ** myntra2_fast.py: what the page loop keeps *)

Section PageLoop.
Variables (output : string) (P : state Fast.ProductInfo → Prop).
Hypothesis P_blind : blind P.
Hypothesis P_saved :
  ∀ (l : list Fast.ProductInfo) (k : Fast.session unit),
    preserves P k → preserves P (extend l;; Fast.save_to_csv l output true;; k).

Lemma page_io_preserves {A} (m : Fast.session A) : is_io m → preserves P m.
Proof. by apply is_io_preserves. Qed.

Lemma scrape_pages_preserves (fuel : nat) (w : world) (term base : string)
    (b : Fast.bound) (p : nat) :
  preserves P (Fast.scrape_pages fuel w term base output b p).
Proof.
  revert p. induction fuel as [|fuel IH]; intros p; simpl.
  - destruct (Fast.within p b); [by intros st | apply preserves_ret].
  - destruct (Fast.within p b); [| apply preserves_ret].
    apply preserves_bind; [apply page_io_preserves; io_steps |]. intros _.
    apply preserves_bind.
    { apply page_io_preserves. eapply talks_is_io, scrape_products_from_page_talks. }
    intros [|x l].
    + apply page_io_preserves. io_steps.
    + apply P_saved.
      apply preserves_bind; [apply page_io_preserves; io_steps |]. intros _. apply IH.
Qed.

Lemma scrape_terms_preserves (fuel : nat) (w : world) (items : list (string * option string))
    (max_pages : Z) :
  preserves P (Fast.scrape_terms fuel w items max_pages output).
Proof.
  induction items as [|[term url] items IH]; simpl.
  - apply preserves_ret.
  - apply preserves_bind; [| intros _; apply IH].
    destruct (Py.truthy_opt url).
    + apply preserves_bind; [apply page_io_preserves; io_steps |]. intros _.
      apply preserves_bind; [apply scrape_pages_preserves |]. intros _.
      apply page_io_preserves. io_steps.
    + apply page_io_preserves. io_steps.
Qed.

End PageLoop.

(** ** Persistence *)

Lemma last_char_app (s t : string) (c : ascii) :
  last_char (s +:+ String c t) = last_char (String c t).
Proof.
  induction s as [|a s IH]; [done |].
  change (last_char (String a (s +:+ String c t)) = last_char (String c t)).
  rewrite <- IH. simpl. by destruct (s +:+ String c t) eqn:E; [destruct s |].
Qed.

Lemma csv_is_not_the_url_file (output : string) : output +:+ ".csv" ≠ "search_urls.json".
Proof.
  intros Heq. apply (f_equal last_char) in Heq.
  rewrite last_char_app in Heq. discriminate.
Qed.

Lemma data_rows_writerow (l : list Fast.ProductInfo) :
  filter (λ c, is_data c = true) (map Fast.writerow l) = map Fast.writerow l.
Proof. induction l as [|p l IH]; [done |]. simpl. rewrite filter_cons. simpl. by rewrite IH. Qed.

Lemma data_rows_appended (old : option (list chunk)) (l : list Fast.ProductInfo) :
  data_rows (Some (appended old (map Fast.writerow l))) = data_rows old ++ map Fast.writerow l.
Proof.
  unfold data_rows. destruct old as [content|]; simpl.
  - by rewrite filter_app, data_rows_writerow.
  - rewrite filter_cons. simpl. apply data_rows_writerow.
Qed.

Lemma persisted_blind (csv : string) (base : list chunk) : blind (persisted csv base).
Proof. by intros st vis out. Qed.

Lemma persisted_saved (output : string) (base : list chunk)
    (l : list Fast.ProductInfo) (k : Fast.session unit) :
  preserves (persisted (output +:+ ".csv") base) k →
  preserves (persisted (output +:+ ".csv") base)
            (extend l;; Fast.save_to_csv l output true;; k).
Proof.
  intros Hk st HP.
  unfold bind at 1. unfold extend at 1. simpl.
  unfold bind at 1. rewrite save_to_csv_append. simpl.
  apply Hk. unfold persisted in *. simpl.
  rewrite lookup_insert_eq, data_rows_appended, HP, map_app. by rewrite app_assoc.
Qed.

Lemma close_browser_run {R} (st : state R) :
  (let! present := read_driver in if present then driver_quit else ret tt) st
  = (Returns tt,
     State (fs st) (stdout st) (visited st) (if driver st then S (quits st) else quits st)
           (driver st) (buffer st)).
Proof. unfold bind, read_driver, driver_quit, ret. simpl. destruct st as [? ? ? ? [] ?]; done. Qed.

Lemma fast_session_persisted (fuel : nat) (w : world) (terms : list string) (max_pages : Z)
    (output : string) (st : state Fast.ProductInfo) :
  persisted (output +:+ ".csv") (data_rows (fs st !! (output +:+ ".csv")))
            (Fast.run_scraping_session fuel w terms max_pages output st).2.
Proof.
  unfold Fast.run_scraping_session.
  unfold bind at 1. unfold reset_buffer at 1. simpl.
  set (base := data_rows (fs st !! (output +:+ ".csv"))).
  match goal with
  | |- persisted _ _ (?m ?s).2 => cut (preserves (persisted (output +:+ ".csv") base) m)
  end.
  { intros Hkeep. apply Hkeep. unfold persisted. simpl. by rewrite app_nil_r. }
  pose proof (persisted_blind (output +:+ ".csv") base) as Hblind.
  apply preserves_bind; [apply is_io_preserves; [done | io_steps] |]. intros _.
  apply preserves_bind; [apply is_io_preserves; [done | apply generate_urls_io] |].
  intros urls.
  apply preserves_bind.
  { intros s HP. unfold persisted in *. simpl.
    rewrite lookup_insert_ne; [done |]. intros Heq. by apply (csv_is_not_the_url_file output). }
  intros _. apply preserves_bind.
  { apply preserves_finally.
    - apply preserves_try_catch.
      + apply scrape_terms_preserves; [done |]. intros l k. apply persisted_saved.
      + intros e. apply is_io_preserves; [done | io_steps].
    - intros s HP. unfold Fast.close_browser. by rewrite close_browser_run. }
  intros _. apply preserves_bind; [by intros s |].
  intros all. apply is_io_preserves; [done | io_steps].
Qed.

(** C2, amended.  Persistence is incremental in the listing-page scraper
    only.  There, however the session ends (it returns, an error or an
    interrupt ends it, or it is abandoned after any number of steps of the
    page loop), the CSV file holds the data rows it held before and, after
    them, the rows of all records collected so far, that is of every page
    that was completed; and the step of the page loop for a page with
    products has put the records of that page into the list of records and
    their rows at the end of the file before the next page is asked for.
    The product-page scraper writes no file at all while its session runs:
    it keeps the records in memory until [save_data] is called after the
    session. *)
Theorem persistence_page_by_page :
  (∀ (fuel : nat) (w : world) (terms : list string) (max_pages : Z) (output : string)
     (st : state Fast.ProductInfo),
      data_rows (fs (Fast.run_scraping_session fuel w terms max_pages output st).2
                   !! (output +:+ ".csv"))
      = data_rows (fs st !! (output +:+ ".csv"))
        ++ map Fast.writerow
             (buffer (Fast.run_scraping_session fuel w terms max_pages output st).2))
  ∧ (∀ (fuel : nat) (w : world) (term base output : string) (max_pages : Z) (p : nat)
       (l : list Fast.ProductInfo) (st : state Fast.ProductInfo),
        Fast.within p (Fast.pages_bound max_pages) = true →
        page_outcome w term (Fast.page_url base p) = Returns l → l ≠ [] →
        ∃ st1,
          Fast.scrape_pages (S fuel) w term base output (Fast.pages_bound max_pages) p st
          = Fast.scrape_pages fuel w term base output (Fast.pages_bound max_pages) (S p) st1
          ∧ buffer st1 = buffer st ++ l
          ∧ fs st1 !! (output +:+ ".csv")
            = Some (appended (fs st !! (output +:+ ".csv")) (map Fast.writerow l)))
  ∧ (∀ (w : world) (terms : list string) (max_products : Z) (st : state Myntra.ProductDetails),
        fs (Myntra.run_scraping_session w terms max_products st).2 = fs st).
Proof.
  split; [| split].
  - intros. apply fast_session_persisted.
  - intros fuel w term base output max_pages p l st Hin Hpage Hne.
    destruct (scrape_pages_next w term base output max_pages fuel p l st Hin Hpage Hne)
      as (st1 & Hrun & _ & Hfs & Hbuf).
    exists st1. split; [exact Hrun |]. split; [exact Hbuf |].
    rewrite Hfs. apply lookup_insert_eq.
  - intros. by apply (run_scraping_session_files w terms max_products (fs st) st).
Qed.

(** A session of the listing-page scraper on one term: page 1 has a product,
    page 2 has none.  The file holds the header and the row of that product,
    the driver has been released by the session. *)
Example one_page_session_saved :
  ∃ p st',
    Fast.run_scraping_session 2 Sample.shop ["shirt"] 0 "products" (initial ∅)
    = (Returns [p], st')
    ∧ fs st' !! "products.csv" = Some [HeaderRow Fast.fieldnames; Fast.writerow p]
    ∧ visited st'
      = ["https://www.myntra.com"; "https://www.myntra.com/shirt&p=1";
         "https://www.myntra.com/shirt&p=2"].
Proof. do 2 eexists. split; [vm_compute; reflexivity |]. split; by vm_compute. Qed.

(** C2 as stated fails for product visits: a run of myntra_new.py in which
    the first product is visited and its record extracted, and the driver
    then fails on the next results page, ends with that record in memory and
    no file written. *)
Lemma completed_visit_is_not_saved :
  ∃ st', Myntra.main Sample.crash_on_second_term 10 "myntra_products" (initial ∅)
         = (Returns tt, st')
         ∧ map Myntra.product_url (buffer st') = ["https://www.myntra.com/shirts/1"]
         ∧ fs st' = ∅
         ∧ last (stdout st') = Some "An error occurred: WebDriverException".
Proof. eexists. split; [vm_compute; reflexivity |]. by vm_compute. Qed.

(** ** The driver's release *)













(** An interrupt from the keyboard during the first search: the session
    never gets to its [try] block, and [quit] is called once, by [main]. *)
Example driver_released_once_when_interrupted :
  reaches_try Sample.interrupted Fast.search_items = false
  ∧ ∃ st', Fast.main 1 Sample.interrupted 1 "products" (initial ∅) = (Returns tt, st')
           ∧ quits st' = 1
           ∧ fs st' = ∅.
Proof. split; [reflexivity |]. eexists. split; [vm_compute; reflexivity | done]. Qed.

(** * Further properties *)

(** ** Stripped text *)

Lemma app_cons (c : ascii) (s t : string) : String c s +:+ t = String c (s +:+ t).
Proof. reflexivity. Qed.

Lemma lstrip_split (p : ascii → bool) (s : string) :
  ∃ pre, s = pre +:+ Py.lstrip_with p s ∧ all_chars p pre = true.
Proof.
  induction s as [|c s (pre & Hs & Hpre)]; simpl.
  - by exists "".
  - destruct (p c) eqn:Hc.
    + exists (String c pre). rewrite app_cons, <- Hs. simpl. by rewrite Hc.
    + by exists "".
Qed.

Lemma lstrip_first (p : ascii → bool) (s : string) (c : ascii) :
  first_char (Py.lstrip_with p s) = Some c → p c = false.
Proof.
  induction s as [|a s IH]; simpl; [done |].
  destruct (p a) eqn:Ha; [done |]. simpl. by intros [= <-].
Qed.

Lemma rstrip_split (p : ascii → bool) (s : string) :
  ∃ post, s = Py.rstrip_with p s +:+ post ∧ all_chars p post = true.
Proof.
  induction s as [|c s (post & Hs & Hpost)]; simpl.
  - by exists "".
  - destruct (Py.rstrip_with p s) as [|a r] eqn:Hr.
    + change ("" +:+ post) with post in Hs. subst post.
      destruct (p c) eqn:Hc.
      * exists (String c s). split; [done |]. simpl. by rewrite Hc.
      * exists s. by rewrite app_cons.
    + exists post. rewrite app_cons. by rewrite <- Hs.
Qed.

Lemma rstrip_last (p : ascii → bool) (s : string) (c : ascii) :
  last_char (Py.rstrip_with p s) = Some c → p c = false.
Proof.
  induction s as [|a s IH]; simpl; [done |].
  destruct (Py.rstrip_with p s) as [|b r] eqn:Hr.
  - destruct (p a) eqn:Ha; simpl; [done | by intros [= <-]].
  - intros Hlast. apply IH. exact Hlast.
Qed.

Lemma rstrip_first (p : ascii → bool) (s : string) (c : ascii) :
  first_char s = Some c → p c = false → first_char (Py.rstrip_with p s) = Some c.
Proof.
  destruct s as [|a s]; simpl; [done |]. intros [= ->] Hc.
  destruct (Py.rstrip_with p s); [by rewrite Hc | done].
Qed.

Lemma strip_with_trimmed (p : ascii → bool) (s : string) :
  trimmed p (Py.rstrip_with p (Py.lstrip_with p s)).
Proof.
  split; [| apply rstrip_last].
  intros c Hfirst.
  destruct (Py.lstrip_with p s) as [|a t] eqn:Ht; [done |].
  assert (p a = false) as Ha by (apply (lstrip_first p s); by rewrite Ht).
  rewrite (rstrip_first p (String a t) a eq_refl Ha) in Hfirst. by injection Hfirst as <-.
Qed.

Lemma lstrip_fixed (p : ascii → bool) (s : string) :
  (∀ c, first_char s = Some c → p c = false) → Py.lstrip_with p s = s.
Proof. destruct s as [|a s]; [done |]. intros Hfirst. simpl. by rewrite (Hfirst a eq_refl). Qed.

Lemma rstrip_fixed (p : ascii → bool) (s : string) :
  (∀ c, last_char s = Some c → p c = false) → Py.rstrip_with p s = s.
Proof.
  induction s as [|a s IH]; [done |]. intros Hlast. simpl.
  destruct s as [|b s].
  - simpl. by rewrite (Hlast a eq_refl).
  - rewrite IH; [done |]. intros c Hc. by apply Hlast.
Qed.

(** [s.strip()] takes whitespace off both ends of [s] and nothing else,
    leaves no whitespace at either end, and changes nothing when applied a
    second time. *)
Lemma strip_spec (s : string) :
  (∃ pre post, s = pre +:+ Py.strip s +:+ post
               ∧ all_chars Py.isspace pre = true ∧ all_chars Py.isspace post = true)
  ∧ trimmed Py.isspace (Py.strip s)
  ∧ Py.strip (Py.strip s) = Py.strip s.
Proof.
  assert (trimmed Py.isspace (Py.strip s)) as Htrim by apply strip_with_trimmed.
  split; [| split; [done |]].
  - destruct (lstrip_split Py.isspace s) as (pre & Hs & Hpre).
    destruct (rstrip_split Py.isspace (Py.lstrip_with Py.isspace s)) as (post & Ht & Hpost).
    exists pre, post. split; [| done]. unfold Py.strip. by rewrite <- Ht.
  - destruct Htrim as [Hfirst Hlast]. unfold Py.strip at 1.
    by rewrite (lstrip_fixed _ _ Hfirst), (rstrip_fixed _ _ Hlast).
Qed.

Lemma safe_extract_trimmed (pg : page) (b : By) (sel : string) :
  trimmed Py.isspace (Myntra._safe_extract pg b sel).
Proof.
  unfold Myntra._safe_extract. destruct (find_element pg b sel) as [e|x]; simpl.
  - apply strip_with_trimmed.
  - split; intros c [= <-]; reflexivity.
Qed.

Lemma safe_extract_xpath_trimmed (pg : page) (xpath : string) :
  trimmed Py.isspace (Nykaa._safe_extract_xpath pg xpath).
Proof.
  unfold Nykaa._safe_extract_xpath. destruct (find_element pg XPATH xpath) as [e|x]; simpl.
  - apply strip_with_trimmed.
  - split; intros c [= <-]; reflexivity.
Qed.

(** X3.  The text fields of a product-page record (brand, name, the two
    prices, rating) never start or end with whitespace, in both scrapers. *)
Theorem text_fields_are_trimmed (pg : page) (url keyword : string) :
  (trimmed Py.isspace (Myntra.brand (Myntra.product_info_of pg url keyword))
   ∧ trimmed Py.isspace (Myntra.name (Myntra.product_info_of pg url keyword))
   ∧ trimmed Py.isspace (Myntra.discounted_price (Myntra.product_info_of pg url keyword))
   ∧ trimmed Py.isspace (Myntra.original_price (Myntra.product_info_of pg url keyword))
   ∧ trimmed Py.isspace (Myntra.rating (Myntra.product_info_of pg url keyword)))
  ∧ (trimmed Py.isspace (Nykaa.brand (Nykaa.product_info_of pg url keyword))
     ∧ trimmed Py.isspace (Nykaa.name (Nykaa.product_info_of pg url keyword))
     ∧ trimmed Py.isspace (Nykaa.discounted_price (Nykaa.product_info_of pg url keyword))
     ∧ trimmed Py.isspace (Nykaa.original_price (Nykaa.product_info_of pg url keyword))
     ∧ trimmed Py.isspace (Nykaa.rating (Nykaa.product_info_of pg url keyword))).
Proof.
  split.
  - unfold Myntra.product_info_of. simpl.
    destruct (negb (Py.truthy (Myntra._safe_extract pg CLASS_NAME "pdp-mrp"))); simpl;
      repeat split; apply safe_extract_trimmed.
  - unfold Nykaa.product_info_of. simpl.
    destruct (negb (Py.truthy (Nykaa._safe_extract_xpath pg "//span[@class=' css-1byl9fj']"))
              || String.eqb (Nykaa._safe_extract_xpath pg "//span[@class=' css-1byl9fj']") "N/A");
      simpl; repeat split; apply safe_extract_xpath_trimmed.
Qed.

(** ** Reviews and breadcrumb *)

Lemma stripped_texts_spec (elements : list element) :
  Forall (λ s, s ≠ "" ∧ trimmed Py.isspace s) (stripped_texts elements)
  ∧ stripped_texts elements `sublist_of` map (λ e, Py.strip (text e)) elements
  ∧ (∀ e, e ∈ elements → Py.strip (text e) ≠ "" → Py.strip (text e) ∈ stripped_texts elements).
Proof.
  unfold stripped_texts. split; [| split].
  - apply Forall_forall. intros s Hs. apply list_elem_of_filter in Hs as [Htruthy Hin].
    split; [by destruct s |].
    apply list_elem_of_In, in_map_iff in Hin as (e & <- & _). apply strip_with_trimmed.
  - apply sublist_filter.
  - intros e He Hne. apply list_elem_of_filter. split.
    + by destruct (Py.strip (text e)).
    + apply list_elem_of_In, in_map_iff. exists e. split; [done | by apply list_elem_of_In].
Qed.

Lemma stripped_texts_labelled (elements : list element) :
  stripped_texts elements
  = map (λ e, Py.strip (text e)) (filter (λ e, labelled e = true) elements).
Proof.
  unfold stripped_texts. induction elements as [|e els IH]; [done |].
  simpl. rewrite !filter_cons. unfold labelled at 1.
  destruct (decide (Py.truthy (Py.strip (text e)) = true)); simpl; by rewrite IH.
Qed.

(** X4.  The reviews of a record are exactly the stripped texts of the
    review elements whose text is not blank, one per element and in DOM
    order, in both product-page scrapers: no review is left out, repeated
    or moved.  None is empty and none starts or ends with whitespace.  When
    the query fails the list is empty. *)
Theorem reviews_are_nonblank_texts (pg : page) :
  (∀ review_elements,
      find_elements pg XPATH "//div[@class='user-review-reviewTextWrapper']" = Ok review_elements →
      Myntra._extract_reviews pg
      = map (λ e, Py.strip (text e)) (filter (λ e, labelled e = true) review_elements))
  ∧ (∀ x, find_elements pg XPATH "//div[@class='user-review-reviewTextWrapper']" = Raise x →
          Myntra._extract_reviews pg = [])
  ∧ Forall (λ s, s ≠ "" ∧ trimmed Py.isspace s) (Myntra._extract_reviews pg)
  ∧ (∀ review_elements,
        find_elements pg XPATH "//p[@class='css-183zl1c']" = Ok review_elements →
        Nykaa._extract_reviews pg
        = map (λ e, Py.strip (text e)) (filter (λ e, labelled e = true) review_elements))
  ∧ (∀ x, find_elements pg XPATH "//p[@class='css-183zl1c']" = Raise x →
          Nykaa._extract_reviews pg = [])
  ∧ Forall (λ s, s ≠ "" ∧ trimmed Py.isspace s) (Nykaa._extract_reviews pg).
Proof.
  unfold Myntra._extract_reviews, Nykaa._extract_reviews.
  split; [| split; [| split; [| split; [| split]]]].
  - intros els ->. simpl. apply stripped_texts_labelled.
  - by intros x ->.
  - destruct (find_elements pg XPATH "//div[@class='user-review-reviewTextWrapper']")
      as [els|x]; simpl; [apply stripped_texts_spec | by apply Forall_nil_2].
  - intros els ->. simpl. apply stripped_texts_labelled.
  - by intros x ->.
  - destruct (find_elements pg XPATH "//p[@class='css-183zl1c']")
      as [els|x]; simpl; [apply stripped_texts_spec | by apply Forall_nil_2].
Qed.

(** Three review elements, the second blank and the third a repetition of
    the first: two reviews, both kept. *)
Lemma reviews_are_nonblank_texts_witness :
  Myntra._extract_reviews Sample.repeated_reviews = ["Good"; "Good"].
Proof.
  destruct (reviews_are_nonblank_texts Sample.repeated_reviews) as [Hlist _].
  rewrite (Hlist _ eq_refl). reflexivity.
Defined.

Lemma join_nonempty (sep : string) (l : list string) :
  Forall (λ s, s ≠ "") l → Py.join sep l = "" → l = [].
Proof.
  intros Hall. destruct l as [|s l]; [done |].
  apply Forall_cons in Hall as [Hs _]. simpl.
  destruct s as [|a s]; [done |]. by destruct l.
Qed.

(** X5.  When the breadcrumb query succeeds, the breadcrumb is the empty
    string exactly when no crumb has text; it is then not the "N/A" that a
    failed query gives. *)
Theorem breadcrumb_empty_without_crumbs (pg : page) (breadcrumb_elements : list element) :
  find_elements pg CSS_SELECTOR ".breadcrumbs-crumb" = Ok breadcrumb_elements →
  (Myntra._extract_breadcrumb pg = ""
   ↔ Forall (λ e, Py.strip (text e) = "") breadcrumb_elements).
Proof.
  intros Hfound. unfold Myntra._extract_breadcrumb. rewrite Hfound. simpl.
  destruct (stripped_texts_spec breadcrumb_elements) as (Hall & _ & Hin).
  split.
  - intros Hjoin. apply join_nonempty in Hjoin; [| by eapply Forall_impl; [exact Hall | intros ? []]].
    apply Forall_forall. intros e He.
    destruct (decide (Py.strip (text e) = "")) as [|Hne]; [done |].
    specialize (Hin e He Hne). rewrite Hjoin in Hin. by apply elem_of_nil in Hin.
  - intros Hblank. unfold stripped_texts.
    assert (filter (λ s, Py.truthy s = true) (map (λ e, Py.strip (text e)) breadcrumb_elements) = [])
      as ->; [| done].
    clear Hfound Hall Hin.
    induction Hblank as [|e els He _ IH]; [done |].
    simpl. rewrite filter_cons, He. simpl. exact IH.
Qed.

(** A page without crumbs: the breadcrumb is empty. *)
Lemma breadcrumb_empty_without_crumbs_witness :
  Myntra._extract_breadcrumb Sample.price_only = ""
  ↔ Forall (λ e, Py.strip (text e) = "") [].
Proof. by apply breadcrumb_empty_without_crumbs. Defined.

(** ** Image URLs *)

Lemma prefix_cons (a b : ascii) (p r : string) :
  String.prefix (String a p) (String b r)
  = (if ascii_dec a b then String.prefix p r else false).
Proof. reflexivity. Qed.

Lemma prefix_empty (r : string) : String.prefix "" r = true.
Proof. by destruct r. Qed.

Lemma split_head_keeps_prefix (c : ascii) (p r : string) :
  Py.mem_char c p = false → String.prefix p r = true →
  String.prefix p (Py.split_head c r) = true.
Proof.
  revert r. induction p as [|a p IH]; intros r Hfree Hpre; [apply prefix_empty |].
  destruct r as [|b r]; [done |].
  rewrite prefix_cons in Hpre. destruct (ascii_dec a b) as [<-|]; [| done].
  simpl in Hfree. apply orb_false_iff in Hfree as [Hca Hfree].
  simpl. rewrite Ascii.eqb_sym, Hca. rewrite prefix_cons.
  destruct (ascii_dec a a); [by apply IH | done].
Qed.

Lemma split_head_keeps_http (r : string) :
  Py.startswith "http" r = true → Py.startswith "http" (Py.split_head "?" r) = true.
Proof. by apply split_head_keeps_prefix. Qed.

Lemma try_strategies_value (i : nat) (image_strategies : list strategy) (pg : page) :
  (try_strategies i image_strategies pg).1 = "Image not available"
  ∨ (Py.startswith "http" (try_strategies i image_strategies pg).1 = true
     ∧ Py.mem_char "?" (try_strategies i image_strategies pg).1 = false).
Proof.
  revert i. induction image_strategies as [|s rest IH]; intros i; simpl; [by left |].
  specialize (IH (S i)).
  destruct (s pg) as [[r|]|x].
  - destruct (Py.truthy r && Py.startswith "http" r) eqn:Hvalid.
    + right. simpl. apply andb_true_iff in Hvalid as [_ Hhttp].
      split; [by apply split_head_keeps_http | apply split_head_cut].
    + by destruct (try_strategies (S i) rest pg).
  - by destruct (try_strategies (S i) rest pg).
  - by destruct (try_strategies (S i) rest pg).
Qed.

(** X6.  The image URL of a record is "Image not available" or a string
    that starts with "http" and holds no question mark, whatever the page,
    in both product-page scrapers. *)
Theorem image_url_is_absolute_or_unavailable (pg : page) :
  (Myntra.extract_product_image pg = "Image not available"
   ∨ (Py.startswith "http" (Myntra.extract_product_image pg) = true
      ∧ Py.mem_char "?" (Myntra.extract_product_image pg) = false))
  ∧ (Nykaa.extract_product_image pg = "Image not available"
     ∨ (Py.startswith "http" (Nykaa.extract_product_image pg) = true
        ∧ Py.mem_char "?" (Nykaa.extract_product_image pg) = false)).
Proof. split; apply try_strategies_value. Qed.

(** X7.  The last-resort scan returns the [src] of the first image, in DOM
    order, whose [src] is not empty and contains one of the keywords in any
    letter case; it returns nothing exactly when no image passes that
    test. *)
Theorem fallback_scan_finds_first (keywords : list string) (all_images : list element) :
  (∀ src, first_product_image keywords all_images = Some src →
          ∃ pre img post,
            all_images = pre ++ img :: post
            ∧ product_image keywords img src
            ∧ Forall (λ e, ∀ s, ¬ product_image keywords e s) pre)
  ∧ (first_product_image keywords all_images = None
     ↔ Forall (λ e, ∀ s, ¬ product_image keywords e s) all_images).
Proof.
  assert (∀ img src, get_attribute img "src" = Some src →
            (Py.truthy src && any_keyword keywords src = true ↔ product_image keywords img src))
    as Htest.
  { intros img src Hsrc. unfold product_image, any_keyword. rewrite andb_true_iff.
    split.
    - intros [Htruthy Hany]. split; [done |]. split; [by destruct src |].
      apply existsb_exists in Hany as (keyword & Hin & Hk).
      exists keyword. split; [by apply list_elem_of_In | done].
    - intros (_ & Hne & keyword & Hin & Hk). split; [by destruct src |].
      apply existsb_exists. exists keyword. split; [by apply list_elem_of_In | done]. }
  induction all_images as [|img rest [IHsome IHnone]]; simpl.
  - split; [done |]. split; [intros _; apply Forall_nil_2 | done].
  - destruct (get_attribute img "src") as [src0|] eqn:Hsrc.
    + destruct (Py.truthy src0 && any_keyword keywords src0) eqn:Hpass.
      * split.
        -- intros src [= <-]. exists [], img, rest. split; [done |].
           split; [by apply (Htest img src0 Hsrc) | apply Forall_nil_2].
        -- split; [done |]. intros Hall. apply Forall_cons in Hall as [Himg _].
           exfalso. apply (Himg src0). by apply (Htest img src0 Hsrc).
      * assert (∀ s, ¬ product_image keywords img s) as Hfail.
        { intros s Hs. assert (s = src0) as -> by (destruct Hs as [Hs _]; congruence).
          apply (Htest img src0 Hsrc) in Hs. congruence. }
        split.
        -- intros src Hfound. destruct (IHsome src Hfound) as (pre & img' & post & -> & Himg & Hpre).
           exists (img :: pre), img', post. split; [done |]. split; [done |].
           by apply Forall_cons_2.
        -- rewrite IHnone. split; [by apply Forall_cons_2 | by intros [_ ?]%Forall_cons].
    + assert (∀ s, ¬ product_image keywords img s) as Hfail
        by (intros s [Hs _]; congruence).
      split.
      * intros src Hfound. destruct (IHsome src Hfound) as (pre & img' & post & -> & Himg & Hpre).
        exists (img :: pre), img', post. split; [done |]. split; [done |].
        by apply Forall_cons_2.
      * rewrite IHnone. split; [by apply Forall_cons_2 | by intros [_ ?]%Forall_cons].
Qed.

(** ** The background image of a style attribute *)

Lemma string_app_assoc (a b c : string) : (a +:+ b) +:+ c = a +:+ b +:+ c.
Proof. induction a as [|x a IH]; [done |]. by rewrite !app_cons, IH. Qed.

Lemma string_length_app (a b : string) :
  String.length (a +:+ b) = String.length a + String.length b.
Proof. induction a as [|x a IH]; [done |]. rewrite app_cons. simpl. by rewrite IH. Qed.

Lemma prefix_app (p x : string) : String.prefix p (p +:+ x) = true.
Proof.
  induction p as [|a p IH]; [apply prefix_empty |].
  rewrite app_cons, prefix_cons. by destruct (ascii_dec a a).
Qed.

Lemma index_skip (w s s1 : string) (k : nat) :
  String.index (String.length w + k) s1 (w +:+ s)
  = (λ n, String.length w + n) <$> String.index k s1 s.
Proof.
  induction w as [|a w IH].
  - change ("" +:+ s) with s. simpl. by destruct (String.index k s1 s).
  - rewrite app_cons. simpl. rewrite IH. by destruct (String.index k s1 s).
Qed.

(** The first occurrence of a string in [u ++ that string ++ post] is after
    [u] when [u] lacks the first character of the string. *)
Lemma index_first (c : ascii) (m u post : string) :
  Py.mem_char c u = false →
  String.index 0 (String c m) (u +:+ String c m +:+ post) = Some (String.length u).
Proof.
  intros Hfree. induction u as [|a u IH].
  - change ("" +:+ String c m +:+ post) with (String c m +:+ post).
    rewrite app_cons. simpl.
    destruct (ascii_dec c c); [| done]. by rewrite prefix_app.
  - simpl in Hfree. apply orb_false_iff in Hfree as [Hca Hfree].
    rewrite app_cons. simpl.
    destruct (ascii_dec c a) as [->|_]; [by rewrite Ascii.eqb_refl in Hca |].
    by rewrite (IH Hfree).
Qed.

(** A string is not found in a text that lacks its first character. *)
Lemma index_absent (c : ascii) (m s : string) (n : nat) :
  Py.mem_char c s = false → String.index n (String c m) s = None.
Proof.
  revert n. induction s as [|a s IH]; intros n Hfree.
  - by destruct n.
  - simpl in Hfree. apply orb_false_iff in Hfree as [Hca Hfree].
    destruct n as [|n]; simpl.
    + destruct (ascii_dec c a) as [->|_]; [by rewrite Ascii.eqb_refl in Hca |].
      by rewrite (IH 0 Hfree).
    + by rewrite (IH n Hfree).
Qed.

Lemma substring_skip (w s : string) (n : nat) :
  String.substring (String.length w) n (w +:+ s) = String.substring 0 n s.
Proof. induction w as [|a w IH]; [done |]. by rewrite app_cons. Qed.

Lemma substring_prefix (u rest : string) :
  String.substring 0 (String.length u) (u +:+ rest) = u.
Proof. induction u as [|a u IH]; [by destruct rest |]. rewrite app_cons. simpl. by rewrite IH. Qed.

(** X8.  [_extract_background_image] reads a quoted URL back from a style
    attribute: for a style made of any text without the letter b, then
    [background-image: url("], a non-empty URL without double quote, [")]
    and any text, it returns that URL.  From a style without any double
    quote (an unquoted [url(...)]) it returns nothing. *)
Theorem background_image_is_read_back (selector : string) (pg : page) (element : element) :
  find_element pg CSS_SELECTOR selector = Ok element →
  (∀ pre u post,
      get_attribute element "style"
      = Some (pre +:+ ("background-image: url(" +:+ Py.dquote) +:+ u +:+ (Py.dquote +:+ ")") +:+ post) →
      Py.mem_char "b" pre = false → Py.mem_char (ascii_of_nat 34) u = false → u ≠ "" →
      Myntra._extract_background_image selector pg = Ok (Some u))
  ∧ (∀ style_attr,
        get_attribute element "style" = Some style_attr →
        Py.mem_char (ascii_of_nat 34) style_attr = false →
        Myntra._extract_background_image selector pg = Ok None).
Proof.
  intros Hfound. split.
  - intros pre u post Hstyle Hpre Hu Hne.
    unfold Myntra._extract_background_image. rewrite Hfound. simpl. rewrite Hstyle.
    set (marker := "background-image: url(" +:+ Py.dquote).
    set (close := Py.dquote +:+ ")").
    set (style_attr := pre +:+ marker +:+ u +:+ close +:+ post).
    assert (Py.truthy style_attr = true) as -> by (unfold style_attr; by destruct pre).
    assert (Py.contains "background-image: url(" style_attr = true) as ->.
    { unfold Py.contains, style_attr.
      change marker with ("background-image: url(" +:+ Py.dquote).
      rewrite (string_app_assoc "background-image: url(" Py.dquote).
      change "background-image: url(" with (String "b" "ackground-image: url(").
      by rewrite (index_first "b" "ackground-image: url(" pre _ Hpre). }
    assert (Py.find marker style_attr 0 = Z.of_nat (String.length pre)) as ->.
    { unfold Py.find, style_attr.
      change marker with (String "b" ("ackground-image: url(" +:+ Py.dquote)).
      by rewrite (index_first "b" _ pre _ Hpre). }
    assert ((Z.of_nat (String.length pre) + Z.of_nat 23)%Z
            = Z.of_nat (String.length (pre +:+ marker))) as ->
      by (rewrite string_length_app; unfold marker; simpl; lia).
    rewrite Nat2Z.id.
    assert (Py.find close style_attr (String.length (pre +:+ marker))
            = Z.of_nat (String.length (pre +:+ marker) + String.length u)) as ->.
    { unfold Py.find, style_attr. rewrite <- (string_app_assoc pre marker).
      rewrite <- (Nat.add_0_r (String.length (pre +:+ marker))) at 1.
      rewrite index_skip.
      change close with (String (ascii_of_nat 34) ")").
      by rewrite (index_first (ascii_of_nat 34) ")" u post Hu). }
    assert ((0 <? Z.of_nat (String.length (pre +:+ marker)))%Z = true) as ->.
    { apply Z.ltb_lt. rewrite string_length_app. unfold marker. simpl. lia. }
    assert ((Z.of_nat (String.length (pre +:+ marker))
             <? Z.of_nat (String.length (pre +:+ marker) + String.length u))%Z = true) as ->.
    { apply Z.ltb_lt. destruct u; [done | simpl; lia]. }
    simpl. rewrite Nat2Z.id. unfold Py.slice, style_attr.
    rewrite <- (string_app_assoc pre marker), substring_skip.
    replace (String.length (pre +:+ marker) + String.length u - String.length (pre +:+ marker))
      with (String.length u) by lia.
    by rewrite substring_prefix.
  - intros style_attr Hstyle Hfree.
    unfold Myntra._extract_background_image. rewrite Hfound. simpl. rewrite Hstyle.
    destruct (Py.truthy style_attr && Py.contains "background-image: url(" style_attr); [| done].
    unfold Py.find.
    change ("background-image: url(" +:+ Py.dquote)
      with (String "b" ("ackground-image: url(" +:+ Py.dquote)).
    change (Py.dquote +:+ ")") with (String (ascii_of_nat 34) ")").
    destruct (String.index 0 _ style_attr) as [n|]; simpl;
      rewrite (index_absent (ascii_of_nat 34) ")" style_attr) by exact Hfree.
    + assert ((Z.of_nat n + Z.of_nat 23 <? -1)%Z = false) as -> by (apply Z.ltb_ge; lia).
      by rewrite andb_false_r.
    + reflexivity.
Qed.

(** The URL of a grid cell's background image is read back. *)
Lemma background_image_is_read_back_witness :
  Myntra._extract_background_image ".image-grid-image" Sample.grid_image
  = Ok (Some "https://assets.myntassets.com/a.jpg").
Proof.
  apply (proj1 (background_image_is_read_back ".image-grid-image" Sample.grid_image
                  Sample.grid_cell eq_refl) "width: 100%; " _ ";").
  - reflexivity.
  - reflexivity.
  - reflexivity.
  - discriminate.
Defined.

(** ** Records of a listing page *)

Lemma rbind_ok {A B} (r : result A) (k : A → result B) (b : B) :
  rbind r k = Ok b → ∃ a, r = Ok a ∧ k a = Ok b.
Proof. destruct r as [a|e]; simpl; [by exists a | done]. Qed.

Lemma on_found_ok `{SearchContext T} (ctx : T) (b : By) (sel field : string)
    (read : element → option string) (p p' : Fast.ProductInfo) :
  settable field →
  Fast.on_found (find_element ctx b sel) (λ e, Fast.setattr p field (read e)) p = Ok p' →
  Fast.getattr p' field
  = found_or (find_element ctx b sel) (λ e, Some (read e)) (Fast.getattr p field)
  ∧ (∀ other, field ≠ other → Fast.getattr p' other = Fast.getattr p other)
  ∧ Fast.search_term p' = Fast.search_term p.
Proof.
  intros Hf. unfold Fast.on_found, found_or.
  destruct (find_element ctx b sel) as [e|x]; simpl.
  - intros [= <-]. split; [by apply getattr_setattr |].
    split; [intros; by apply getattr_setattr_ne | apply search_term_setattr].
  - destruct (decide (x = NoSuchElementException)); [| done]. by intros [= <-].
Qed.

Lemma extract_fields_ok (el : element) (fields : list (string * (string * string)))
    (p p' : Fast.ProductInfo) :
  NoDup (map fst fields) → Forall (λ x, settable x.1) fields →
  Fast.extract_fields el fields p = Ok p' →
  (∀ field cls mode, (field, (cls, mode)) ∈ fields →
     Fast.getattr p' field
     = found_or (find_element el CLASS_NAME cls) (λ e, Some (Fast.read e mode))
                (Fast.getattr p field))
  ∧ (∀ other, other ∉ map fst fields → Fast.getattr p' other = Fast.getattr p other)
  ∧ Fast.search_term p' = Fast.search_term p.
Proof.
  revert p. induction fields as [|[field [cls mode]] rest IH]; intros p Hnodup Hset Hrun.
  - simpl in Hrun. injection Hrun as <-. split; [| done].
    intros ??? Hin. by apply elem_of_nil in Hin.
  - simpl in Hnodup. apply NoDup_cons in Hnodup as [Hfresh Hnodup].
    apply Forall_cons in Hset as [Hfield Hset]. simpl in Hfield.
    simpl in Hrun. apply rbind_ok in Hrun as (p1 & Hstep & Hrun).
    apply on_found_ok in Hstep as (Hsame & Hother & Hterm); [| done].
    destruct (IH p1 Hnodup Hset Hrun) as (Hlisted & Hrest & Hterm').
    split; [| split].
    + intros f c m Hin. apply elem_of_cons in Hin as [Heq|Hin].
      * injection Heq as -> -> ->. by rewrite Hrest, Hsame.
      * rewrite (Hlisted _ _ _ Hin). rewrite Hother; [done |].
        intros ->. apply Hfresh. by apply (elem_of_map_fst _ (c, m)).
    + intros other Hnot. simpl in Hnot. apply not_elem_of_cons in Hnot as [Hne Hnot].
      rewrite Hrest by done. by apply Hother.
    + by rewrite Hterm'.
Qed.

Lemma extract_product_details_ok (pg : page) (el : element) (term : string)
    (p : Fast.ProductInfo) :
  Fast.extract_product_details pg el term = Ok p →
  Fast.search_term p = term ∧ Fast.current_price p = Fast.sale_price p.
Proof.
  intros Hrun. unfold Fast.extract_product_details in Hrun.
  destruct extraction_map_wellformed as [Hnodup Hset].
  apply rbind_ok in Hrun as (p1 & H1 & Hrun).
  apply rbind_ok in Hrun as (p2 & H2 & Hrun).
  apply rbind_ok in Hrun as (p3 & H3 & Hrun).
  apply rbind_ok in Hrun as (p4 & H4 & H5).
  apply extract_fields_ok in H1 as (Hmap & _ & Hterm1); [| done | done].
  apply on_found_ok in H2 as (_ & Hrest2 & Hterm2); [| unfold settable; decide_it].
  apply on_found_ok in H3 as (_ & Hrest3 & Hterm3); [| unfold settable; decide_it].
  apply (on_found_ok el CSS_SELECTOR ".product-ratingsCount" "review_count"
           (λ e, Some (Py.strip_chars "()" (text e)))) in H4 as (_ & Hrest4 & Hterm4);
    [| unfold settable; decide_it].
  apply (on_found_ok pg CSS_SELECTOR Fast.breadcrumb_selector "category_path"
           (λ e, Some (text e))) in H5 as (_ & Hrest5 & Hterm5);
    [| unfold settable; decide_it].
  split; [by rewrite Hterm5, Hterm4, Hterm3, Hterm2, Hterm1 |].
  assert (Fast.getattr p "current_price" = Fast.getattr p "sale_price") as Heq.
  { rewrite !Hrest5, !Hrest4, !Hrest3, !Hrest2 by done.
    rewrite (Hmap "current_price" "product-discountedPrice" "text") by decide_it.
    by rewrite (Hmap "sale_price" "product-discountedPrice" "text") by decide_it. }
  by injection Heq.
Qed.

(** X9.  Every record extracted from a listing element carries the search
    term it was extracted for, and its [current_price] and [sale_price] are
    the same value: both are read from the node of class
    product-discountedPrice. *)
Theorem listing_record_prices_agree (pg : page) (el : element) (term : string)
    (p : Fast.ProductInfo) :
  Fast.extract_product_details pg el term = Ok p →
  Fast.search_term p = term ∧ Fast.current_price p = Fast.sale_price p.
Proof. apply extract_product_details_ok. Qed.

(** A product element without a price node: both prices are "N/A". *)
Lemma listing_record_prices_agree_witness :
  Fast.search_term (Fast.setattr (Fast.new_product "white shirt") "brand_name" (Some "Roadster"))
  = "white shirt"
  ∧ Fast.current_price (Fast.setattr (Fast.new_product "white shirt") "brand_name" (Some "Roadster"))
    = Fast.sale_price (Fast.setattr (Fast.new_product "white shirt") "brand_name" (Some "Roadster")).
Proof.
  by apply (listing_record_prices_agree Sample.empty_listing Sample.product_card).
Defined.

Lemma wait_all_ok (pg : page) (b : By) (sel : string) (els : list element) :
  wait_all pg b sel = Ok els → find_elements pg b sel = Ok els ∧ els ≠ [].
Proof.
  unfold wait_all. destruct (find_elements pg b sel) as [[|el l]|e]; [done | | by destruct e].
  by intros [= <-].
Qed.

Lemma extract_all_returns (pg : page) (els : list element) (term : string)
    (acc l : list Fast.ProductInfo) (st st' : state Fast.ProductInfo) :
  Fast.extract_all pg els term acc st = (Returns l, st') →
  l = acc ++ omap (card_result pg term) els.
Proof.
  revert acc st. induction els as [|el els IH]; intros acc st Hrun; simpl in Hrun.
  - injection Hrun as <- _. by rewrite app_nil_r.
  - unfold bind at 1 in Hrun. unfold try_catch, bind in Hrun.
    change (omap (card_result pg term) (el :: els))
      with (match card_result pg term el with
            | Some y => y :: omap (card_result pg term) els
            | None => omap (card_result pg term) els
            end).
    unfold card_result at 1.
    destruct (Fast.extract_product_details pg el term) as [p|e]; simpl in Hrun.
    + rewrite (IH _ _ Hrun). by rewrite <- app_assoc.
    + destruct (Exception e); [| done]. unfold print in Hrun. simpl in Hrun.
      by rewrite (IH _ _ Hrun).
Qed.

(** X10.  The records [scrape_products_from_page] returns are those of the
    product elements of the page whose extraction succeeded, in the order of
    the elements, or none at all; so a page never yields more records than
    it shows product elements.  Each record carries the search term of the
    page, and its [current_price] is its [sale_price]. *)
Theorem listing_page_records (w : world) (term url : string)
    (l : list Fast.ProductInfo) (st st' : state Fast.ProductInfo) :
  Fast.scrape_products_from_page w term url st = (Returns l, st') →
  shown_products w term url l
  ∧ Forall (λ p, Fast.search_term p = term ∧ Fast.current_price p = Fast.sale_price p) l.
Proof.
  intros Hrun.
  assert (shown_products w term url l) as Hshown.
  { unfold Fast.scrape_products_from_page, try_catch, bind, driver_get in Hrun.
    destruct (get w url) as [pg|e] eqn:Hget; simpl in Hrun.
    - unfold lift in Hrun.
      destruct (wait_all pg CLASS_NAME "product-base") as [els|e] eqn:Hwait; simpl in Hrun.
      + apply wait_all_ok in Hwait as [Hfound _].
        destruct els as [|el els]; [left; by injection Hrun as <- |].
        match type of Hrun with
        | context [Fast.extract_all ?a ?b ?c ?d ?s] =>
            destruct (Fast.extract_all a b c d s) as [[l'|e|] st''] eqn:Hall
        end.
        * injection Hrun as -> ->. apply extract_all_returns in Hall.
          right. by exists pg, (el :: els).
        * destruct (only TimeoutException e); [left; by injection Hrun as <- | done].
        * done.
      + destruct (only TimeoutException e); [left; by injection Hrun as <- | done].
    - destruct (only TimeoutException e); [left; by injection Hrun as <- | done]. }
  split; [done |].
  destruct Hshown as [-> | (pg & els & _ & _ & ->)]; [by apply Forall_nil_2 |].
  apply Forall_forall. intros p Hin.
  apply list_elem_of_omap in Hin as (el & _ & Hcard).
  unfold card_result in Hcard.
  destruct (Fast.extract_product_details pg el term) as [p'|e] eqn:Hp; [| done].
  injection Hcard as ->. by apply extract_product_details_ok in Hp.
Qed.

(** The one product element of the first results page gives one record. *)
Lemma listing_page_records_witness :
  shown_products Sample.one_page_of_results "shirt" (Sample.results_url +:+ "&p=1")
    [Fast.new_product "shirt"]
  ∧ Forall (λ p, Fast.search_term p = "shirt" ∧ Fast.current_price p = Fast.sale_price p)
           [Fast.new_product "shirt"].
Proof.
  eapply (listing_page_records _ _ _ _ (initial ∅)). vm_compute. reflexivity.
Defined.

(** ** Timeouts of a listing page *)

(** X11.  When the navigation times out, or no product element shows up
    within the wait, [scrape_products_from_page] prints the timeout line and
    returns the empty list: the page is taken for the end of the results. *)
Theorem page_timeout_gives_no_records (w : world) (term url : string)
    (st : state Fast.ProductInfo) :
  no_product_shows w url →
  Fast.scrape_products_from_page w term url st
  = (Returns [], logged st [url] ["Timeout: Page failed to load - " +:+ url]).
Proof.
  intros Hnone. unfold Fast.scrape_products_from_page, try_catch, bind, driver_get.
  destruct Hnone as [-> | (pg & -> & Hfind)]; [done |]. simpl.
  unfold lift, wait_all.
  by destruct Hfind as [-> | [-> | ->]].
Qed.

Lemma page_timeout_gives_no_records_witness :
  Fast.scrape_products_from_page (Sample.always Sample.empty_listing) "shirt"
    "https://www.myntra.com/shirt&p=2" (initial ∅)
  = (Returns [],
     logged (initial ∅) ["https://www.myntra.com/shirt&p=2"]
       ["Timeout: Page failed to load - " +:+ "https://www.myntra.com/shirt&p=2"]).
Proof.
  apply page_timeout_gives_no_records.
  right. exists Sample.empty_listing. split; [reflexivity | left; reflexivity].
Defined.

(** ** Which exceptions leave a call *)

Section Raising.
Context {R : Type}.

Lemma raises_only_bind {A B} (ok : exn → Prop) (m : M R A) (k : A → M R B) :
  raises_only ok m → (∀ a, raises_only ok (k a)) → raises_only ok (bind m k).
Proof.
  intros Hm Hk st e. unfold bind. specialize (Hm st).
  destruct (m st) as [[a|e'|] st']; simpl in *; [apply Hk | | done].
  intros [= <-]. by apply Hm.
Qed.

Lemma raises_only_try_catch {A} (ok : exn → Prop) catches (m : M R A) (h : exn → M R A) :
  (∀ e, catches e = false → ok e) → (∀ e, raises_only ok (h e)) →
  raises_only ok (try_catch catches m h).
Proof.
  intros Hrest Hh st e. unfold try_catch.
  destruct (m st) as [[a|e'|] st']; simpl; [done | | done].
  destruct (catches e') eqn:Hc; [apply Hh |]. simpl. intros [= <-]. by apply Hrest.
Qed.

Lemma raises_only_print (ok : exn → Prop) (line : string) : raises_only ok (print (R:=R) line).
Proof. by intros st e. Qed.

Lemma raises_only_ret {A} (ok : exn → Prop) (a : A) : raises_only ok (ret (R:=R) a).
Proof. by intros st e. Qed.

End Raising.

(** X12.  The two calls of myntra2_fast.py whose whole body is one [try]
    block keep the exceptions they handle inside.  A failed search is
    reported by [None]: [search_and_get_url] raises no instance of
    [Exception].  A page that does not load is reported by the empty list:
    [scrape_products_from_page] never raises [TimeoutException]. *)
Theorem fast_exceptions_are_contained (w : world) :
  (∀ q, raises_only not_an_Exception (Fast.search_and_get_url w q))
  ∧ (∀ term url,
        raises_only (λ e, e ≠ TimeoutException) (Fast.scrape_products_from_page w term url)).
Proof.
  split.
  - intros q. apply raises_only_try_catch; [done |]. intros e.
    apply raises_only_bind; [apply raises_only_print | intros _; apply raises_only_ret].
  - intros term url. apply raises_only_try_catch.
    + intros e He ->. by vm_compute in He.
    + intros e.
      apply raises_only_bind; [apply raises_only_print | intros _; apply raises_only_ret].
Qed.

(** ** A crawl without page limit *)

Lemma pages_bound_unbounded (max_pages : Z) :
  (max_pages ≤ 0)%Z → Fast.pages_bound max_pages = Fast.Infinite.
Proof. intros Hmax. unfold Fast.pages_bound. destruct (0 <? max_pages)%Z eqn:E; [lia | done]. Qed.

(** X13.  With a page limit of 0 (or less) the page loop of a search term
    has no bound of its own: if every page from [c] on yields a product, the
    loop started at page [c] is still running after any number of steps. *)
Theorem unbounded_crawl_never_ends (w : world) (term base output : string) (max_pages : Z)
    (c : nat) :
  (max_pages ≤ 0)%Z →
  (∀ p, c ≤ p → ∃ l, page_outcome w term (Fast.page_url base p) = Returns l ∧ l ≠ []) →
  ∀ fuel st,
    (Fast.scrape_pages fuel w term base output (Fast.pages_bound max_pages) c st).1 = Unfinished.
Proof.
  intros Hmax Hfull fuel. revert c Hfull.
  induction fuel as [|fuel IH]; intros c Hfull st.
  - simpl. by rewrite (pages_bound_unbounded _ Hmax).
  - destruct (Hfull c ltac:(lia)) as (l & Hl & Hne).
    destruct (scrape_pages_next w term base output max_pages fuel c l st)
      as (st1 & -> & _); [by rewrite (pages_bound_unbounded _ Hmax) | done | done |].
    apply IH. intros p Hp. apply Hfull. lia.
Qed.

(** Every URL shows the same page of one product: five steps do not end the
    loop. *)
Lemma unbounded_crawl_never_ends_witness :
  (Fast.scrape_pages 5 (Sample.always Sample.listing) "shirt" Sample.results_url "products"
     (Fast.pages_bound 0) 1 (initial ∅)).1 = Unfinished.
Proof.
  apply unbounded_crawl_never_ends; [lia |].
  intros p _. eexists. split; [vm_compute; reflexivity | discriminate].
Defined.

(** ** The URLs of the pages *)

Lemma str_nat_inj (p q : nat) : Py.str_nat p = Py.str_nat q → p = q.
Proof.
  unfold Py.str_nat. intros Heq.
  apply DecimalNat.Unsigned.to_uint_inj.
  pose proof (NilEmpty.usu (Nat.to_uint p)) as Hp.
  pose proof (NilEmpty.usu (Nat.to_uint q)) as Hq.
  rewrite Heq in Hp. congruence.
Qed.

Lemma string_app_inv_head (a b c : string) : a +:+ b = a +:+ c → b = c.
Proof.
  induction a as [|x a IH]; [done |]. rewrite !app_cons. intros [= H]. by apply IH.
Qed.

(** X14.  The pages of a search term have URLs of their own: the page loop
    never asks for the same URL twice. *)
Theorem page_urls_are_distinct (base : string) (c n : nat) :
  NoDup (map (Fast.page_url base) (seq c n)).
Proof.
  apply NoDup_fmap_2; [| apply NoDup_ListNoDup, List.seq_NoDup].
  intros p q Heq. unfold Fast.page_url in Heq.
  by apply string_app_inv_head, string_app_inv_head, str_nat_inj in Heq.
Qed.

(** ** The dict of search URLs *)

Lemma search_and_get_url_outcome (w : world) (q : string) (st : state Fast.ProductInfo) :
  (Fast.search_and_get_url w q st).1 = search_outcome w q.
Proof.
  destruct (search_and_get_url_io w q) as (r & vis & out & Hio & _).
  unfold search_outcome. by rewrite !Hio.
Qed.

Lemma dict_set_keys {V} (d : list (string * V)) (k : string) (v : V) :
  map fst (Fast.dict_set d k v)
  = map fst d ++ (if bool_decide (k ∈ map fst d) then [] else [k]).
Proof.
  induction d as [|[k' v'] d IH]; [done |]. simpl.
  destruct (String.eqb_spec k' k) as [->|Hne]; simpl.
  - rewrite bool_decide_eq_true_2 by apply list_elem_of_here. by rewrite app_nil_r.
  - rewrite IH. f_equal. f_equal.
    rewrite (bool_decide_ext (k ∈ k' :: map fst d) (k ∈ map fst d)); [done |].
    rewrite elem_of_cons. intuition congruence.
Qed.

Lemma dict_set_NoDup {V} (d : list (string * V)) (k : string) (v : V) :
  NoDup (map fst d) → NoDup (map fst (Fast.dict_set d k v)).
Proof.
  intros Hd. rewrite dict_set_keys. case_bool_decide as Hin; [by rewrite app_nil_r |].
  apply NoDup_app. split; [done |]. split; [| apply NoDup_singleton].
  intros x Hx ->%list_elem_of_singleton. done.
Qed.

Lemma dict_set_items {V} (d : list (string * V)) (k : string) (v : V) (item : string * V) :
  item ∈ Fast.dict_set d k v → item = (k, v) ∨ item ∈ d.
Proof.
  induction d as [|[k' v'] d IH]; simpl.
  - intros ->%list_elem_of_singleton. by left.
  - destruct (String.eqb_spec k' k) as [->|Hne]; rewrite !elem_of_cons.
    + intros [-> | Hin]; [by left | right; by right].
    + intros [-> | Hin]; [right; by left |].
      destruct (IH Hin) as [-> | Hold]; [by left | right; by right].
Qed.

Lemma generate_urls_returns (w : world) (terms : list string)
    (acc urls : list (string * option string)) (st st' : state Fast.ProductInfo) :
  Fast.generate_urls w terms acc st = (Returns urls, st') →
  (NoDup (map fst acc) → NoDup (map fst urls))
  ∧ (∀ term, term ∈ map fst urls ↔ term ∈ map fst acc ∨ term ∈ terms)
  ∧ (∀ term url, (term, url) ∈ urls →
       (term, url) ∈ acc ∨ (term ∈ terms ∧ search_outcome w term = Returns url)).
Proof.
  revert acc st. induction terms as [|term terms IH]; intros acc st Hrun; simpl in Hrun.
  - injection Hrun as <- _. split; [done |]. split.
    + intros t. rewrite elem_of_nil. tauto.
    + intros t u Hin. by left.
  - unfold bind at 1 in Hrun.
    pose proof (search_and_get_url_outcome w term st) as Hsearch.
    destruct (Fast.search_and_get_url w term st) as [[url| |] st1]; [| done | done].
    simpl in Hsearch. unfold bind at 1, print at 1 in Hrun. simpl in Hrun.
    apply IH in Hrun as (Hnodup & Hkeys & Hitems).
    split; [| split].
    + intros Hacc. by apply Hnodup, dict_set_NoDup.
    + intros t. rewrite Hkeys, dict_set_keys, elem_of_app, elem_of_cons.
      case_bool_decide as Hin; [rewrite elem_of_nil | rewrite list_elem_of_singleton];
        intuition congruence.
    + intros t u Hin. destruct (Hitems t u Hin) as [Hold | [Hlater Hout]].
      * apply dict_set_items in Hold as [[= -> ->] | Hold]; [| by left].
        right. split; [apply list_elem_of_here | done].
      * right. split; [by apply list_elem_of_further | done].
Qed.

(** X15.  The search URLs are kept in a dict: however often a term occurs
    in the list of search terms, the dict the session scrapes from holds it
    once, with what a search for it gives.  A term given twice is searched
    twice and scraped once. *)
Theorem search_urls_hold_each_term_once (w : world) (terms : list string)
    (urls : list (string * option string)) (st st' : state Fast.ProductInfo) :
  Fast.generate_urls w terms [] st = (Returns urls, st') →
  NoDup (map fst urls)
  ∧ (∀ term, term ∈ map fst urls ↔ term ∈ terms)
  ∧ (∀ term url, (term, url) ∈ urls → search_outcome w term = Returns url).
Proof.
  intros Hrun. apply generate_urls_returns in Hrun as (Hnodup & Hkeys & Hitems).
  split; [apply Hnodup, NoDup_nil_2 |]. split.
  - intros term. rewrite Hkeys. simpl. rewrite elem_of_nil. tauto.
  - intros term url Hin. destruct (Hitems term url Hin) as [Hold | [_ Hout]]; [| done].
    by apply elem_of_nil in Hold.
Qed.

(** The same term twice, without network: one entry, without URL. *)
Lemma search_urls_hold_each_term_once_witness :
  NoDup (map fst [("shirt", @None string)])
  ∧ (∀ term, term ∈ map fst [("shirt", @None string)] ↔ term ∈ ["shirt"; "shirt"])
  ∧ (∀ term url, (term, url) ∈ [("shirt", @None string)] →
       search_outcome Sample.offline term = Returns url).
Proof.
  eapply (search_urls_hold_each_term_once Sample.offline ["shirt"; "shirt"] _ (initial ∅)).
  vm_compute. reflexivity.
Defined.

(** ** myntra_new.py: the product URLs of a results page *)

Lemma collect_links_spec (els : list element) (acc : list (option string)) :
  Myntra.collect_links els acc = acc ++ omap link_of els.
Proof.
  revert acc. induction els as [|el els IH]; intros acc; simpl.
  - by rewrite app_nil_r.
  - rewrite IH. unfold link_of at 2.
    destruct (find_element el TAG_NAME "a") as [a|e]; simpl; [| done].
    by rewrite <- app_assoc.
Qed.

Lemma length_omap_le {A B} (f : A → option B) (l : list A) : length (omap f l) ≤ length l.
Proof.
  induction l as [|x l IH]; simpl; [done |].
  change (list_omap A B f l) with (omap f l). destruct (f x); simpl; lia.
Qed.

Lemma length_slice_to {A} (n : Z) (l : list A) :
  length (Myntra.slice_to n l) ≤ length l
  ∧ ((0 ≤ n)%Z → length (Myntra.slice_to n l) ≤ Z.to_nat n).
Proof.
  unfold Myntra.slice_to. destruct (Z.leb_spec 0 n); rewrite length_take; lia.
Qed.

Lemma collect_product_urls_returns (w : world) (search_url : string) (max_products : Z)
    (product_urls : list (option string)) (st st' : state Myntra.ProductDetails) :
  Myntra.collect_product_urls w search_url max_products st = (Returns product_urls, st') →
  (product_urls = []
   ∨ ∃ pg els, get w search_url = Ok pg
               ∧ find_elements pg XPATH Myntra.listing_xpath = Ok els
               ∧ product_urls = omap link_of (Myntra.slice_to max_products els))
  ∧ ((0 ≤ max_products)%Z → length product_urls ≤ Z.to_nat max_products).
Proof.
  intros Hrun.
  unfold Myntra.collect_product_urls, try_catch, bind, driver_get in Hrun.
  destruct (get w search_url) as [pg|e] eqn:Hget; simpl in Hrun.
  - unfold lift in Hrun.
    destruct (wait_all pg XPATH Myntra.listing_xpath) as [els|e] eqn:Hwait; simpl in Hrun.
    + apply wait_all_ok in Hwait as [Hfound _].
      change (find_elements pg XPATH Myntra.listing_xpath) with (dom pg XPATH Myntra.listing_xpath)
        in Hfound.
      change (find_elements pg XPATH Myntra.listing_xpath) with (dom pg XPATH Myntra.listing_xpath)
        in Hrun.
      rewrite Hfound in Hrun. simpl in Hrun. injection Hrun as <- _.
      rewrite collect_links_spec. simpl. split.
      * right. by exists pg, els.
      * intros Hmax. pose proof (length_omap_le link_of (Myntra.slice_to max_products els)).
        pose proof (length_slice_to max_products els) as [_ Hle]. specialize (Hle Hmax). lia.
    + destruct (only TimeoutException e); [| done]. injection Hrun as <- _.
      split; [by left | simpl; lia].
  - destruct (only TimeoutException e); [| done]. injection Hrun as <- _.
    split; [by left | simpl; lia].
Qed.

(** X16.  When the results page shows product elements,
    [collect_product_urls] returns the links of the first [max_products] of
    them, one per element and in their order, leaving out only the elements
    without an anchor.  When the listing does not load (the navigation times
    out, or no product element shows up) it prints "Failed to load product
    listings" and returns the empty list.  With a limit that is not negative
    the list it returns is never longer than the limit. *)
Theorem collected_urls_are_bounded (w : world) (search_url : string) (max_products : Z)
    (st : state Myntra.ProductDetails) :
  (∀ pg els,
      get w search_url = Ok pg →
      find_elements pg XPATH Myntra.listing_xpath = Ok els → els ≠ [] →
      Myntra.collect_product_urls w search_url max_products st
      = (Returns (omap link_of (Myntra.slice_to max_products els)), logged st [search_url] []))
  ∧ (no_listing_shows w search_url →
     Myntra.collect_product_urls w search_url max_products st
     = (Returns [], logged st [search_url] ["Failed to load product listings"]))
  ∧ (∀ product_urls st',
        Myntra.collect_product_urls w search_url max_products st = (Returns product_urls, st') →
        (0 ≤ max_products)%Z → length product_urls ≤ Z.to_nat max_products).
Proof.
  split; [| split].
  - intros pg els Hget Hfound Hsome.
    unfold Myntra.collect_product_urls, try_catch, bind, driver_get. rewrite Hget. simpl.
    unfold lift, wait_all. rewrite Hfound.
    destruct els as [|el els]; [done |]. simpl.
    rewrite collect_links_spec. simpl. unfold logged. by rewrite app_nil_r.
  - intros Hnone. unfold Myntra.collect_product_urls, try_catch, bind, driver_get.
    destruct Hnone as [-> | (pg & -> & Hfind)]; [done |]. simpl.
    unfold lift, wait_all.
    by destruct Hfind as [-> | [-> | ->]].
  - intros product_urls st' Hrun. by apply (collect_product_urls_returns w search_url _ _ st st').
Qed.

(** A results page with one product and a limit of ten. *)
Lemma collected_urls_are_bounded_witness :
  Myntra.collect_product_urls (Sample.always Sample.one_result) "https://www.myntra.com/shirt" 10
    (initial ∅)
  = (Returns [Some "https://www.myntra.com/shirts/1"],
     logged (initial ∅) ["https://www.myntra.com/shirt"] []).
Proof.
  destruct (collected_urls_are_bounded (Sample.always Sample.one_result)
              "https://www.myntra.com/shirt" 10 (initial ∅)) as [Hshown _].
  apply (Hshown Sample.one_result _ eq_refl eq_refl). discriminate.
Defined.

(** ** myntra_new.py: what a session keeps *)

Section ProductLoop.
Variable P : state Myntra.ProductDetails → Prop.
Hypothesis P_blind : blind P.
Hypothesis P_extend : ∀ l, preserves P (extend l).

Lemma visit_products_preserves (w : world) (term : string) (total idx : nat)
    (urls : list (option string)) :
  preserves P (Myntra.visit_products w term total idx urls).
Proof.
  revert idx. induction urls as [|url urls IH]; intros idx; simpl.
  - apply preserves_ret.
  - apply preserves_bind; [apply is_io_preserves; [done | io_steps] |].
    intros _. apply preserves_bind;
      [apply is_io_preserves; [done | apply extract_product_details_io] |].
    intros details. apply preserves_bind; [| intros _; apply IH].
    destruct details; [apply P_extend | apply preserves_ret].
Qed.

Lemma process_terms_preserves (w : world) (terms : list string) (n : Z) :
  preserves P (Myntra.process_terms w terms n).
Proof.
  induction terms as [|term terms IH]; simpl.
  - apply preserves_ret.
  - apply preserves_bind; [apply is_io_preserves; [done | io_steps] |].
    intros _. apply preserves_bind;
      [apply is_io_preserves; [done | apply search_products_io] |].
    intros url. apply preserves_bind; [| intros _; apply IH].
    destruct (Py.truthy_opt url); [| apply preserves_ret].
    apply preserves_bind;
      [apply is_io_preserves; [done | apply collect_product_urls_io] |].
    intros urls. apply preserves_bind; [apply is_io_preserves; [done | io_steps] |].
    intros _. apply visit_products_preserves.
Qed.

Lemma myntra_session_preserves (w : world) (terms : list string) (n : Z) :
  preserves P (Myntra.run_scraping_session w terms n).
Proof.
  unfold Myntra.run_scraping_session.
  apply preserves_bind; [apply is_io_preserves; [done | io_steps] |].
  intros _. apply preserves_bind; [apply process_terms_preserves |].
  intros _. apply preserves_bind; [by intros st |].
  intros data. apply is_io_preserves; [done | io_steps].
Qed.

End ProductLoop.

(** X17.  A session of myntra_new.py only adds to [scraped_data] and writes
    no file: the records scraped before it are still there afterwards, in
    their order and before the new ones, however the session ends. *)
Theorem myntra_session_accumulates (w : world) (terms : list string) (n : Z)
    (st : state Myntra.ProductDetails) :
  buffer st `prefix_of` buffer (Myntra.run_scraping_session w terms n st).2
  ∧ fs (Myntra.run_scraping_session w terms n st).2 = fs st.
Proof.
  split.
  - apply (myntra_session_preserves (keeps_records (buffer st)));
      [by intros st0 vis out | | by exists []; rewrite app_nil_r].
    intros l st0 [k Hk]. exists (k ++ l). unfold extend. simpl. by rewrite Hk, <- app_assoc.
  - by apply (run_scraping_session_files w terms n (fs st)).
Qed.

(** ** myntra_new.py: the end of a run *)

Lemma visit_products_finishes (w : world) (term : string) (total idx : nat)
    (urls : list (option string)) :
  finishes (Myntra.visit_products w term total idx urls).
Proof.
  revert idx. induction urls as [|url urls IH]; intros idx; simpl.
  - by intros st.
  - apply finishes_bind; [apply is_io_finishes; io_steps |]. intros _.
    apply finishes_bind; [apply is_io_finishes, extract_product_details_io |].
    intros details. apply finishes_bind; [| intros _; apply IH].
    by destruct details; intros st.
Qed.

Lemma process_terms_finishes (w : world) (terms : list string) (n : Z) :
  finishes (Myntra.process_terms w terms n).
Proof.
  induction terms as [|term terms IH]; simpl.
  - by intros st.
  - apply finishes_bind; [apply is_io_finishes; io_steps |]. intros _.
    apply finishes_bind; [apply is_io_finishes, search_products_io |].
    intros url. apply finishes_bind; [| intros _; apply IH].
    destruct (Py.truthy_opt url); [| by intros st].
    apply finishes_bind; [apply is_io_finishes, collect_product_urls_io |].
    intros urls. apply finishes_bind; [apply is_io_finishes; io_steps |].
    intros _. apply visit_products_finishes.
Qed.

Lemma myntra_save_data_finishes (filename : string) : finishes (Myntra.save_data filename).
Proof.
  intros st. unfold Myntra.save_data, bind, read_buffer. simpl. by destruct (buffer st).
Qed.

Lemma myntra_save_data_quits (filename : string) (st : state Myntra.ProductDetails) :
  quits (Myntra.save_data filename st).2 = quits st.
Proof.
  unfold Myntra.save_data, bind, read_buffer. simpl. by destruct (buffer st).
Qed.

Lemma myntra_main_once (w : world) (max_products : Z) (output_file : string)
    (st : state Myntra.ProductDetails) :
  (Myntra.main w max_products output_file st).1 ≠ Unfinished
  ∧ quits (Myntra.main w max_products output_file st).2 = S (quits st)
  ∧ (∀ e, (Myntra.main w max_products output_file st).1 = Raises e → is_Exception e = false).
Proof.
  destruct (Myntra.main w max_products output_file st) as [r st'] eqn:Hmain. simpl.
  unfold Myntra.main in Hmain. unfold bind at 1, set_driver at 1 in Hmain. simpl in Hmain.
  unfold bind at 1, reset_buffer at 1 in Hmain. simpl in Hmain. unfold finally in Hmain.
  match type of Hmain with
  | context [try_catch ?c ?m ?h ?s] =>
      assert (finishes (try_catch c m h)) as Hends;
      [| assert (preserves (quit_count (quits st)) (try_catch c m h)) as Hquits;
         [| assert (raises_only not_an_Exception (try_catch c m h)) as Hraises;
            [| specialize (Hends s); specialize (Hquits s eq_refl); specialize (Hraises s);
               destruct (try_catch c m h s) as [[[]|e|] st2] ] ] ]
  end.
  - apply finishes_try_catch; [| intros e; apply is_io_finishes; io_steps].
    apply finishes_bind; [| intros _; apply myntra_save_data_finishes].
    unfold Myntra.run_scraping_session.
    apply finishes_bind; [apply is_io_finishes; io_steps |]. intros _.
    apply finishes_bind; [apply process_terms_finishes |]. intros _.
    apply finishes_bind; [by intros st0 |]. intros data. apply is_io_finishes. io_steps.
  - apply preserves_try_catch;
      [| intros e; apply is_io_preserves; [by intros st0 vis out | io_steps]].
    apply preserves_bind.
    + apply myntra_session_preserves; [by intros st0 vis out |]. by intros l st0.
    + intros _ st0 Hq. unfold quit_count. by rewrite myntra_save_data_quits.
  - apply raises_only_try_catch; [done |]. intros e. apply raises_only_print.
  - unfold Myntra.close, driver_quit in Hmain. injection Hmain as <- <-. simpl in *.
    unfold quit_count in Hquits. by rewrite Hquits.
  - unfold Myntra.close, driver_quit in Hmain. injection Hmain as <- <-. simpl in *.
    unfold quit_count in Hquits. rewrite Hquits.
    split; [done |]. split; [done |]. intros e' [= <-]. by apply Hraises.
  - done.
Qed.

(** X18.  Every run of [main] of myntra_new.py ends.  When the inputs were
    read and the scraper constructed, it ends with exactly one call of
    [quit], after a complete session, after a session that failed, and when
    an interrupt from the keyboard goes through [main]; and no instance of
    [Exception] leaves [main].  When reading the inputs or constructing the
    scraper raised, that exception leaves [main] at once: nothing else has
    happened, and [quit] is not called, as there is no driver. *)
Theorem myntra_main_releases_once (start : result (Z * string)) (w : world)
    (st : state Myntra.ProductDetails) :
  (Myntra.main_from_start start w st).1 ≠ Unfinished
  ∧ (∀ max_products output_file,
        start = Ok (max_products, output_file) →
        quits (Myntra.main_from_start start w st).2 = S (quits st)
        ∧ ∀ e, (Myntra.main_from_start start w st).1 = Raises e → is_Exception e = false)
  ∧ (∀ e, start = Raise e → Myntra.main_from_start start w st = (Raises e, st)).
Proof.
  destruct start as [[max_products output_file]|e].
  - change (Myntra.main_from_start (Ok (max_products, output_file)) w st)
      with (Myntra.main w max_products output_file st).
    destruct (myntra_main_once w max_products output_file st) as (Hends & Hquits & Hraises).
    split; [done |]. split; [| done]. by intros ? ? [= <- <-].
  - split; [done |]. split; [done |]. by intros ? [= <-].
Qed.

(** A run with the default inputs and without network, and a run
    interrupted while the first input is read. *)
Lemma myntra_main_releases_once_witness :
  quits (Myntra.main_from_start (Ok (10%Z, "myntra_products")) Sample.offline (initial ∅)).2 = 1
  ∧ Myntra.main_from_start (Raise KeyboardInterrupt) Sample.offline (initial ∅)
    = (Raises KeyboardInterrupt, initial ∅).
Proof.
  split.
  - by apply (proj1 (proj2 (myntra_main_releases_once (Ok (10%Z, "myntra_products"))
                              Sample.offline (initial ∅)))
                10%Z "myntra_products").
  - by apply (proj2 (proj2 (myntra_main_releases_once (Raise KeyboardInterrupt)
                              Sample.offline (initial ∅)))).
Defined.

(** ** What [save_data] writes *)

Lemma csv_is_not_the_json_file (filename : string) :
  filename +:+ ".csv" ≠ filename +:+ ".json".
Proof. by intros H%string_app_inv_head. Qed.

Lemma myntra_save_data_saved (filename : string) (st : state Myntra.ProductDetails) :
  buffer st ≠ [] →
  saved_as filename (HeaderRow Myntra.fieldnames :: map Myntra.writerow (buffer st))
    (JList (map Myntra.to_json (buffer st))) (fs st) (Myntra.save_data filename st).2.
Proof.
  intros Hsome. unfold Myntra.save_data, bind, read_buffer, saved_as.
  destruct (buffer st) as [|r rs] eqn:E; [done |]. simpl.
  pose proof (csv_is_not_the_json_file filename) as Hne.
  split; [| split].
  - rewrite lookup_insert_ne by done. by rewrite lookup_insert_eq.
  - by rewrite lookup_insert_eq.
  - intros other Hc Hj. by rewrite !lookup_insert_ne.
Qed.

Lemma nykaa_save_data_saved (filename : string) (st : state Nykaa.ProductDetails) :
  buffer st ≠ [] →
  saved_as filename (HeaderRow Nykaa.fieldnames :: map Nykaa.writerow (buffer st))
    (JList (map Nykaa.to_json (buffer st))) (fs st) (Nykaa.save_data filename st).2.
Proof.
  intros Hsome. unfold Nykaa.save_data, bind, read_buffer, saved_as.
  destruct (buffer st) as [|r rs] eqn:E; [done |]. simpl.
  pose proof (csv_is_not_the_json_file filename) as Hne.
  split; [| split].
  - rewrite lookup_insert_ne by done. by rewrite lookup_insert_eq.
  - by rewrite lookup_insert_eq.
  - intros other Hc Hj. by rewrite !lookup_insert_ne.
Qed.

(** X19.  With records in [scraped_data], [save_data] of both product-page
    scrapers leaves a CSV file that holds the header and one row per record,
    in the order of the records, and a JSON file that holds the list of the
    same records, whatever the two files held before; no other file is
    touched and the records stay in [scraped_data].  Saving a second time
    changes nothing. *)
Theorem save_data_writes_every_record :
  (∀ (filename : string) (st : state Myntra.ProductDetails),
      buffer st ≠ [] →
      saved_as filename (HeaderRow Myntra.fieldnames :: map Myntra.writerow (buffer st))
        (JList (map Myntra.to_json (buffer st))) (fs st) (Myntra.save_data filename st).2
      ∧ buffer (Myntra.save_data filename st).2 = buffer st
      ∧ fs (Myntra.save_data filename (Myntra.save_data filename st).2).2
        = fs (Myntra.save_data filename st).2)
  ∧ (∀ (filename : string) (st : state Nykaa.ProductDetails),
        buffer st ≠ [] →
        saved_as filename (HeaderRow Nykaa.fieldnames :: map Nykaa.writerow (buffer st))
          (JList (map Nykaa.to_json (buffer st))) (fs st) (Nykaa.save_data filename st).2
        ∧ buffer (Nykaa.save_data filename st).2 = buffer st
        ∧ fs (Nykaa.save_data filename (Nykaa.save_data filename st).2).2
          = fs (Nykaa.save_data filename st).2).
Proof.
  split.
  - intros filename st Hsome.
    pose proof (myntra_save_data_saved filename st Hsome) as Hfirst.
    pose proof (myntra_save_data_buffer filename st) as Hkeep.
    split; [done |]. split; [done |].
    pose proof (myntra_save_data_saved filename (Myntra.save_data filename st).2) as Hsecond.
    rewrite Hkeep in Hsecond. specialize (Hsecond Hsome).
    destruct Hfirst as (Hc & Hj & Ho), Hsecond as (Hc' & Hj' & Ho').
    apply map_eq. intros other.
    destruct (decide (other = filename +:+ ".csv")) as [->|Hnc]; [congruence |].
    destruct (decide (other = filename +:+ ".json")) as [->|Hnj]; [congruence |].
    by apply Ho'.
  - intros filename st Hsome.
    pose proof (nykaa_save_data_saved filename st Hsome) as Hfirst.
    assert (buffer (Nykaa.save_data filename st).2 = buffer st) as Hkeep.
    { unfold Nykaa.save_data, bind, read_buffer. simpl.
      destruct (buffer st) eqn:E; simpl; by rewrite ?E. }
    split; [done |]. split; [done |].
    pose proof (nykaa_save_data_saved filename (Nykaa.save_data filename st).2) as Hsecond.
    rewrite Hkeep in Hsecond. specialize (Hsecond Hsome).
    destruct Hfirst as (Hc & Hj & Ho), Hsecond as (Hc' & Hj' & Ho').
    apply map_eq. intros other.
    destruct (decide (other = filename +:+ ".csv")) as [->|Hnc]; [congruence |].
    destruct (decide (other = filename +:+ ".json")) as [->|Hnj]; [congruence |].
    by apply Ho'.
Qed.

(** ** The columns of a record *)

(** X20.  The keys of a record are the field names of the CSV header, for
    each of the three scrapers: [csv.DictWriter] meets no key it does not
    know, no column is left without a value, and a data row is as wide as
    the header. *)
Theorem record_keys_are_the_header :
  (∀ product, keys_of (Myntra.to_json product) ≡ₚ Myntra.fieldnames
              ∧ width (Myntra.writerow product) = width (HeaderRow Myntra.fieldnames))
  ∧ (∀ product, keys_of (Nykaa.to_json product) ≡ₚ Nykaa.fieldnames
                ∧ width (Nykaa.writerow product) = width (HeaderRow Nykaa.fieldnames))
  ∧ (∀ product name, is_Some (Fast.getattr product name) ↔ name ∈ Fast.fieldnames)
  ∧ (∀ product, width (Fast.writerow product) = width (HeaderRow Fast.fieldnames)).
Proof.
  split; [| split; [| split]].
  - intros product. split; [decide_it | reflexivity].
  - intros product. split; [decide_it | reflexivity].
  - intros product name. unfold Fast.getattr, Fast.fieldnames.
    repeat match goal with
           | |- context [String.eqb name ?s] =>
               destruct (String.eqb_spec name s) as [->|?];
               [split; [intros _; decide_it | by eexists] |]
           end.
    split; [by intros [? ?] |]. rewrite !elem_of_cons, elem_of_nil. tauto.
  - intros product. reflexivity.
Qed.

(** One record saved twice under the same name. *)
Lemma save_data_writes_every_record_witness :
  fs (Myntra.save_data "myntra_products"
        (Myntra.save_data "myntra_products" Sample.one_record).2).2
  = fs (Myntra.save_data "myntra_products" Sample.one_record).2.
Proof.
  destruct (proj1 save_data_writes_every_record "myntra_products" Sample.one_record)
    as (_ & _ & Hsame); [discriminate | exact Hsame].
Defined.

(** ** A session in which no search gives a URL *)

Lemma search_and_get_url_talks (w : world) (q : string) :
  talks (Fast.search_and_get_url w q) ["https://www.myntra.com"].
Proof.
  unfold Fast.search_and_get_url. apply talks_try_catch; [| io_steps].
  unfold bind at 1, print at 1.
  destruct (talks_driver_get_bind (R:=Fast.ProductInfo) w "https://www.myntra.com"
              (λ pg, let! search_input := lift (find_element pg CLASS_NAME "desktop-searchBar") in
                     let! current_url := lift (submit_search pg q) in
                     ret (Some current_url)))
    as (r & out & Hio & Hends); [io_steps |].
  exists r, (("Searching for: " +:+ q) :: out). split; [| done].
  intros st. simpl. rewrite Hio. unfold logged. simpl. by rewrite <- app_assoc.
Qed.

Lemma dict_set_values {V} (P : V → Prop) (d : list (string * V)) (k : string) (v : V) :
  Forall (λ kv, P kv.2) d → P v → Forall (λ kv, P kv.2) (Fast.dict_set d k v).
Proof.
  intros Hd Hv. induction Hd as [|[k' v'] d Hkv Hd IH]; simpl.
  - by apply Forall_cons_2.
  - destruct (String.eqb k' k); by apply Forall_cons_2.
Qed.

Lemma generate_urls_without_url (w : world) (terms : list string)
    (acc : list (string * option string)) (st : state Fast.ProductInfo) :
  without_url w terms →
  Forall (λ kv, Py.truthy_opt kv.2 = false) acc →
  ∃ search_urls out,
    Fast.generate_urls w terms acc st
    = (Returns search_urls, logged st (replicate (length terms) "https://www.myntra.com") out)
    ∧ Forall (λ kv, Py.truthy_opt kv.2 = false) search_urls.
Proof.
  revert acc st. induction terms as [|term terms IH]; intros acc st Hnone Hacc; simpl.
  - exists acc, []. by rewrite logged_nil.
  - destruct (search_and_get_url_talks w term) as (r & out1 & Hio & _).
    destruct (Hnone term) as (url & Hout & Hfalsy); [apply list_elem_of_here |].
    unfold search_outcome in Hout. rewrite Hio in Hout. simpl in Hout. subst r.
    unfold bind at 1. rewrite Hio. unfold bind at 1, print at 1. simpl.
    match goal with
    | |- context [Fast.generate_urls w terms ?d ?s] =>
        destruct (IH d s) as (urls & out2 & -> & Hurls)
    end.
    + intros t Ht. apply Hnone. by apply list_elem_of_further.
    + by apply (dict_set_values (λ url, Py.truthy_opt url = false)).
    + eexists urls, _. split; [| done]. unfold logged. simpl.
      rewrite <- !app_assoc. reflexivity.
Qed.

Lemma scrape_terms_without_url (fuel : nat) (w : world) (items : list (string * option string))
    (max_pages : Z) (output : string) (st : state Fast.ProductInfo) :
  Forall (λ kv, Py.truthy_opt kv.2 = false) items →
  ∃ out, Fast.scrape_terms fuel w items max_pages output st = (Returns tt, logged st [] out).
Proof.
  intros Hitems. revert st. induction Hitems as [|[term url] items Hurl _ IH]; intros st; simpl.
  - exists []. by rewrite logged_nil.
  - simpl in Hurl. rewrite Hurl. unfold bind at 1, print at 1. simpl.
    match goal with
    | |- context [Fast.scrape_terms fuel w items max_pages output ?s] =>
        destruct (IH s) as (out & ->)
    end.
    eexists. unfold logged. simpl. rewrite <- app_assoc, app_nil_r. reflexivity.
Qed.

(** X21.  When no search gives a URL, the session of myntra2_fast.py
    fetches nothing but the home page, once per search term, writes
    search_urls.json and no other file (so no CSV file appears), and returns
    the empty list: every term is skipped. *)
Theorem session_without_urls (fuel : nat) (w : world) (terms : list string) (max_pages : Z)
    (output : string) (st : state Fast.ProductInfo) :
  without_url w terms →
  ∃ search_urls st',
    Fast.run_scraping_session fuel w terms max_pages output st = (Returns [], st')
    ∧ fs st' = <["search_urls.json" := [JsonDoc (Fast.dump_urls search_urls)]]> (fs st)
    ∧ visited st' = visited st ++ replicate (length terms) "https://www.myntra.com".
Proof.
  intros Hnone. unfold Fast.run_scraping_session.
  unfold bind at 1, reset_buffer at 1. simpl.
  unfold bind at 1, print at 1. simpl.
  unfold bind at 1.
  match goal with
  | |- context [Fast.generate_urls w terms [] ?s] =>
      destruct (generate_urls_without_url w terms [] s Hnone (Forall_nil_2 _))
        as (urls & out & -> & Hurls)
  end.
  unfold bind at 1, write_file at 1. simpl.
  unfold bind at 1, finally, try_catch.
  match goal with
  | |- context [Fast.scrape_terms fuel w urls max_pages output ?s] =>
      destruct (scrape_terms_without_url fuel w urls max_pages output s Hurls) as (out' & ->)
  end.
  unfold Fast.close_browser. rewrite close_browser_run.
  unfold bind, read_buffer, print, ret. simpl.
  exists urls. eexists. split; [reflexivity |]. simpl. by rewrite app_nil_r.
Qed.

(** Without network no search gives a URL. *)
Lemma session_without_urls_witness :
  ∃ search_urls st',
    Fast.run_scraping_session 0 Sample.offline ["shirt"; "jeans"] 0 "products" (initial ∅)
    = (Returns [], st')
    ∧ fs st' = <["search_urls.json" := [JsonDoc (Fast.dump_urls search_urls)]]>
                 (fs (initial (R:=Fast.ProductInfo) ∅))
    ∧ visited st' = visited (initial (R:=Fast.ProductInfo) ∅)
                    ++ replicate (length ["shirt"; "jeans"]) "https://www.myntra.com".
Proof.
  apply session_without_urls.
  intros term _. exists None. split; [vm_compute; reflexivity | reflexivity].
Defined.
